(** * sf-toolkit: template synchronisation between a local repository and the platform

    A shallow embedding of [index.js] (the toolkit's entry module): identity
    resolution ([getTemplateId]), paginated import ([fetchAll...]), publishing
    ([publish...ByName]), creation ([newAccountTemplate]) and the [used_in]
    bookkeeping of shared parts ([addSharedPart], [removeSharedPart]).

    The JavaScript functions are [async] and run on a single thread; they are
    embedded as computations in a state-and-exception monad over a [World]
    that holds the config files on disk, the platform gateway [SF] and a
    chronological trace of the effects that were started.  The earlier entry
    module of the repository, with firm ids only, is embedded in [Legacy]. *)

From Stdlib Require Import ZArith String List Bool Lia.
From stdpp Require Import base option list countable gmap strings.

Local Open Scope Z_scope.
Local Open Scope string_scope.
Local Open Scope list_scope.

(** ** Data model *)

(** The [type] argument of the toolkit functions: ["firm"] or ["partner"].
    The source tests [type == "firm"] and treats every other value as the
    partner side. *)
Inductive Scope := firm | partner.

(** The [templateType] argument. *)
Inductive TemplateType :=
  reconciliationText | exportFile | accountTemplate | sharedPart.

#[global] Instance Scope_eq_dec : EqDecision Scope.
Proof. solve_decision. Defined.

#[global] Instance TemplateType_eq_dec : EqDecision TemplateType.
Proof. solve_decision. Defined.

Definition TemplateType_code (t : TemplateType) : positive :=
  match t with
  | reconciliationText => 1
  | exportFile => 2
  | accountTemplate => 3
  | sharedPart => 4
  end%positive.

Definition TemplateType_decode (p : positive) : option TemplateType :=
  match p with
  | 1 => Some reconciliationText
  | 2 => Some exportFile
  | 3 => Some accountTemplate
  | 4 => Some sharedPart
  | _ => None
  end%positive.

#[global] Instance TemplateType_countable : Countable TemplateType.
Proof.
  refine (inj_countable TemplateType_code TemplateType_decode _).
  intros []; reflexivity.
Defined.

(** Environment ids (firm or partner ids) are the keys of the [id] and
    [partnerId] objects of a config. *)
Abbreviation EnvId := Z.

(** Remote ids are the platform's database keys, numbered from 1.  A looked-up
    id [obj[envId]] is therefore falsy in JavaScript exactly when the key is
    absent, which is how [!templateId] and [if (targetId)] are read below. *)
Abbreviation RemoteId := positive.

Abbreviation IdMap := (gmap Z positive).

(** One element of a shared part's [used_in] array.  The source reads
    [template.handle], [template.name], [template.type] and dereferences
    [.id] and [.partnerId] without guarding them. *)
Record UsageEntry := mkUsage {
  u_id : IdMap;
  u_partnerId : IdMap;
  u_type : TemplateType;
  u_handle : option string;
  u_name : option string
}.

(** A [config.json].  Every field may be missing: the source reads them with
    [?.] and tests [typeof config.id !== "object"] and [!config.used_in]. *)
Record Config := mkConfig {
  c_id : option IdMap;
  c_partnerId : option IdMap;
  c_used_in : option (list UsageEntry);
  c_handle : option string;
  c_name : option string;
  c_name_nl : option string
}.

Definition set_c_id (m : IdMap) (c : Config) : Config :=
  mkConfig (Some m) (c_partnerId c) (c_used_in c) (c_handle c) (c_name c) (c_name_nl c).

Definition set_c_partnerId (m : IdMap) (c : Config) : Config :=
  mkConfig (c_id c) (Some m) (c_used_in c) (c_handle c) (c_name c) (c_name_nl c).

Definition set_c_used_in (l : list UsageEntry) (c : Config) : Config :=
  mkConfig (c_id c) (c_partnerId c) (Some l) (c_handle c) (c_name c) (c_name_nl c).

Definition set_u_id (m : IdMap) (u : UsageEntry) : UsageEntry :=
  mkUsage m (u_partnerId u) (u_type u) (u_handle u) (u_name u).

Definition set_u_partnerId (m : IdMap) (u : UsageEntry) : UsageEntry :=
  mkUsage (u_id u) m (u_type u) (u_handle u) (u_name u).

(** A template as read from disk by [ReconciliationText.read] and its
    siblings, with the two fields the API requires on top. *)
Record Template := mkTemplate {
  t_text : string;
  version_comment : option string;
  version_significant_change : option bool
}.

(** A record of the platform, as returned by the find-by-handle calls and
    inside the pages of the list calls. *)
Record Remote := mkRemote {
  r_id : RemoteId;
  r_label : string
}.

(** The [data] object of a gateway response. *)
Record Data := mkData {
  d_id : option RemoteId;
  d_handle : option string;
  d_name : option string;
  d_name_nl : option string
}.

(** A gateway response; [None] at type [option Response] is an
    [undefined]/[null] response. *)
Record Response := mkResponse {
  status : option Z;
  data : option Data
}.

(** JavaScript truthiness of the values the source tests. *)
Definition truthy_string (s : option string) : bool :=
  match s with
  | Some s => negb (String.eqb s "")
  | None => false
  end.

Definition truthy_number (n : option Z) : bool :=
  match n with
  | Some n => negb (Z.eqb n 0)
  | None => false
  end.

(** ** The platform gateway ([lib/api/sfApi], required as [SF])

    Only its calls appear in [index.js]; what the platform answers is left
    open, so the gateway is a record of answer functions. *)
Record Gateway := mkGateway {
  findReconciliationTextByHandle : Scope -> EnvId -> string -> option Remote;
  findExportFileByName : Scope -> EnvId -> string -> option Remote;
  findSharedPartByName : Scope -> EnvId -> string -> option Remote;
  findAccountTemplateByName : Scope -> EnvId -> string -> option Remote;
  readReconciliationTexts : Scope -> EnvId -> Z -> list Remote;
  readSharedParts : Scope -> EnvId -> Z -> list Remote;
  readSharedPartById : Scope -> EnvId -> RemoteId -> option Remote;
  updateReconciliationText : Scope -> EnvId -> RemoteId -> Template -> option Response;
  updateExportFile : Scope -> EnvId -> RemoteId -> Template -> option Response;
  updateAccountTemplate : Scope -> EnvId -> RemoteId -> Template -> option Response;
  updateSharedPart : Scope -> EnvId -> RemoteId -> Template -> option Response;
  createAccountTemplate : EnvId -> Template -> option Response;
  addSharedPartToReconciliation :
    Scope -> EnvId -> option RemoteId -> option RemoteId -> option Response;
  addSharedPartToExportFile :
    Scope -> EnvId -> option RemoteId -> option RemoteId -> option Response;
  addSharedPartToAccountTemplate :
    Scope -> EnvId -> option RemoteId -> option RemoteId -> option Response;
  removeSharedPartFromReconciliation :
    Scope -> EnvId -> RemoteId -> RemoteId -> option Response;
  removeSharedPartFromExportFile :
    Scope -> EnvId -> RemoteId -> RemoteId -> option Response;
  removeSharedPartFromAccountTemplate :
    Scope -> EnvId -> RemoteId -> RemoteId -> option Response
}.

(** ** Effects *)

Inductive Level := debug | warn | error | success | info | log.

(** The errors that are thrown in the modelled functions: a [TypeError] for
    reading a property of [undefined] or calling [undefined], and the error
    with which a gateway call is rejected (the spec's "thrown transport
    errors"). *)
Inductive JsError := TypeError | TransportError.

(** The console lines of the modelled functions, by what they report. *)
Inductive Message :=
  | GettingId (handle : string)
  | TemplateNotFound (handle : string) (type : Scope)
  | IdUpdated (handle : string) (type : Scope) (templateType : TemplateType)
  | NothingFound (templateType : TemplateType)
  | MissingId (templateType : TemplateType) (handle : string)
  | Updating (templateType : TemplateType) (handle : string)
  | Updated (templateType : TemplateType) (echo : string)
  | UpdateFailed (templateType : TemplateType) (handle : string)
  | AlreadyExists (templateType : TemplateType) (handle : string)
  | Created (templateType : TemplateType) (handle : string)
  | ExportFileOnPartnerUnsupported
  | AddFailed (sharedPart handle : string) (templateType : TemplateType)
  | Added (sharedPart handle : string) (templateType : TemplateType)
  | TemplateIdMissing (handle : string) (templateType : TemplateType)
  | SharedPartIdMissing (handle : string)
  | RemovedOnPlatform (sharedPartId templateId : RemoteId)
  | NotInSharedPartConfig (templateType : TemplateType) (templateId : RemoteId)
  | Removed (sharedPart handle : string) (templateType : TemplateType)
  | Imported (templateType : TemplateType) (label : string)
  | NotFoundById (templateType : TemplateType) (id : RemoteId)
  | Caught (e : JsError)
  | Ids (label : string) (ids : option (gmap Z positive)).

(** The network calls, by gateway operation. *)
Inductive Request :=
  | Find (templateType : TemplateType) (type : Scope) (envId : EnvId) (handle : string)
  | ReadPage (templateType : TemplateType) (type : Scope) (envId : EnvId) (page : Z)
  | ReadById (templateType : TemplateType) (type : Scope) (envId : EnvId) (id : RemoteId)
  | Update (templateType : TemplateType) (type : Scope) (envId : EnvId) (id : RemoteId)
  | Create (templateType : TemplateType) (envId : EnvId)
  | Attach (templateType : TemplateType) (type : Scope) (envId : EnvId)
      (sharedPartId templateId : option RemoteId)
  | Detach (templateType : TemplateType) (type : Scope) (envId : EnvId)
      (sharedPartId templateId : RemoteId).

Inductive Event :=
  | Network (r : Request)
  | ConfigExists (templateType : TemplateType) (handle : string)
  | ConfigRead (templateType : TemplateType) (handle : string)
  | ConfigWritten (templateType : TemplateType) (handle : string) (c : Config)
  | TemplateRead (templateType : TemplateType) (handle : string)
  | TemplateSaved (templateType : TemplateType) (type : Scope) (envId : EnvId) (r : Remote)
  | TemplateIdUpdated (templateType : TemplateType) (envId : EnvId)
      (handle : option string) (id : option RemoteId)
  | Console (l : Level) (m : Message)
  | ErrorHandler (e : JsError).

(** What a run sees and leaves behind: the config files, keyed by template
    type and handle; the template bodies on disk; the gateway; and the
    effects started so far, oldest first. *)
Record World := mkWorld {
  files : gmap (TemplateType * string) Config;
  templates : gmap (TemplateType * string) Template;
  SF : Gateway;
  trace : list Event
}.

(** How a call ends: it returns, it throws, or [process.exit] stops the
    whole run. *)
Inductive Outcome (A : Type) :=
  | Returned (a : A)
  | Threw (e : JsError)
  | Exited (code : Z).
Arguments Returned {A} a.
Arguments Threw {A} e.
Arguments Exited {A} code.

(** A computation over a state [W]: the monad of the embedding. *)
Definition Run (W A : Type) : Type := W -> Outcome A * W.

Section Run.
Context {W : Type}.

Definition ret {A} (a : A) : Run W A := fun w => (Returned a, w).

Definition throw {A} (e : JsError) : Run W A := fun w => (Threw e, w).

Definition bind {A B} (c : Run W A) (k : A -> Run W B) : Run W B :=
  fun w =>
    match c w with
    | (Returned a, w') => k a w'
    | (Threw e, w') => (Threw e, w')
    | (Exited n, w') => (Exited n, w')
    end.

(** [try { c } catch (error) { handler error }] *)
Definition try_catch {A} (c : Run W A) (handler : JsError -> Run W A) : Run W A :=
  fun w =>
    match c w with
    | (Returned a, w') => (Returned a, w')
    | (Threw e, w') => handler e w'
    | (Exited n, w') => (Exited n, w')
    end.

(** [process.exit(code)] *)
Definition exit {A} (code : Z) : Run W A := fun w => (Exited code, w).

End Run.

(** The calls of the current [index.js] run over a [World]. *)
Abbreviation Async := (Run World).

Notation "'let*' x ':=' c 'in' k" := (bind c (fun x => k))
  (at level 10, x name, c at level 100, k at level 200).
Notation "c ';;' k" := (bind c (fun _ => k))
  (at level 100, k at level 200, right associativity, only parsing).

Definition emit (e : Event) : Async unit :=
  fun w => (Returned tt, mkWorld (files w) (templates w) (SF w) (trace w ++ [e])).

Definition consola (l : Level) (m : Message) : Async unit := emit (Console l m).

(** A gateway call: the request goes out and the gateway's answer comes back. *)
Definition request {A} (r : Request) (answer : Gateway -> A) : Async A :=
  fun w => (Returned (answer (SF w)),
            mkWorld (files w) (templates w) (SF w) (trace w ++ [Network r])).

(** The transport under the gateway can fail: [transport r] is the error with
    which the call [r] is rejected, if it is.  [reliable] rejects no call. *)
Definition Transport := Request -> option JsError.

Definition reliable : Transport := fun _ => None.

(** An awaited gateway call over a transport: the request goes out, and
    either the gateway's answer comes back or the call is rejected and the
    [await] throws. *)
Definition await (transport : Transport) {A} (r : Request) (answer : Gateway -> A)
  : Async A :=
  match transport r with
  | None => request r answer
  | Some e => emit (Network r);; throw e
  end.

(** *** The config store ([lib/utils/fsUtils]) *)

(** Modelled from the spec: [fsUtils] is not part of [index.js].  The config
    store's interface is [read(templateType, handle) → Config | default-empty],
    [write(templateType, handle, Config)] and [exists(templateType, handle)];
    the default-empty config is taken to be the empty object. *)
Definition emptyConfig : Config := mkConfig None None None None None None.

Definition readConfig (templateType : TemplateType) (handle : string) : Async Config :=
  fun w => (Returned (default emptyConfig (files w !! (templateType, handle))),
            mkWorld (files w) (templates w) (SF w)
                    (trace w ++ [ConfigRead templateType handle])).

Definition writeConfig (templateType : TemplateType) (handle : string) (c : Config)
  : Async unit :=
  fun w => (Returned tt,
            mkWorld (<[(templateType, handle) := c]> (files w)) (templates w) (SF w)
                    (trace w ++ [ConfigWritten templateType handle c])).

Definition configExists (templateType : TemplateType) (handle : string) : Async bool :=
  fun w => (Returned (bool_decide (is_Some (files w !! (templateType, handle)))),
            mkWorld (files w) (templates w) (SF w)
                    (trace w ++ [ConfigExists templateType handle])).

(** Modelled from the spec: the template classes ([lib/templates/...]) are not
    part of [index.js].  [read(templateType, handle) → body | null]. *)
Definition readTemplate (templateType : TemplateType) (handle : string)
  : Async (option Template) :=
  fun w => (Returned (templates w !! (templateType, handle)),
            mkWorld (files w) (templates w) (SF w)
                    (trace w ++ [TemplateRead templateType handle])).

(** [errorUtils.errorHandler(error)], seen from [index.js]: the error is handed
    over and the [catch] block goes on. *)
Definition errorHandler (e : JsError) : Async unit := emit (ErrorHandler e).

(** [type == "firm" ? config?.id?.[envId] : config?.partnerId?.[envId]] *)
Definition scopeIds (type : Scope) (c : Config) : option IdMap :=
  match type with
  | firm => c_id c
  | partner => c_partnerId c
  end.

Definition configId (type : Scope) (envId : EnvId) (c : Config) : option RemoteId :=
  m ← scopeIds type c; m !! envId.

(** ** Identity resolution *)

Definition findByHandle (templateType : TemplateType)
  : Gateway -> Scope -> EnvId -> string -> option Remote :=
  match templateType with
  | reconciliationText => findReconciliationTextByHandle
  | exportFile => findExportFileByName
  | sharedPart => findSharedPartByName
  | accountTemplate => findAccountTemplateByName
  end.

Definition getTemplateId (type : Scope) (envId : EnvId)
    (templateType : TemplateType) (handle : string) : Async bool :=
  consola debug (GettingId handle);;
  let* templateText :=
    request (Find templateType type envId handle)
            (fun sf => findByHandle templateType sf type envId handle) in
  match templateText with
  | None =>
      consola warn (TemplateNotFound handle type);;
      ret false
  | Some templateText =>
      let* config := readConfig templateType handle in
      let config :=
        match c_id config with
        | Some _ => config
        | None => set_c_id ∅ config
        end in
      let config :=
        match c_partnerId config with
        | Some _ => config
        | None => set_c_partnerId ∅ config
        end in
      let config :=
        match type with
        | firm =>
            set_c_id (<[envId := r_id templateText]> (default ∅ (c_id config))) config
        | partner =>
            set_c_partnerId
              (<[envId := r_id templateText]> (default ∅ (c_partnerId config))) config
        end in
      writeConfig templateType handle config;;
      consola success (IdUpdated handle type templateType);;
      ret true
  end.

(** ** Bulk import *)

(** Modelled from the spec: the per-kind save routine ([ReconciliationText.save],
    [SharedPart.save]) is owned by the template classes, which are not part of
    [index.js]; a save is recorded as the effect [TemplateSaved]. *)
Definition saveTemplate (templateType : TemplateType) (type : Scope) (envId : EnvId)
    (template : Remote) : Async unit :=
  emit (TemplateSaved templateType type envId template).

(** *** Calls that are not awaited

    An [async] function runs, when it is called, up to its first [await];
    what follows the [await] runs later.  A call that is made and not awaited
    is embedded as a computation that does the first part and returns the
    rest, which is left pending.  The embedding of the caller runs what is
    pending where the event loop gets to it.  What waits for a promise that
    is settled already runs once the running function has returned or has
    come to an [await] of its own; what waits for an answer of the gateway
    runs when the answer is there, and the answers are taken to arrive in
    the order of the requests. *)
Definition Pending := Async unit.

(** [array.forEach(callback)] with [async] callbacks, which [forEach] does
    not await: the first part of each callback runs in turn, and the rests
    are left pending in the same order. *)
Fixpoint forEach {A} (l : list A) (callback : A -> Async Pending) : Async Pending :=
  match l with
  | [] => ret (ret tt)
  | x :: l =>
      let* rest := callback x in
      let* others := forEach l callback in
      ret (rest;; others)
  end.

(** The callback of [fetchAllReconciliations].  The save routine is called in
    the first part, where it does its work (the spec has the saves as
    handle-keyed file writes); the line that follows the [await] is the
    rest. *)
Definition importReconciliation (type : Scope) (envId : EnvId) (template : Remote)
  : Async Pending :=
  try_catch
    (saveTemplate reconciliationText type envId template;;
     ret (consola success (Imported reconciliationText (r_label template))))
    (fun e => consola error (Caught e);; ret (ret tt)).

(** [fetchAllReconciliations(type, envId, page = 1)], called while [pending]
    is left from the page before: the page is requested, and what is pending
    runs before the page is there.  The call for the next page is made at the
    end and is not awaited.  The recursion of the source goes on for as long
    as the platform serves non-empty pages; [fuel] bounds the number of pages
    requested, and running out of it is [None]. *)
Fixpoint fetchAllReconciliations_while (pending : Pending) (fuel : nat) (type : Scope)
    (envId : EnvId) (page : Z) : Async (option unit) :=
  match fuel with
  | O => ret None
  | S fuel =>
      let* templates :=
        request (ReadPage reconciliationText type envId page)
                (fun sf => readReconciliationTexts sf type envId page) in
      pending;;
      if (length templates =? 0)%nat then
        (if (page =? 1)%Z
         then consola error (NothingFound reconciliationText)
         else ret tt);;
        ret (Some tt)
      else
        let* pending := forEach templates (importReconciliation type envId) in
        fetchAllReconciliations_while pending fuel type envId (page + 1)
  end.

Definition fetchAllReconciliations : nat -> Scope -> EnvId -> Z -> Async (option unit) :=
  fetchAllReconciliations_while (ret tt).

(** [fetchSharedPartById(type, envId, sharedPartId)] from the point where the
    answer of the read is there.  (The [try] block of the source begins
    before the call.) *)
Definition fetchSharedPartById_answered (type : Scope) (envId : EnvId)
    (sharedPartId : RemoteId) (template : option Remote) : Async Remote :=
  try_catch
    (match template with
     | None =>
         consola error (NotFoundById sharedPart sharedPartId);;
         exit 1
     | Some data =>
         saveTemplate sharedPart type envId data;;
         consola success (Imported sharedPart (r_label data));;
         ret data
     end)
    (fun e => consola error (Caught e);; exit 1).

(** The call of [fetchSharedPartById]: the read goes out, the rest waits for
    its answer. *)
Definition fetchSharedPartById_started (type : Scope) (envId : EnvId)
    (sharedPartId : RemoteId) : Async (Async Remote) :=
  let* template :=
    request (ReadById sharedPart type envId sharedPartId)
            (fun sf => readSharedPartById sf type envId sharedPartId) in
  ret (fetchSharedPartById_answered type envId sharedPartId template).

(** [await fetchSharedPartById(type, envId, sharedPartId)] *)
Definition fetchSharedPartById (type : Scope) (envId : EnvId) (sharedPartId : RemoteId)
  : Async Remote :=
  let* rest := fetchSharedPartById_started type envId sharedPartId in
  rest.

(** The callback of [fetchAllSharedParts]. *)
Definition importSharedPart (type : Scope) (envId : EnvId) (sharedPart_ : Remote)
  : Async Pending :=
  let* rest := fetchSharedPartById_started type envId (r_id sharedPart_) in
  ret (try_catch (rest;; ret tt) (fun e => consola error (Caught e))).

(** [fetchAllSharedParts(type, envId, page = 1)]; [pending] and [fuel] as
    above.  The call for the next page is awaited here, which changes when
    the call returns and nothing in the order of what is run. *)
Fixpoint fetchAllSharedParts_while (pending : Pending) (fuel : nat) (type : Scope)
    (envId : EnvId) (page : Z) : Async (option unit) :=
  match fuel with
  | O => ret None
  | S fuel =>
      let* sharedParts :=
        request (ReadPage sharedPart type envId page)
                (fun sf => readSharedParts sf type envId page) in
      pending;;
      if (length sharedParts =? 0)%nat then
        (if (page =? 1)%Z
         then consola error (NothingFound sharedPart)
         else ret tt);;
        ret (Some tt)
      else
        let* pending := forEach sharedParts (importSharedPart type envId) in
        fetchAllSharedParts_while pending fuel type envId (page + 1)
  end.

Definition fetchAllSharedParts : nat -> Scope -> EnvId -> Z -> Async (option unit) :=
  fetchAllSharedParts_while (ret tt).

(** ** Publishing *)

(** [errorUtils.missingReconciliationId(handle)] and its siblings, seen from
    [index.js]: the missing id is reported and the caller goes on to
    [return false]. *)
Definition missingId (templateType : TemplateType) (handle : string) : Async unit :=
  consola error (MissingId templateType handle).

Definition updateOnPlatform (templateType : TemplateType)
  : Gateway -> Scope -> EnvId -> RemoteId -> Template -> option Response :=
  match templateType with
  | reconciliationText => updateReconciliationText
  | exportFile => updateExportFile
  | accountTemplate => updateAccountTemplate
  | sharedPart => updateSharedPart
  end.

(** The field of [response.data] that each publish function tests:
    [handle] for reconciliations, [name] for shared parts and export files,
    [name_nl] for account templates. *)
Definition echo (templateType : TemplateType) (d : Data) : option string :=
  match templateType with
  | reconciliationText => d_handle d
  | exportFile => d_name d
  | sharedPart => d_name d
  | accountTemplate => d_name_nl d
  end.

(** [response && response.data && response.data.handle], the value of the
    chain when it is truthy. *)
Definition echoed (templateType : TemplateType) (response : option Response)
  : option string :=
  match response with
  | None => None
  | Some response =>
      match data response with
      | None => None
      | Some d =>
          if truthy_string (echo templateType d) then echo templateType d else None
      end
  end.

(** [template.version_comment = message] *)
Definition commented (message : string) (template : Template) : Template :=
  mkTemplate (t_text template) (Some message) (version_significant_change template).

(** "Add API-only required fields": [template.version_comment = message],
    and [template.version_significant_change = false] when [type == "partner"]. *)
Definition stamped (type : Scope) (message : string) (template : Template) : Template :=
  let template := commented message template in
  match type with
  | partner => mkTemplate (t_text template) (version_comment template) (Some false)
  | firm => template
  end.

(** The body shared by [publishReconciliationByHandle], [publishExportFileByName],
    [publishAccountTemplateByName] and [publishSharedPartByName]: the four
    differ in the template class, the gateway call, the echoed field and the
    wording of the console lines.  The result is [true], [false] or
    [undefined] ([None]). *)
Definition publishTemplate (templateType : TemplateType) (type : Scope) (envId : EnvId)
    (handle : string) (message : string) : Async (option bool) :=
  try_catch
    (let* configPresent := configExists templateType handle in
     if negb configPresent then
       missingId templateType handle;;
       ret (Some false)
     else
       let* templateConfig := readConfig templateType handle in
       match configId type envId templateConfig with
       | None =>
           missingId templateType handle;;
           ret (Some false)
       | Some templateId =>
           consola debug (Updating templateType handle);;
           let* template := readTemplate templateType handle in
           match template with
           | None => ret None
           | Some template =>
               let template := stamped type message template in
               let* response :=
                 request (Update templateType type envId templateId)
                         (fun sf => updateOnPlatform templateType sf type envId
                                      templateId template) in
               match echoed templateType response with
               | Some e =>
                   consola success (Updated templateType e);;
                   ret (Some true)
               | None =>
                   consola error (UpdateFailed templateType handle);;
                   ret (Some false)
               end
           end
       end)
    (fun error => errorHandler error;; ret None).

Definition publishReconciliationByHandle := publishTemplate reconciliationText.
Definition publishExportFileByName := publishTemplate exportFile.
Definition publishAccountTemplateByName := publishTemplate accountTemplate.
Definition publishSharedPartByName := publishTemplate sharedPart.

(** ** Creation *)

(** Modelled from the spec: [AccountTemplate.updateTemplateId] belongs to the
    template classes, which are not part of [index.js]; the call is recorded
    as the effect [TemplateIdUpdated] with the arguments it is given. *)
Definition updateTemplateId (templateType : TemplateType) (firmId : EnvId)
    (handle : option string) (id : option RemoteId) : Async unit :=
  emit (TemplateIdUpdated templateType firmId handle id).

(** [response.data.name_nl]: reading [data] of a missing response, or
    [name_nl] of a missing [data], is a [TypeError]. *)
Definition data_name_nl (response : option Response) : Async (option string) :=
  match response with
  | None => throw TypeError
  | Some response =>
      match data response with
      | None => throw TypeError
      | Some d => ret (d_name_nl d)
      end
  end.

(** [response.data.id], read after [response] was found truthy. *)
Definition data_id (response : Response) : Async (option RemoteId) :=
  match data response with
  | None => throw TypeError
  | Some d => ret (d_id d)
  end.

(** The [try] block of [newAccountTemplate]. *)
Definition newAccountTemplate_try (firmId : EnvId) (name : string) : Async unit :=
  let* existingTemplate :=
    request (Find accountTemplate firm firmId name)
            (fun sf => findAccountTemplateByName sf firm firmId name) in
  match existingTemplate with
  | Some _ =>
      consola warn (AlreadyExists accountTemplate name);;
      ret tt
  | None =>
      let* template := readTemplate accountTemplate name in
      match template with
      | None => ret tt
      | Some template =>
          let template := commented "Created through the Silverfin CLI" template in
          let* response :=
            request (Create accountTemplate firmId)
                    (fun sf => createAccountTemplate sf firmId template) in
          let* handle := data_name_nl response in
          match response with
          | Some response =>
              if bool_decide (status response = Some 201%Z) then
                let* id := data_id response in
                updateTemplateId accountTemplate firmId handle id;;
                consola success (Created accountTemplate (default "undefined" handle))
              else ret tt
          | None => ret tt
          end
      end
  end.

Definition newAccountTemplate (firmId : EnvId) (name : string) : Async unit :=
  try_catch (newAccountTemplate_try firmId name) (fun e => errorHandler e).

(** ** The usage graph *)

(** The predicate of both [findIndex] calls:
    [templateHandle === template.handle || templateHandle === template.name]. *)
Definition sameHandle (templateHandle : string) (template : UsageEntry) : Prop :=
  u_handle template = Some templateHandle \/ u_name template = Some templateHandle.

#[global] Instance sameHandle_dec templateHandle template :
  Decision (sameHandle templateHandle template).
Proof. unfold sameHandle. apply _. Defined.

(** [used_in.findIndex(...)]: the first matching index and the entry there;
    [None] is the source's [-1]. *)
Definition findIndex (templateHandle : string) (used_in : list UsageEntry)
  : option (nat * UsageEntry) :=
  list_find (sameHandle templateHandle) used_in.

(** [obj[envId] = value].  An [undefined] value leaves no key behind once the
    config is written as JSON. *)
Definition assign (envId : EnvId) (value : option RemoteId) (obj : IdMap) : IdMap :=
  partial_alter (fun _ => value) envId obj.

(** [templateConfig.id[envId]] and [templateConfig?.partnerId[envId]]: the
    object itself is dereferenced unguarded. *)
Definition idOf (type : Scope) (envId : EnvId) (templateConfig : Config)
  : Async (option RemoteId) :=
  match scopeIds type templateConfig with
  | None => throw TypeError
  | Some ids => ret (ids !! envId)
  end.

Definition addSharedPartOnPlatform (templateType : TemplateType)
  : option (Gateway -> Scope -> EnvId -> option RemoteId -> option RemoteId ->
            option Response) :=
  match templateType with
  | reconciliationText => Some addSharedPartToReconciliation
  | exportFile => Some addSharedPartToExportFile
  | accountTemplate => Some addSharedPartToAccountTemplate
  | sharedPart => None
  end.

(** [(!response.status) === 201]: the negation is taken first, and a boolean
    is never strictly equal to a number. *)
Definition bool_strict_eq_number (b : bool) (n : Z) : bool := false.

(** [!response || !response.status || !response.status === 201] *)
Definition addRejected (response : option Response) : bool :=
  match response with
  | None => true
  | Some response =>
      negb (truthy_number (status response))
      || bool_strict_eq_number (negb (truthy_number (status response))) 201
  end.

(** The entry that [addSharedPart] pushes for a template that is not listed
    yet: the id object of the scope is the template config's, the other one
    is empty.  (The template config has that object whenever the template id
    was read from it, which is the case on every path to the push.) *)
Definition newUsage (type : Scope) (templateHandle : string) (templateType : TemplateType)
    (templateConfig : Config) : UsageEntry :=
  mkUsage
    (match type with firm => default ∅ (c_id templateConfig) | partner => ∅ end)
    (match type with partner => default ∅ (c_partnerId templateConfig) | firm => ∅ end)
    templateType (Some templateHandle) None.

(** "Store details in config files": the [used_in] array of the shared part
    after a successful call. *)
Definition storeUsage (type : Scope) (envId : EnvId) (templateHandle : string)
    (templateType : TemplateType) (templateConfig sharedPartConfig : Config)
  : Async (list UsageEntry) :=
  let used_in := default [] (c_used_in sharedPartConfig) in
  let templateIndex :=
    match c_used_in sharedPartConfig with
    | None => None
    | Some used_in => findIndex templateHandle used_in
    end in
  match templateIndex with
  | None =>
      ret (used_in ++ [newUsage type templateHandle templateType templateConfig])
  | Some (templateIndex, usedInTemplateConfig) =>
      let* usedInTemplateConfig :=
        match type with
        | firm =>
            let* value := idOf firm envId templateConfig in
            let usedInTemplateConfig :=
              set_u_id (assign envId value (u_id usedInTemplateConfig))
                       usedInTemplateConfig in
            consola log (Ids "usedInTemplateConfig.id" (Some (u_id usedInTemplateConfig)));;
            consola log (Ids "templateConfig.id" (c_id templateConfig));;
            ret usedInTemplateConfig
        | partner =>
            let* value := idOf partner envId templateConfig in
            ret (set_u_partnerId (assign envId value (u_partnerId usedInTemplateConfig))
                                 usedInTemplateConfig)
        end in
      ret (<[templateIndex := usedInTemplateConfig]> used_in)
  end.

(** "Missing ... ID. Try to identify it based on the handle": the config and
    the id to go on with, or [None] when the id could not be found. *)
Definition resolveMissing (type : Scope) (envId : EnvId) (templateType : TemplateType)
    (handle : string) (config : Config) : Async (option (Config * option RemoteId)) :=
  match configId type envId config with
  | Some id => ret (Some (config, Some id))
  | None =>
      let* updated := getTemplateId type envId templateType handle in
      if negb updated then ret None
      else
        let* config := readConfig templateType handle in
        ret (Some (config, configId type envId config))
  end.

(** [addSharedPart(type, envId, sharedPartName, templateHandle, templateType)]
    returns [false] ([None]) or the shared part's config. *)
Definition addSharedPart (type : Scope) (envId : EnvId) (sharedPartName : string)
    (templateHandle : string) (templateType : TemplateType) : Async (option Config) :=
  try_catch
    (if bool_decide (type = partner) && bool_decide (templateType = exportFile) then
       consola warn ExportFileOnPartnerUnsupported;;
       ret None
     else
       let* templateConfig := readConfig templateType templateHandle in
       let* sharedPartConfig := readConfig sharedPart sharedPartName in
       let* resolved := resolveMissing type envId templateType templateHandle templateConfig in
       match resolved with
       | None => ret None
       | Some (templateConfig, templateId) =>
           let* resolved :=
             resolveMissing type envId sharedPart sharedPartName sharedPartConfig in
           match resolved with
           | None => ret None
           | Some (sharedPartConfig, sharedPartId) =>
               match addSharedPartOnPlatform templateType with
               | None => throw TypeError
               | Some addOnPlatform =>
                   let* response :=
                     request (Attach templateType type envId sharedPartId templateId)
                             (fun sf => addOnPlatform sf type envId sharedPartId templateId) in
                   if addRejected response then
                     consola warn (AddFailed sharedPartName templateHandle templateType);;
                     ret None
                   else
                     let* used_in :=
                       storeUsage type envId templateHandle templateType
                                  templateConfig sharedPartConfig in
                     let sharedPartConfig := set_c_used_in used_in sharedPartConfig in
                     writeConfig templateType templateHandle templateConfig;;
                     writeConfig sharedPart sharedPartName sharedPartConfig;;
                     consola success (Added sharedPartName templateHandle templateType);;
                     ret (Some sharedPartConfig)
               end
           end
       end)
    (fun e => errorHandler e;; ret None).

Definition removeOnPlatform (templateType : TemplateType)
  : option (Gateway -> Scope -> EnvId -> RemoteId -> RemoteId -> option Response) :=
  match templateType with
  | reconciliationText => Some removeSharedPartFromReconciliation
  | exportFile => Some removeSharedPartFromExportFile
  | accountTemplate => Some removeSharedPartFromAccountTemplate
  | sharedPart => None
  end.

(** [type == "firm" ? usedInTemplateConfig.id : usedInTemplateConfig.partnerId] *)
Definition usageIds (type : Scope) (u : UsageEntry) : IdMap :=
  match type with
  | firm => u_id u
  | partner => u_partnerId u
  end.

(** [delete usedInTemplateConfig.id[envId]] or
    [delete usedInTemplateConfig.partnerId[envId]], by scope. *)
Definition deleteId (type : Scope) (envId : EnvId) (u : UsageEntry) : UsageEntry :=
  match type with
  | firm => set_u_id (delete envId (u_id u)) u
  | partner => set_u_partnerId (delete envId (u_partnerId u)) u
  end.

(** [Object.keys(usedInTemplateConfig.id).length +
     Object.keys(usedInTemplateConfig.partnerId).length] *)
Definition totalIds (u : UsageEntry) : nat := size (u_id u) + size (u_partnerId u).

(** "Remove reference from shared part config": the [used_in] array after the
    entry found at [templateIndex] was dealt with.  The two ids are compared
    through [toString()], which tells two ids apart exactly when they differ. *)
Definition pruneUsage (type : Scope) (envId : EnvId) (templateId : RemoteId)
    (templateIndex : nat) (usedInTemplateConfig : UsageEntry)
    (used_in : list UsageEntry) : list UsageEntry :=
  match usageIds type usedInTemplateConfig !! envId with
  | Some targetId =>
      if (totalIds usedInTemplateConfig <=? 1)%nat && bool_decide (templateId = targetId)
      then delete templateIndex used_in
      else <[templateIndex := deleteId type envId usedInTemplateConfig]> used_in
  | None => used_in
  end.

(** [removeSharedPart(type, envId, sharedPartHandle, templateHandle, templateType)]
    returns [false] ([Some false]) or nothing ([None]).  The function is
    embedded over a transport, so that the [await] of the detach call can
    throw into the [catch] block. *)
Module OverTransport.

Definition removeSharedPart (transport : Transport) (type : Scope) (envId : EnvId)
    (sharedPartHandle : string) (templateHandle : string) (templateType : TemplateType)
  : Async (option bool) :=
  try_catch
    (let* templateConfig := readConfig templateType templateHandle in
     let* sharedPartConfig := readConfig sharedPart sharedPartHandle in
     match configId type envId templateConfig with
     | None =>
         consola warn (TemplateIdMissing templateHandle templateType);;
         ret (Some false)
     | Some templateId =>
         match configId type envId sharedPartConfig with
         | None =>
             consola warn (SharedPartIdMissing templateHandle);;
             ret (Some false)
         | Some sharedPartId =>
             match removeOnPlatform templateType with
             | None => throw TypeError
             | Some removeSharedPart =>
                 let* response :=
                   await transport
                         (Detach templateType type envId sharedPartId templateId)
                         (fun sf => removeSharedPart sf type envId sharedPartId templateId) in
                 (if bool_decide ((response ≫= status) = Some 200%Z)
                  then consola debug (RemovedOnPlatform sharedPartId templateId)
                  else ret tt);;
                 match c_used_in sharedPartConfig with
                 | None => throw TypeError
                 | Some used_in =>
                     match findIndex templateHandle used_in with
                     | None =>
                         consola debug (NotInSharedPartConfig templateType templateId)
                     | Some (templateIndex, usedInTemplateConfig) =>
                         let used_in :=
                           pruneUsage type envId templateId templateIndex
                                      usedInTemplateConfig used_in in
                         writeConfig sharedPart sharedPartHandle
                                     (set_c_used_in used_in sharedPartConfig)
                     end;;
                     consola success (Removed sharedPartHandle templateHandle templateType);;
                     ret None
                 end
             end
         end
     end)
    (fun e => errorHandler e;; ret None).

End OverTransport.

(** [removeSharedPart] on a transport that rejects no call. *)
Definition removeSharedPart : Scope -> EnvId -> string -> string -> TemplateType ->
                              Async (option bool) :=
  OverTransport.removeSharedPart reliable.

(** ** Reading traces *)

Definition isNetwork (e : Event) : bool :=
  match e with
  | Network _ => true
  | _ => false
  end.

(** Reads and writes of config files. *)
Definition touchesConfig (e : Event) : bool :=
  match e with
  | ConfigRead _ _ | ConfigWritten _ _ _ => true
  | _ => false
  end.

Definition isConfigWrite (e : Event) : bool :=
  match e with
  | ConfigWritten _ _ _ => true
  | _ => false
  end.

(** The config a firm-or-partner id discovery leaves behind: both id objects
    are there, and the one of the scope has the found id under [envId]. *)
Definition withDiscoveredId (type : Scope) (envId : EnvId) (id : RemoteId)
    (config : Config) : Config :=
  let ids := default ∅ (c_id config) in
  let partnerIds := default ∅ (c_partnerId config) in
  match type with
  | firm =>
      mkConfig (Some (<[envId := id]> ids)) (Some partnerIds)
               (c_used_in config) (c_handle config) (c_name config) (c_name_nl config)
  | partner =>
      mkConfig (Some ids) (Some (<[envId := id]> partnerIds))
               (c_used_in config) (c_handle config) (c_name config) (c_name_nl config)
  end.


(** ** The first [index.js]

    The repository also holds the earlier entry module, in which every call
    takes a firm id only: there are no partner ids, a usage entry has an [id]
    object, a [type] and a [handle], and only reconciliation texts and shared
    parts are known.  Its [getTemplateId] and [addSharedPartToReconciliation]
    are embedded here, over a world of their own. *)
Module Legacy.

Record Usage := mkUsage {
  u_id : IdMap;
  u_type : string;
  u_handle : option string
}.

Record Config := mkConfig {
  c_id : option IdMap;
  c_used_in : option (list Usage);
  c_handle : option string;
  c_name : option string
}.

Definition set_c_id (m : IdMap) (c : Config) : Config :=
  mkConfig (Some m) (c_used_in c) (c_handle c) (c_name c).

Definition set_c_used_in (l : list Usage) (c : Config) : Config :=
  mkConfig (c_id c) (Some l) (c_handle c) (c_name c).

Definition set_u_id (m : IdMap) (u : Usage) : Usage :=
  mkUsage m (u_type u) (u_handle u).

(** The calls of [SF] that the two functions make. *)
Record Gateway := mkGateway {
  findReconciliationTextByHandle : EnvId -> string -> option Remote;
  findSharedPartByName : EnvId -> string -> option Remote;
  addSharedPartToReconciliationOnPlatform :
    EnvId -> option RemoteId -> option RemoteId -> option Response
}.

Inductive Request :=
  | Find (type : TemplateType) (firmId : EnvId) (handle : string)
  | Attach (firmId : EnvId) (sharedPartId reconciliationId : option RemoteId).

Inductive Message :=
  | NotFound (handle : string)
  | IdUpdated (handle : string)
  | ReconciliationIdNotFound (handle : string)
  | SharedPartIdNotFound (handle : string)
  | AddFailed (sharedPart handle : string)
  | Added (sharedPart handle : string).

Inductive Event :=
  | Network (r : Request)
  | ConfigRead (type : TemplateType) (handle : string)
  | ConfigWritten (type : TemplateType) (handle : string) (c : Config)
  | Console (m : Message)
  | ErrorHandler (e : JsError).

Record World := mkWorld {
  files : gmap (TemplateType * string) Config;
  SF : Gateway;
  trace : list Event
}.

Abbreviation Async := (Run World).

Definition emit (e : Event) : Async unit :=
  fun w => (Returned tt, mkWorld (files w) (SF w) (trace w ++ [e])).

Definition console (m : Message) : Async unit := emit (Console m).

Definition request {A} (r : Request) (answer : Gateway -> A) : Async A :=
  fun w => (Returned (answer (SF w)), mkWorld (files w) (SF w) (trace w ++ [Network r])).

(** Modelled from the spec: the config store, as for the current [index.js];
    the default-empty config is the empty object. *)
Definition emptyConfig : Config := mkConfig None None None None.

Definition readConfig (type : TemplateType) (handle : string) : Async Config :=
  fun w => (Returned (default emptyConfig (files w !! (type, handle))),
            mkWorld (files w) (SF w) (trace w ++ [ConfigRead type handle])).

Definition writeConfig (type : TemplateType) (handle : string) (c : Config) : Async unit :=
  fun w => (Returned tt,
            mkWorld (<[(type, handle) := c]> (files w)) (SF w)
                    (trace w ++ [ConfigWritten type handle c])).

Definition errorHandler (e : JsError) : Async unit := emit (ErrorHandler e).

(** [getTemplateId(firmId, type, handle)]: the [switch] knows
    ["reconciliationText"] and ["sharedPart"]; for another type no call is
    made and [templateText] stays [undefined]. *)
Definition getTemplateId (firmId : EnvId) (type : TemplateType) (handle : string)
  : Async bool :=
  let* templateText :=
    match type with
    | reconciliationText =>
        request (Find reconciliationText firmId handle)
                (fun sf => findReconciliationTextByHandle sf firmId handle)
    | sharedPart =>
        request (Find sharedPart firmId handle)
                (fun sf => findSharedPartByName sf firmId handle)
    | _ => ret None
    end in
  match templateText with
  | None =>
      console (NotFound handle);;
      ret false
  | Some templateText =>
      let* config := readConfig type handle in
      let config :=
        match c_id config with
        | Some _ => config
        | None => set_c_id ∅ config
        end in
      let config :=
        set_c_id (<[firmId := r_id templateText]> (default ∅ (c_id config))) config in
      writeConfig type handle config;;
      console (IdUpdated handle);;
      ret true
  end.

(** [config.id[firmId]]: the [id] object is dereferenced unguarded. *)
Definition idOf (firmId : EnvId) (config : Config) : Async (option RemoteId) :=
  match c_id config with
  | None => throw TypeError
  | Some ids => ret (ids !! firmId)
  end.

(** "Store details in config files": [used_in] after the reconciliation with
    id [reconciliationId] was attached; the entry is looked up by its handle. *)
Definition storedUsage (firmId : EnvId) (reconciliationHandle : string)
    (reconciliationId : option RemoteId) (used_in : option (list Usage)) : list Usage :=
  let reconciliationIndex :=
    match used_in with
    | None => None
    | Some used_in =>
        list_find (fun entry => u_handle entry = Some reconciliationHandle) used_in
    end in
  let used_in := default [] used_in in
  match reconciliationIndex with
  | None =>
      used_in ++ [mkUsage (assign firmId reconciliationId ∅) "reconciliation"
                          (Some reconciliationHandle)]
  | Some (reconciliationIndex, entry) =>
      <[reconciliationIndex :=
          set_u_id (assign firmId reconciliationId (u_id entry)) entry]> used_in
  end.

(** "Missing ... ID": the config to go on with, or [None] when the id was not
    found on the platform. *)
Definition resolveMissing (firmId : EnvId) (type : TemplateType) (handle : string)
    (notFound : Message) (config : Config) : Async (option Config) :=
  let* id := idOf firmId config in
  match id with
  | Some _ => ret (Some config)
  | None =>
      let* updated := getTemplateId firmId type handle in
      if negb updated then
        console notFound;;
        ret None
      else
        let* config := readConfig type handle in
        ret (Some config)
  end.

Definition addSharedPartToReconciliation (firmId : EnvId)
    (sharedPartHandle reconciliationHandle : string) : Async bool :=
  try_catch
    (let* configReconciliation := readConfig reconciliationText reconciliationHandle in
     let* configSharedPart := readConfig sharedPart sharedPartHandle in
     let* resolved :=
       resolveMissing firmId reconciliationText reconciliationHandle
         (ReconciliationIdNotFound reconciliationHandle) configReconciliation in
     match resolved with
     | None => ret false
     | Some configReconciliation =>
         let* resolved :=
           resolveMissing firmId sharedPart sharedPartHandle
             (SharedPartIdNotFound sharedPartHandle) configSharedPart in
         match resolved with
         | None => ret false
         | Some configSharedPart =>
             let* sharedPartId := idOf firmId configSharedPart in
             let* reconciliationId := idOf firmId configReconciliation in
             let* response :=
               request (Attach firmId sharedPartId reconciliationId)
                       (fun sf => addSharedPartToReconciliationOnPlatform sf firmId
                                    sharedPartId reconciliationId) in
             if addRejected response then
               console (AddFailed sharedPartHandle reconciliationHandle);;
               ret false
             else
               console (Added sharedPartHandle reconciliationHandle);;
               let configSharedPart :=
                 set_c_used_in
                   (storedUsage firmId reconciliationHandle reconciliationId
                                (c_used_in configSharedPart))
                   configSharedPart in
               writeConfig sharedPart sharedPartHandle configSharedPart;;
               writeConfig reconciliationText reconciliationHandle configReconciliation;;
               ret true
         end
     end)
    (fun e => errorHandler e;; ret false).

(** Reads and writes of config files. *)
Definition touchesConfig (e : Event) : bool :=
  match e with
  | ConfigRead _ _ | ConfigWritten _ _ _ => true
  | _ => false
  end.

Definition usageKey (u : Usage) : string * option string := (u_type u, u_handle u).

(** The sample of the current module, as the first one sees it: [recon_y] has
    id 42 and [sp_x] id 7 in firm 111; attach calls are answered with
    status 500. *)
Definition recon_y : Config := mkConfig (Some {[111 := 42%positive]}) None (Some "recon_y") None.

Definition sp_x : Config := mkConfig (Some {[111 := 7%positive]}) None None (Some "sp_x").

Definition platformDown : World :=
  mkWorld {[(reconciliationText, "recon_y") := recon_y; (sharedPart, "sp_x") := sp_x]}
          (mkGateway (fun _ _ => None) (fun _ _ => None)
                     (fun _ _ _ => Some (mkResponse (Some 500) None)))
          [].

End Legacy.

(** ** Sample repositories

    Small worlds on which the functions above are run: the reconciliation
    [recon_y] has id 42 in firm 111, the shared part [sp_x] has id 7 there. *)
Module Sample.

(** A platform given by what it finds by handle or name, the pages it
    lists, the shared parts it reads by id, and its answers to update,
    create, attach and detach calls. *)
Definition platform
    (find : TemplateType -> string -> option Remote)
    (pages : TemplateType -> Z -> list Remote)
    (byId : RemoteId -> option Remote)
    (update create attach detach : option Response) : Gateway :=
  mkGateway
    (fun _ _ => find reconciliationText) (fun _ _ => find exportFile)
    (fun _ _ => find sharedPart) (fun _ _ => find accountTemplate)
    (fun _ _ => pages reconciliationText) (fun _ _ => pages sharedPart)
    (fun _ _ => byId)
    (fun _ _ _ _ => update) (fun _ _ _ _ => update) (fun _ _ _ _ => update)
    (fun _ _ _ _ => update)
    (fun _ _ => create)
    (fun _ _ _ _ => attach) (fun _ _ _ _ => attach) (fun _ _ _ _ => attach)
    (fun _ _ _ _ => detach) (fun _ _ _ _ => detach) (fun _ _ _ _ => detach).

(** A platform that knows nothing and answers nothing. *)
Definition silent : Gateway :=
  platform (fun _ _ => None) (fun _ _ => []) (fun _ => None) None None None None.

Definition recon_y : Config :=
  mkConfig (Some {[111 := 42%positive]}) (Some ∅) None (Some "recon_y") None None.

Definition body : Template := mkTemplate "{% comment %}recon_y{% endcomment %}" None None.

Definition repository (sf : Gateway) : World :=
  mkWorld {[(reconciliationText, "recon_y") := recon_y]}
          {[(reconciliationText, "recon_y") := body;
            (accountTemplate, "vat") := body]}
          sf [].

(** The update of a reconciliation is answered with status 200 and the
    handle of another reconciliation. *)
Definition echoesAnother : Gateway :=
  platform (fun _ _ => None) (fun _ _ => []) (fun _ => None)
    (Some (mkResponse (Some 200)
             (Some (mkData (Some 43%positive) (Some "recon_z") None None))))
    None None None.

(** A create call is answered with status 201 and no [data]. *)
Definition createsWithoutData : Gateway :=
  platform (fun _ _ => None) (fun _ _ => []) (fun _ => None)
    None (Some (mkResponse (Some 201) None)) None None.

(** The scenario of an attach: [sp_x] has no id yet and the platform finds
    it as shared part 7; attach calls are answered with status 201. *)
Definition sp_x_without_id : Config :=
  mkConfig None None None None (Some "sp_x") None.

Definition attaches : Gateway :=
  platform
    (fun templateType handle =>
       match templateType with
       | sharedPart => if String.eqb handle "sp_x" then Some (mkRemote 7 "sp_x") else None
       | _ => None
       end)
    (fun _ _ => []) (fun _ => None)
    None None (Some (mkResponse (Some 201) None)) None.

Definition beforeAttach : World :=
  mkWorld {[(reconciliationText, "recon_y") := recon_y;
            (sharedPart, "sp_x") := sp_x_without_id]}
          ∅ attaches [].

(** Both ids are known; attach calls are answered with status 500. *)
Definition sp_x : Config :=
  mkConfig (Some {[111 := 7%positive]}) (Some ∅) None None (Some "sp_x") None.

Definition fails500 : Gateway :=
  platform (fun _ _ => None) (fun _ _ => []) (fun _ => None)
    None None (Some (mkResponse (Some 500) None)) None.

Definition platformDown : World :=
  mkWorld {[(reconciliationText, "recon_y") := recon_y;
            (sharedPart, "sp_x") := sp_x]}
          ∅ fails500 [].

(** [sp_x] is attached to [recon_y] in firm 111, and once more with a
    second firm, 222, in the same entry. *)
Definition sp_x_attached : Config :=
  mkConfig (Some {[111 := 7%positive]}) (Some ∅)
    (Some [mkUsage {[111 := 42%positive]} ∅ reconciliationText (Some "recon_y") None])
    None (Some "sp_x") None.

Definition sp_x_attached_twice : Config :=
  mkConfig (Some {[111 := 7%positive]}) (Some ∅)
    (Some [mkUsage {[111 := 42%positive; 222 := 43%positive]} ∅
             reconciliationText (Some "recon_y") None])
    None (Some "sp_x") None.

(** Detach calls are answered with the given status. *)
Definition detaches (status : Z) : Gateway :=
  platform (fun _ _ => None) (fun _ _ => []) (fun _ => None)
    None None None (Some (mkResponse (Some status) None)).

Definition attached (sp : Config) (sf : Gateway) : World :=
  mkWorld {[(reconciliationText, "recon_y") := recon_y; (sharedPart, "sp_x") := sp]}
          ∅ sf [].

(** A reconciliation and an export file share the handle [vat]; the shared
    part [sp_x] is attached to the reconciliation only. *)
Definition vat_reconciliation : Config :=
  mkConfig (Some {[111 := 42%positive]}) (Some ∅) None (Some "vat") None None.

Definition vat_export : Config :=
  mkConfig (Some {[111 := 55%positive]}) (Some ∅) None None (Some "vat") None.

Definition sp_x_in_vat : Config :=
  mkConfig (Some {[111 := 7%positive]}) (Some ∅)
           (Some [mkUsage {[111 := 42%positive]} ∅ reconciliationText (Some "vat") None])
           None (Some "sp_x") None.

Definition sameHandleTwice : World :=
  mkWorld {[(reconciliationText, "vat") := vat_reconciliation;
            (exportFile, "vat") := vat_export;
            (sharedPart, "sp_x") := sp_x_in_vat]}
          ∅ attaches [].

(** Three records on two pages: [A, B], [C], and empty pages after them. *)
Definition A : Remote := mkRemote 1 "A".
Definition B : Remote := mkRemote 2 "B".
Definition C : Remote := mkRemote 3 "C".

Definition twoPages : Gateway :=
  platform (fun _ _ => None)
    (fun _ page => if (page =? 1)%Z then [A; B] else if (page =? 2)%Z then [C] else [])
    (fun id => list_find (fun r => r_id r = id) [A; B; C] ≫= fun found => Some found.2)
    None None None None.

(** The same pages, but nothing is read under the id of [B]. *)
Definition twoPagesWithoutB : Gateway :=
  platform (fun _ _ => None)
    (fun _ page => if (page =? 1)%Z then [A; B] else if (page =? 2)%Z then [C] else [])
    (fun id => list_find (fun r => r_id r = id) [A; C] ≫= fun found => Some found.2)
    None None None None.

End Sample.

(** ** Page sequences *)

(** The list call [read] serves [pages], in order, from page number [first]
    on, and an empty page after the last of them. *)
Definition serves (read : Z -> list Remote) (first : Z) (pages : list (list Remote))
  : Prop :=
  forall i : nat, (i <= length pages)%nat -> read (first + Z.of_nat i)%Z = nth i pages [].

(** The records saved, the page numbers requested and the "nothing found"
    lines in a trace, each in order. *)
Definition saved (events : list Event) : list Remote :=
  omap (fun e => match e with TemplateSaved _ _ _ r => Some r | _ => None end) events.

Definition pagesRequested (events : list Event) : list Z :=
  omap (fun e => match e with Network (ReadPage _ _ _ page) => Some page | _ => None end)
       events.

Definition nothingFound (events : list Event) : list TemplateType :=
  omap (fun e => match e with Console _ (NothingFound t) => Some t | _ => None end)
       events.

(** The page requests and the saves in a trace, in order. *)
Definition pagesAndSaves (events : list Event) : list (Z + Remote) :=
  omap (fun e =>
          match e with
          | Network (ReadPage _ _ _ page) => Some (inl page)
          | TemplateSaved _ _ _ r => Some (inr r)
          | _ => None
          end)
       events.

(** Page by page from [page] on: the request of a page, the records of the
    page, and at the end the request that is answered with the empty page. *)
Fixpoint pageByPage {A} (request : Z -> A) (record : Remote -> A) (page : Z)
    (pages : list (list Remote)) : list A :=
  match pages with
  | [] => [request page]
  | records :: pages =>
      request page :: map record records ++ pageByPage request record (page + 1) pages
  end.

(** What an import that starts at [page] while the events [pending] are still
    to come leaves in the trace, when the platform serves [pages] and then an
    empty page: per page the request, then what was pending, then the first
    part of each record's callback, the rests being pending for the next
    page; at the end the request that is answered with the empty page, what
    was pending, and the "nothing found" line if that was page 1. *)
Fixpoint importTrace (templateType : TemplateType) (type : Scope) (envId : EnvId)
    (started rest : Remote -> list Event) (pending : list Event) (page : Z)
    (pages : list (list Remote)) : list Event :=
  match pages with
  | [] =>
      Network (ReadPage templateType type envId page)
      :: pending
      ++ (if (page =? 1)%Z then [Console error (NothingFound templateType)] else [])
  | records :: pages =>
      Network (ReadPage templateType type envId page)
      :: pending
      ++ flat_map started records
      ++ importTrace templateType type envId started rest (flat_map rest records)
           (page + 1) pages
  end.

Definition reconciliationSaved (type : Scope) (envId : EnvId) (template : Remote)
  : list Event :=
  [TemplateSaved reconciliationText type envId template].

Definition reconciliationImported (template : Remote) : list Event :=
  [Console success (Imported reconciliationText (r_label template))].

Definition sharedPartRequested (type : Scope) (envId : EnvId) (sharedPart_ : Remote)
  : list Event :=
  [Network (ReadById sharedPart type envId (r_id sharedPart_))].

Definition sharedPartImported (type : Scope) (envId : EnvId) (sharedPart_ : Remote)
  : list Event :=
  [TemplateSaved sharedPart type envId sharedPart_;
   Console success (Imported sharedPart (r_label sharedPart_))].

(** ** Effects of a call *)

(** Every run of [c] only adds events to the trace, and each added event
    satisfies [P]. *)
Definition emits {A} (P : Event -> Prop) (c : Async A) : Prop :=
  forall w, exists events, trace (c w).2 = trace w ++ events /\ Forall P events.

(** ** The [used_in] array after an attach *)

(** An entry with [id] stored under [envId] in the id object of the scope. *)
Definition withUsageId (type : Scope) (envId : EnvId) (id : RemoteId) (u : UsageEntry)
  : UsageEntry :=
  match type with
  | firm => set_u_id (<[envId := id]> (u_id u)) u
  | partner => set_u_partnerId (<[envId := id]> (u_partnerId u)) u
  end.

(** [used_in] after the template with id [id] in the scope was attached:
    the first entry with the template's handle or name gets the id, and when
    there is none, a new entry is appended. *)
Definition storedUsage (type : Scope) (envId : EnvId) (templateHandle : string)
    (templateType : TemplateType) (id : RemoteId) (templateConfig : Config)
    (used_in : list UsageEntry) : list UsageEntry :=
  match findIndex templateHandle used_in with
  | None => used_in ++ [newUsage type templateHandle templateType templateConfig]
  | Some (templateIndex, usedInTemplateConfig) =>
      <[templateIndex := withUsageId type envId id usedInTemplateConfig]> used_in
  end.

(** The pair that the data model takes as the key of a usage entry. *)
Definition usageKey (u : UsageEntry) : TemplateType * option string :=
  (u_type u, u_handle u).

(** The config that [addSharedPart] goes on with after "Missing ... ID": the
    one on disk, completed with a found id when it had none. *)
Definition resolved (type : Scope) (envId : EnvId) (onDisk config : Config) : Prop :=
  config = onDisk \/
  (configId type envId onDisk = None /\
   exists id, config = withDiscoveredId type envId id onDisk).


(** ** The [used_in] array after a detach *)

(** The other scope. *)
Definition otherScope (type : Scope) : Scope :=
  match type with
  | firm => partner
  | partner => firm
  end.

(** The entry is dropped when it holds at most one id in all and the id it
    holds under [envId] in the scope is the template's; otherwise it stays,
    without the key [envId] in the id object of the scope. *)
Definition prunedUsage (type : Scope) (envId : EnvId) (templateId : RemoteId)
    (templateIndex : nat) (usedInTemplateConfig : UsageEntry)
    (used_in : list UsageEntry) : list UsageEntry :=
  if decide ((totalIds usedInTemplateConfig <= 1)%nat /\
             usageIds type usedInTemplateConfig !! envId = Some templateId)
  then delete templateIndex used_in
  else <[templateIndex := deleteId type envId usedInTemplateConfig]> used_in.

From Stdlib Require Import Ascii.

(** ** Further definitions *)

(** The entries of [used_in] that [findIndex] passes over for
    [templateHandle]: neither their handle nor their name is the template's. *)
Definition otherHandles (templateHandle : string) (used_in : list UsageEntry)
  : list UsageEntry :=
  filter (fun u => ~ sameHandle templateHandle u) used_in.

(** The [used_in] list of the shared part [name] as it is on disk; a missing
    file or a missing list reads as the empty list. *)
Definition usedInOnDisk (w : World) (name : string) : list UsageEntry :=
  default [] (c_used_in (default emptyConfig (files w !! (sharedPart, name)))).

(** At most one entry of [used_in] has the handle or name [templateHandle]. *)
Definition oneEntryFor (templateHandle : string) (used_in : list UsageEntry) : Prop :=
  forall j k x y,
    used_in !! j = Some x -> used_in !! k = Some y ->
    sameHandle templateHandle x -> sameHandle templateHandle y -> j = k.

(** ** Further calls of [index.js] *)

(** The calls of [SF] that the functions below make and [Gateway] does not
    list.  [readReconciliationTextById] answers with an object whose [data]
    is the record; [None] is no answer, [Some None] an answer without
    [data]. *)
Record FurtherCalls := mkFurtherCalls {
  createReconciliationText : Scope -> EnvId -> Template -> option Response;
  createSharedPart : EnvId -> Template -> option Response;
  createExportFile : EnvId -> Template -> option Response;
  readReconciliationTextById : Scope -> EnvId -> RemoteId -> option (option Remote)
}.

(** [for (let x of l) { await body(x) }] *)
Fixpoint forOf {A} (l : list A) (body : A -> Async unit) : Async unit :=
  match l with
  | [] => ret tt
  | x :: l => body x;; forOf l body
  end.

(** [a || b || c] on values that are strings or [undefined]. *)
Definition firstTruthy (a b c : option string) : option string :=
  if truthy_string a then a else if truthy_string b then b else c.

Section Further.
Context (more : FurtherCalls).

(** Modelled from the spec: [fsUtils.getAllTemplatesOfAType] is the config
    store's [listHandles(templateType) → sequence of handle]; each function
    below calls it once, so it is the list it returns. *)
Context (getAllTemplatesOfAType : TemplateType -> list string).

(** The body shared by [publishAllReconciliations], [publishAllExportFiles],
    [publishAllAccountTemplates] and [publishAllSharedParts]. *)
Definition publishAllTemplates (templateType : TemplateType) (type : Scope)
    (envId : EnvId) (message : string) : Async unit :=
  let templates_ := getAllTemplatesOfAType templateType in
  forOf templates_ (fun handle =>
    if negb (truthy_string (Some handle)) then ret tt
    else
      publishTemplate templateType type envId handle message;;
      ret tt).

Definition publishAllReconciliations := publishAllTemplates reconciliationText.
Definition publishAllExportFiles := publishAllTemplates exportFile.
Definition publishAllAccountTemplates := publishAllTemplates accountTemplate.
Definition publishAllSharedParts := publishAllTemplates sharedPart.

(** The body of the loop of [getAllTemplatesId], for one [templateName] of
    the listing. *)
Definition getAllTemplatesId_each (type : Scope) (envId : EnvId)
    (templateType : TemplateType) (templateName : string) : Async unit :=
  let* configTemplate := readConfig templateType templateName in
  let handle :=
    firstTruthy (c_handle configTemplate) (c_name configTemplate)
                (c_name_nl configTemplate) in
  if negb (truthy_string handle) then ret tt
  else
    match handle with
    | Some handle =>
        getTemplateId type envId templateType handle;;
        ret tt
    | None => ret tt
    end.

(** [getAllTemplatesId(type, envId, templateType)] *)
Definition getAllTemplatesId (type : Scope) (envId : EnvId) (templateType : TemplateType)
  : Async unit :=
  try_catch
    (let templates_ := getAllTemplatesOfAType templateType in
     forOf templates_ (getAllTemplatesId_each type envId templateType))
    (fun e => errorHandler e).

(** The body shared by [newReconciliation], [newExportFile] and
    [newSharedPart]: they differ in the find and create calls, the level of
    the "already exists" line and the comment put on the template. *)
Definition newTemplate (templateType : TemplateType) (existsLevel : Level)
    (comment : string) (create : EnvId -> Template -> option Response)
    (firmId : EnvId) (handle : string) : Async unit :=
  try_catch
    (let* existingTemplate :=
       request (Find templateType firm firmId handle)
               (fun sf => findByHandle templateType sf firm firmId handle) in
     match existingTemplate with
     | Some _ =>
         consola existsLevel (AlreadyExists templateType handle);;
         ret tt
     | None =>
         let* template := readTemplate templateType handle in
         match template with
         | None => ret tt
         | Some template =>
             let template := commented comment template in
             let* response :=
               request (Create templateType firmId) (fun _ => create firmId template) in
             match response with
             | Some response =>
                 if bool_decide (status response = Some 201%Z) then
                   let* id := data_id response in
                   updateTemplateId templateType firmId (Some handle) id;;
                   consola success (Created templateType handle)
                 else ret tt
             | None => ret tt
             end
         end
     end)
    (fun e => errorHandler e).

Definition newReconciliation :=
  newTemplate reconciliationText warn "Created with the Silverfin CLI"
              (createReconciliationText more firm).

Definition newExportFile :=
  newTemplate exportFile info "Created through the Silverfin CLI" (createExportFile more).

Definition newSharedPart :=
  newTemplate sharedPart warn "Created through the API" (createSharedPart more).

(** The body shared by [newAllReconciliations], [newAllExportFiles] and
    [newAllSharedParts]. *)
Definition newAllTemplates (templateType : TemplateType) (existsLevel : Level)
    (comment : string) (create : EnvId -> Template -> option Response)
    (firmId : EnvId) : Async unit :=
  let templates_ := getAllTemplatesOfAType templateType in
  forOf templates_ (fun handle =>
    newTemplate templateType existsLevel comment create firmId handle).

Definition newAllReconciliations :=
  newAllTemplates reconciliationText warn "Created with the Silverfin CLI"
                  (createReconciliationText more firm).

Definition newAllExportFiles :=
  newAllTemplates exportFile info "Created through the Silverfin CLI"
                  (createExportFile more).

Definition newAllSharedParts :=
  newAllTemplates sharedPart warn "Created through the API" (createSharedPart more).

(** [fetchReconciliationById(type, envId, id)] from the point where the
    answer of the read is there; the object it returns is not used by its
    callers in [index.js].  (The [try] block of the source begins before the
    call.) *)
Definition fetchReconciliationById_answered (type : Scope) (envId : EnvId) (id : RemoteId)
    (template : option (option Remote)) : Async unit :=
  try_catch
    (match template with
     | Some (Some data) =>
         saveTemplate reconciliationText type envId data;;
         consola success (Imported reconciliationText (r_label data))
     | _ =>
         consola error (NotFoundById reconciliationText id);;
         exit 1
     end)
    (fun e => consola error (Caught e);; exit 1).

(** The call of [fetchReconciliationById]: the read goes out, the rest waits
    for its answer. *)
Definition fetchReconciliationById_started (type : Scope) (envId : EnvId) (id : RemoteId)
  : Async Pending :=
  let* template :=
    request (ReadById reconciliationText type envId id)
            (fun _ => readReconciliationTextById more type envId id) in
  ret (fetchReconciliationById_answered type envId id template).

(** [await fetchReconciliationById(type, envId, id)] *)
Definition fetchReconciliationById (type : Scope) (envId : EnvId) (id : RemoteId)
  : Async unit :=
  let* rest := fetchReconciliationById_started type envId id in
  rest.

(** [fetchReconciliationByHandle(type, envId, handle)].  [readConfig] gives
    an object, the empty one when there is no file, so the check
    [!templateConfig] never fires.  The call of [fetchReconciliationById] at
    the end is not awaited: the function returns when the read has gone out,
    and what it returns here is the rest of that call, which is pending. *)
Definition fetchReconciliationByHandle (type : Scope) (envId : EnvId) (handle : string)
  : Async Pending :=
  try_catch
    (let* templateConfig := readConfig reconciliationText handle in
     let* id :=
       match configId type envId templateConfig with
       | Some id => ret id
       | None =>
           let* existingTemplate :=
             request (Find reconciliationText type envId handle)
                     (fun sf => findReconciliationTextByHandle sf type envId handle) in
           match existingTemplate with
           | None =>
               consola error (TemplateNotFound handle type);;
               exit 1
           | Some existingTemplate => ret (r_id existingTemplate)
           end
       end in
     fetchReconciliationById_started type envId id)
    (fun e => consola error (Caught e);; exit 1).

(** [fetchSharedPartByName(type, envId, name)] *)
Definition fetchSharedPartByName (type : Scope) (envId : EnvId) (name : string)
  : Async Remote :=
  let* sharedPartByName :=
    request (Find sharedPart type envId name)
            (fun sf => findSharedPartByName sf type envId name) in
  match sharedPartByName with
  | None =>
      consola error (TemplateNotFound name type);;
      exit 1
  | Some sharedPartByName => fetchSharedPartById type envId (r_id sharedPartByName)
  end.

End Further.

(** ** Reading the outcome of the further calls *)

(** The network calls that creating [handle] makes: the lookup, and the create
    call when the platform does not know the handle and the template can be
    read. *)
Definition creationCalls (w : World) (templateType : TemplateType) (firmId : EnvId)
    (handle : string) : list Event :=
  Network (Find templateType firm firmId handle) ::
  match findByHandle templateType (SF w) firm firmId handle,
        templates w !! (templateType, handle) with
  | None, Some _ => [Network (Create templateType firmId)]
  | _, _ => []
  end.

(** The config of [handle] as [readConfig] gives it. *)
Definition configOnDisk (w : World) (templateType : TemplateType) (handle : string)
  : Config :=
  default emptyConfig (files w !! (templateType, handle)).

(** The handle, name or Dutch name that the config of [templateName] holds,
    read as [getAllTemplatesId] reads it. *)
Definition handleOnDisk (w : World) (templateType : TemplateType) (templateName : string)
  : option string :=
  let configTemplate := configOnDisk w templateType templateName in
  firstTruthy (c_handle configTemplate) (c_name configTemplate) (c_name_nl configTemplate).

(** The id with which [handle] goes to the platform when it is published:
    the handle is not empty, it has a config file with an id for the scope
    and the environment, and its template can be read. *)
Definition publishable (w : World) (templateType : TemplateType) (type : Scope)
    (envId : EnvId) (handle : string) : option RemoteId :=
  if negb (truthy_string (Some handle)) then None
  else
    match files w !! (templateType, handle), templates w !! (templateType, handle) with
    | Some templateConfig, Some _ => configId type envId templateConfig
    | _, _ => None
    end.

(** ** The command line ([bin/cli.js])

    The commands check their options before they call the functions above;
    the message of that check names the options as flags.  Option names are
    taken to be made of ASCII characters, for which [toUpperCase] and
    [toLowerCase] change the letters [a]-[z] and [A]-[Z] and nothing else. *)
Module Cli.

Definition isAscii (inputString : string) : Prop :=
  Forall (fun character => (Ascii.nat_of_ascii character < 128)%nat)
         (list_ascii_of_string inputString).

Definition isLowerCase (character : Ascii.ascii) : bool :=
  let code := Ascii.nat_of_ascii character in
  Nat.leb 97 code && Nat.leb code 122.

Definition isUpperCase (character : Ascii.ascii) : bool :=
  let code := Ascii.nat_of_ascii character in
  Nat.leb 65 code && Nat.leb code 90.

Definition toUpperCase (character : Ascii.ascii) : Ascii.ascii :=
  if isLowerCase character
  then Ascii.ascii_of_nat (Ascii.nat_of_ascii character - 32)
  else character.

Definition toLowerCase (character : Ascii.ascii) : Ascii.ascii :=
  if isUpperCase character
  then Ascii.ascii_of_nat (Ascii.nat_of_ascii character + 32)
  else character.

(** [formatOption(inputString)]: "Convert variable name into flag name to
    show in message (listAll -> list-all)". *)
Definition formatOption (inputString : string) : string :=
  String.concat ""
    (map (fun character =>
            if Ascii.eqb character (toUpperCase character)
            then String.append "-" (String (toLowerCase character) "")
            else String character "")
         (list_ascii_of_string inputString)).

End Cli.
(** * Properties *)

Lemma getTemplateId_run (w : World) type envId templateType handle :
  getTemplateId type envId templateType handle w =
  match findByHandle templateType (SF w) type envId handle with
  | None =>
      (Returned false,
       mkWorld (files w) (templates w) (SF w)
         (trace w ++ [Console debug (GettingId handle);
                      Network (Find templateType type envId handle);
                      Console warn (TemplateNotFound handle type)]))
  | Some templateText =>
      let config :=
        withDiscoveredId type envId (r_id templateText)
          (default emptyConfig (files w !! (templateType, handle))) in
      (Returned true,
       mkWorld (<[(templateType, handle) := config]> (files w)) (templates w) (SF w)
         (trace w ++ [Console debug (GettingId handle);
                      Network (Find templateType type envId handle);
                      ConfigRead templateType handle;
                      ConfigWritten templateType handle config;
                      Console success (IdUpdated handle type templateType)]))
  end.
Proof.
  unfold getTemplateId, bind, consola, emit, request, readConfig, writeConfig, ret.
  simpl.
  destruct (findByHandle templateType (SF w) type envId handle) as [t|]; simpl.
  - rewrite <- !app_assoc. simpl.
    destruct (default emptyConfig (files w !! (templateType, handle))) as [i p u h n nl].
    destruct i, p, type; reflexivity.
  - rewrite <- !app_assoc. reflexivity.
Qed.

(** C4. [getTemplateId] looks the template up on the platform first.  When the
    lookup returns nothing the call returns [false] and neither reads nor
    writes a config file, so the files are as before.  When it returns a
    record the call returns [true] and writes the config exactly once, with
    the record's id under [envId] in [id] for the firm scope and in
    [partnerId] for the partner scope. *)
Theorem getTemplateId_writes_only_on_discovery
    (w : World) (type : Scope) (envId : EnvId)
    (templateType : TemplateType) (handle : string) :
  exists events,
    trace (getTemplateId type envId templateType handle w).2 = trace w ++ events /\
    match findByHandle templateType (SF w) type envId handle with
    | None =>
        (getTemplateId type envId templateType handle w).1 = Returned false /\
        files (getTemplateId type envId templateType handle w).2 = files w /\
        filter touchesConfig events = []
    | Some templateText =>
        (getTemplateId type envId templateType handle w).1 = Returned true /\
        exists config,
          files (getTemplateId type envId templateType handle w).2 =
            <[(templateType, handle) := config]> (files w) /\
          filter isConfigWrite events = [ConfigWritten templateType handle config] /\
          match type with
          | firm =>
              (c_id config ≫= lookup envId) = Some (r_id templateText)
              /\ c_partnerId config =
                 Some (default ∅ (c_partnerId
                         (default emptyConfig (files w !! (templateType, handle)))))
          | partner =>
              (c_partnerId config ≫= lookup envId) = Some (r_id templateText)
              /\ c_id config =
                 Some (default ∅ (c_id
                         (default emptyConfig (files w !! (templateType, handle)))))
          end
    end.
Proof.
  rewrite getTemplateId_run.
  destruct (findByHandle templateType (SF w) type envId handle) as [t|]; simpl.
  - eexists; split; [reflexivity|]. split; [reflexivity|].
    eexists; split; [reflexivity|]. split; [reflexivity|].
    destruct type; simpl; split; try reflexivity; apply lookup_insert_eq.
  - eexists; split; [reflexivity|]. repeat split.
Qed.

(** The template that is sent: the message as [version_comment], and
    [version_significant_change = false] on the partner side. *)
Lemma publishTemplate_run (w : World) templateType type envId handle message :
  publishTemplate templateType type envId handle message w =
  let ev := fun l => mkWorld (files w) (templates w) (SF w) (trace w ++ l) in
  match files w !! (templateType, handle) with
  | None =>
      (Returned (Some false),
       ev [ConfigExists templateType handle;
           Console error (MissingId templateType handle)])
  | Some templateConfig =>
      match configId type envId templateConfig with
      | None =>
          (Returned (Some false),
           ev [ConfigExists templateType handle;
               ConfigRead templateType handle;
               Console error (MissingId templateType handle)])
      | Some templateId =>
          match templates w !! (templateType, handle) with
          | None =>
              (Returned None,
               ev [ConfigExists templateType handle;
                   ConfigRead templateType handle;
                   Console debug (Updating templateType handle);
                   TemplateRead templateType handle])
          | Some template =>
              let response :=
                updateOnPlatform templateType (SF w) type envId templateId
                  (stamped type message template) in
              match echoed templateType response with
              | Some e =>
                  (Returned (Some true),
                   ev [ConfigExists templateType handle;
                       ConfigRead templateType handle;
                       Console debug (Updating templateType handle);
                       TemplateRead templateType handle;
                       Network (Update templateType type envId templateId);
                       Console success (Updated templateType e)])
              | None =>
                  (Returned (Some false),
                   ev [ConfigExists templateType handle;
                       ConfigRead templateType handle;
                       Console debug (Updating templateType handle);
                       TemplateRead templateType handle;
                       Network (Update templateType type envId templateId);
                       Console error (UpdateFailed templateType handle)])
              end
          end
      end
  end.
Proof.
  unfold publishTemplate, try_catch, bind, configExists, missingId, consola, emit,
    request, readConfig, readTemplate, ret.
  simpl.
  destruct (files w !! (templateType, handle)) as [c|] eqn:Hc; simpl;
    rewrite ?Hc; simpl; [|rewrite <- !app_assoc; reflexivity].
  destruct (configId type envId c) as [templateId|]; simpl;
    [|rewrite <- !app_assoc; reflexivity].
  destruct (templates w !! (templateType, handle)) as [template|]; simpl;
    [|rewrite <- !app_assoc; reflexivity].
  match goal with |- context [echoed ?t ?r] => destruct (echoed t r) end; simpl;
   rewrite <- !app_assoc; reflexivity.
Qed.

(** C6. Publishing a template whose config file is absent, or whose config
    has no id for the requested scope and environment, reports the missing id
    and returns [false]; no network call is made (so no discovery either) and
    the files are left as they were. *)
Theorem publish_without_id_fails_fast
    (w : World) (templateType : TemplateType) (type : Scope) (envId : EnvId)
    (handle message : string) :
  (files w !! (templateType, handle)) ≫= configId type envId = None ->
  exists events,
    publishTemplate templateType type envId handle message w =
      (Returned (Some false),
       mkWorld (files w) (templates w) (SF w) (trace w ++ events)) /\
    filter isNetwork events = [] /\
    Console error (MissingId templateType handle) ∈ events.
Proof.
  intros Hid. rewrite publishTemplate_run.
  destruct (files w !! (templateType, handle)) as [c|]; simpl in *.
  - rewrite Hid. eexists; split; [reflexivity|]. split; [reflexivity|].
    set_solver.
  - eexists; split; [reflexivity|]. split; [reflexivity|]. set_solver.
Qed.

Lemma publish_without_id_fails_fast_witness :
  (files (Sample.repository Sample.silent) !! (reconciliationText, "recon_y"))
    ≫= configId partner 111 = None /\
  exists events,
    publishReconciliationByHandle partner 111 "recon_y" "Updated with the Silverfin CLI"
      (Sample.repository Sample.silent) =
      (Returned (Some false),
       mkWorld (files (Sample.repository Sample.silent))
               (templates (Sample.repository Sample.silent))
               Sample.silent ([] ++ events)) /\
    filter isNetwork events = [] /\
    Console error (MissingId reconciliationText "recon_y") ∈ events.
Proof.
  assert (H : (files (Sample.repository Sample.silent) !! (reconciliationText, "recon_y"))
                ≫= configId partner 111 = None) by reflexivity.
  split; [exact H|].
  exact (publish_without_id_fails_fast (Sample.repository Sample.silent)
           reconciliationText partner 111 "recon_y" "Updated with the Silverfin CLI" H).
Defined.

Lemma echoed_truthy templateType response :
  echoed templateType response =
  if truthy_string ((response ≫= data) ≫= echo templateType)
  then (response ≫= data) ≫= echo templateType
  else None.
Proof.
  destruct response as [[st [d|]]|]; simpl; try reflexivity.
Qed.

(** C8, as the code has it. A publish call that reaches the gateway's update
    operation returns [true] exactly when the response has a [data] object
    whose identifying field ([handle] for reconciliations, [name] for shared
    parts and export files, [name_nl] for account templates) is a non-empty
    string, and [false] otherwise.  The field is tested for presence only: it
    is not compared with the handle or name that was published. *)
Theorem publish_succeeds_iff_echo_present
    (w : World) (templateType : TemplateType) (type : Scope) (envId : EnvId)
    (handle message : string) (templateConfig : Config) (templateId : RemoteId)
    (template : Template) :
  files w !! (templateType, handle) = Some templateConfig ->
  configId type envId templateConfig = Some templateId ->
  templates w !! (templateType, handle) = Some template ->
  let response :=
    updateOnPlatform templateType (SF w) type envId templateId
      (stamped type message template) in
  let run := publishTemplate templateType type envId handle message w in
  run.1 = Returned (Some (truthy_string ((response ≫= data) ≫= echo templateType))) /\
  Network (Update templateType type envId templateId) ∈ trace run.2 /\
  files run.2 = files w.
Proof.
  intros Hc Hid Ht response run. subst run.
  rewrite publishTemplate_run, Hc, Hid, Ht. cbv zeta. fold response.
  rewrite echoed_truthy.
  destruct (truthy_string ((response ≫= data) ≫= echo templateType)) eqn:Htruthy.
  - destruct ((response ≫= data) ≫= echo templateType) as [e|] eqn:He; [|discriminate].
    simpl. repeat split. set_solver.
  - simpl. repeat split. set_solver.
Qed.

Lemma publish_succeeds_iff_echo_present_witness :
  let w := Sample.repository Sample.echoesAnother in
  let response :=
    updateOnPlatform reconciliationText (SF w) firm 111 42%positive
      (stamped firm "Updated with the Silverfin CLI" Sample.body) in
  let run := publishTemplate reconciliationText firm 111 "recon_y"
               "Updated with the Silverfin CLI" w in
  run.1 = Returned (Some (truthy_string ((response ≫= data) ≫= echo reconciliationText))) /\
  Network (Update reconciliationText firm 111 42%positive) ∈ trace run.2 /\
  files run.2 = files w.
Proof.
  apply (publish_succeeds_iff_echo_present (Sample.repository Sample.echoesAnother)
           reconciliationText firm 111 "recon_y" "Updated with the Silverfin CLI"
           Sample.recon_y 42%positive Sample.body); reflexivity.
Defined.

(** C8, as stated, fails. The reconciliation [recon_y] is published and the
    platform answers with the handle of another reconciliation, [recon_z]:
    the call returns [true] although the echoed handle is not the published
    one. *)
Lemma publish_accepts_foreign_echo :
  let w := Sample.repository Sample.echoesAnother in
  ~ ((publishReconciliationByHandle firm 111 "recon_y" "Updated with the Silverfin CLI" w).1
       = Returned (Some true) ->
     ((updateReconciliationText (SF w) firm 111 42%positive
         (stamped firm "Updated with the Silverfin CLI" Sample.body))
        ≫= data) ≫= d_handle = Some "recon_y").
Proof.
  intros w H.
  assert (Hrun : (publishReconciliationByHandle firm 111 "recon_y"
                    "Updated with the Silverfin CLI" w).1 = Returned (Some true))
    by reflexivity.
  specialize (H Hrun). discriminate H.
Qed.

Lemma newAccountTemplate_try_run (w : World) firmId name :
  newAccountTemplate_try firmId name w =
  let ev := fun l => mkWorld (files w) (templates w) (SF w) (trace w ++ l) in
  match findAccountTemplateByName (SF w) firm firmId name with
  | Some _ =>
      (Returned tt,
       ev [Network (Find accountTemplate firm firmId name);
           Console warn (AlreadyExists accountTemplate name)])
  | None =>
      match templates w !! (accountTemplate, name) with
      | None =>
          (Returned tt,
           ev [Network (Find accountTemplate firm firmId name);
               TemplateRead accountTemplate name])
      | Some template =>
          let sent := [Network (Find accountTemplate firm firmId name);
                       TemplateRead accountTemplate name;
                       Network (Create accountTemplate firmId)] in
          match createAccountTemplate (SF w) firmId
                  (commented "Created through the Silverfin CLI" template) with
          | None => (Threw TypeError, ev sent)
          | Some response =>
              match data response with
              | None => (Threw TypeError, ev sent)
              | Some d =>
                  if bool_decide (status response = Some 201%Z) then
                    (Returned tt,
                     ev (sent ++
                         [TemplateIdUpdated accountTemplate firmId (d_name_nl d) (d_id d);
                          Console success
                            (Created accountTemplate (default "undefined" (d_name_nl d)))]))
                  else (Returned tt, ev sent)
              end
          end
      end
  end.
Proof.
  unfold newAccountTemplate_try, bind, consola, updateTemplateId, emit, request,
    readTemplate, data_name_nl, data_id, throw, ret.
  simpl.
  destruct (findAccountTemplateByName (SF w) firm firmId name); simpl;
    [rewrite <- !app_assoc; reflexivity|].
  destruct (templates w !! (accountTemplate, name)) as [template|]; simpl;
    [|rewrite <- !app_assoc; reflexivity].
  destruct (createAccountTemplate (SF w) firmId _) as [response|]; simpl;
    [|rewrite <- !app_assoc; reflexivity].
  destruct (data response) as [d|] eqn:Hd; simpl;
    [|rewrite <- !app_assoc; reflexivity].
  destruct (bool_decide (status response = Some 201%Z)); simpl; rewrite ?Hd; simpl;
    rewrite <- !app_assoc; reflexivity.
Qed.

(** C10. In [newAccountTemplate] the line [const handle = response.data.name_nl]
    comes before the guard [response && response.status == 201].  When the
    template is not yet on the platform and its body is on disk, a create
    response that is missing, or that has no [data] object, makes the [try]
    block throw a [TypeError], whatever the status of the response; the error
    reaches [errorUtils.errorHandler] and no id is stored. *)
Theorem newAccountTemplate_dereferences_before_guard
    (w : World) (firmId : EnvId) (name : string) (template : Template) :
  findAccountTemplateByName (SF w) firm firmId name = None ->
  templates w !! (accountTemplate, name) = Some template ->
  createAccountTemplate (SF w) firmId
    (commented "Created through the Silverfin CLI" template) ≫= data = None ->
  (newAccountTemplate_try firmId name w).1 = Threw TypeError /\
  newAccountTemplate firmId name w =
    (Returned tt,
     mkWorld (files w) (templates w) (SF w)
       (trace w ++ [Network (Find accountTemplate firm firmId name);
                    TemplateRead accountTemplate name;
                    Network (Create accountTemplate firmId);
                    ErrorHandler TypeError])).
Proof.
  intros Hfind Hbody Hdata.
  unfold newAccountTemplate, try_catch.
  rewrite newAccountTemplate_try_run, Hfind, Hbody. cbv zeta.
  destruct (createAccountTemplate (SF w) firmId _) as [response|]; simpl in *.
  - rewrite Hdata. simpl. split; [reflexivity|].
    unfold errorHandler, emit. simpl. rewrite <- !app_assoc. reflexivity.
  - split; [reflexivity|].
    unfold errorHandler, emit. simpl. rewrite <- !app_assoc. reflexivity.
Qed.

Lemma newAccountTemplate_dereferences_before_guard_witness :
  let w := Sample.repository Sample.createsWithoutData in
  (createAccountTemplate (SF w) 111
     (commented "Created through the Silverfin CLI" Sample.body) ≫= status) = Some 201 /\
  (newAccountTemplate_try 111 "vat" w).1 = Threw TypeError /\
  newAccountTemplate 111 "vat" w =
    (Returned tt,
     mkWorld (files w) (templates w) (SF w)
       (trace w ++ [Network (Find accountTemplate firm 111 "vat");
                    TemplateRead accountTemplate "vat";
                    Network (Create accountTemplate 111);
                    ErrorHandler TypeError])).
Proof.
  split; [reflexivity|].
  apply (newAccountTemplate_dereferences_before_guard
           (Sample.repository Sample.createsWithoutData) 111 "vat" Sample.body);
    reflexivity.
Defined.

(** *** Bulk import *)

Lemma bind_Returned {W A B} (c : Run W A) (k : A -> Run W B) (w w1 : W) (a : A) :
  c w = (Returned a, w1) -> bind c k w = k a w1.
Proof. intros Hrun. unfold bind. rewrite Hrun. reflexivity. Qed.

Lemma bind_Threw {W A B} (c : Run W A) (k : A -> Run W B) (w w1 : W) (e : JsError) :
  c w = (Threw e, w1) -> bind c k w = (Threw e, w1).
Proof. intros Hrun. unfold bind. rewrite Hrun. reflexivity. Qed.

Lemma bind_Exited {W A B} (c : Run W A) (k : A -> Run W B) (w w1 : W) (n : Z) :
  c w = (Exited n, w1) -> bind c k w = (Exited n, w1).
Proof. intros Hrun. unfold bind. rewrite Hrun. reflexivity. Qed.

Lemma forEach_cons {A} (x : A) (l : list A) (callback : A -> Async Pending) :
  forEach (x :: l) callback =
  (let* rest := callback x in
   let* others := forEach l callback in
   ret (rest;; others)).
Proof. reflexivity. Qed.

Section BulkImport.
Context (type : Scope) (envId : EnvId).

Lemma forEach_reconciliations (templates_ : list Remote) (w : World) :
  exists pending : Pending,
    forEach templates_ (importReconciliation type envId) w =
      (Returned pending,
       mkWorld (files w) (templates w) (SF w)
         (trace w ++ flat_map (reconciliationSaved type envId) templates_)) /\
    forall w', pending w' =
      (Returned tt,
       mkWorld (files w') (templates w') (SF w')
         (trace w' ++ flat_map reconciliationImported templates_)).
Proof.
  revert w. induction templates_ as [|t l IH]; intros w.
  - exists (ret tt). split.
    + simpl. unfold ret. rewrite app_nil_r. destruct w; reflexivity.
    + intros w'. simpl. unfold ret. rewrite app_nil_r. destruct w'; reflexivity.
  - set (w1 := mkWorld (files w) (templates w) (SF w)
                 (trace w ++ reconciliationSaved type envId t)).
    destruct (IH w1) as (others & Hrun & Hothers).
    exists (consola success (Imported reconciliationText (r_label t));; others). split.
    + rewrite forEach_cons.
      rewrite (bind_Returned _ _ w w1
                 (consola success (Imported reconciliationText (r_label t))))
        by reflexivity.
      rewrite (bind_Returned _ _ w1 _ others Hrun). unfold ret.
      subst w1. cbn [files templates SF trace flat_map]. rewrite <- !app_assoc. reflexivity.
    + intros w'. unfold bind, consola, emit. rewrite Hothers.
      cbn [files templates SF trace flat_map]. rewrite <- !app_assoc. reflexivity.
Qed.

Lemma forEach_sharedParts (sharedParts : list Remote) (w : World) :
  (forall r, r ∈ sharedParts -> readSharedPartById (SF w) type envId (r_id r) = Some r) ->
  exists pending : Pending,
    forEach sharedParts (importSharedPart type envId) w =
      (Returned pending,
       mkWorld (files w) (templates w) (SF w)
         (trace w ++ flat_map (sharedPartRequested type envId) sharedParts)) /\
    forall w', pending w' =
      (Returned tt,
       mkWorld (files w') (templates w') (SF w')
         (trace w' ++ flat_map (sharedPartImported type envId) sharedParts)).
Proof.
  revert w. induction sharedParts as [|t l IH]; intros w Hread.
  - exists (ret tt). split.
    + simpl. unfold ret. rewrite app_nil_r. destruct w; reflexivity.
    + intros w'. simpl. unfold ret. rewrite app_nil_r. destruct w'; reflexivity.
  - set (w1 := mkWorld (files w) (templates w) (SF w)
                 (trace w ++ sharedPartRequested type envId t)).
    destruct (IH w1) as (others & Hrun & Hothers).
    { intros r Hr. apply Hread, list_elem_of_further, Hr. }
    exists (try_catch (fetchSharedPartById_answered type envId (r_id t) (Some t);; ret tt)
                      (fun e => consola error (Caught e));;
            others).
    split.
    + rewrite forEach_cons.
      assert (Hstart :
                importSharedPart type envId t w =
                (Returned
                   (try_catch
                      (fetchSharedPartById_answered type envId (r_id t) (Some t);; ret tt)
                      (fun e => consola error (Caught e))),
                 w1)).
      { unfold importSharedPart, fetchSharedPartById_started, bind, request, ret.
        cbn [files templates SF trace]. rewrite (Hread t) by apply list_elem_of_here.
        reflexivity. }
      rewrite (bind_Returned _ _ w w1 _ Hstart).
      rewrite (bind_Returned _ _ w1 _ others Hrun). unfold ret.
      subst w1. cbn [files templates SF trace flat_map]. rewrite <- !app_assoc. reflexivity.
    + intros w'. unfold bind at 1.
      unfold try_catch, fetchSharedPartById_answered, try_catch, bind, saveTemplate,
        consola, emit, ret.
      cbn [files templates SF trace]. rewrite Hothers.
      cbn [files templates SF trace flat_map sharedPartImported app].
      rewrite <- !app_assoc. reflexivity.
Qed.

Lemma serves_tail read first records pages :
  serves read first (records :: pages) -> serves read (first + 1) pages.
Proof.
  intros H i Hi. specialize (H (S i)). simpl in H.
  rewrite <- H by lia. f_equal. lia.
Qed.

Lemma serves_head read first records pages :
  serves read first (records :: pages) -> read first = records.
Proof.
  intros H. specialize (H O). simpl in H. rewrite <- H by lia. f_equal. lia.
Qed.

Lemma serves_end read first : serves read first [] -> read first = [].
Proof.
  intros H. specialize (H O). simpl in H. rewrite <- H by lia. f_equal. lia.
Qed.

Lemma fetchAllReconciliations_run (pages : list (list Remote)) :
  forall (fuel : nat) (page : Z) (w : World) (pending : Pending) (left : list Event),
    (forall w', pending w' =
       (Returned tt, mkWorld (files w') (templates w') (SF w') (trace w' ++ left))) ->
    Forall (fun records => records <> []) pages ->
    serves (readReconciliationTexts (SF w) type envId) page pages ->
    (length pages < fuel)%nat ->
    fetchAllReconciliations_while pending fuel type envId page w =
    (Returned (Some tt),
     mkWorld (files w) (templates w) (SF w)
       (trace w ++ importTrace reconciliationText type envId
                     (reconciliationSaved type envId) reconciliationImported
                     left page pages)).
Proof.
  induction pages as [|records pages IH];
    intros fuel page w pending left Hpending Hne Hserves Hfuel;
    (destruct fuel as [|fuel]; [simpl in Hfuel; lia|]).
  - cbn [fetchAllReconciliations_while]. unfold bind at 1. unfold request. cbn [SF].
    rewrite (serves_end _ _ Hserves). unfold bind at 1. rewrite Hpending.
    cbn [files templates SF trace length Nat.eqb importTrace].
    destruct (page =? 1)%Z; unfold bind, consola, emit, ret; simpl;
      rewrite <- ?app_assoc, ?app_nil_r; reflexivity.
  - cbn [fetchAllReconciliations_while]. unfold bind at 1. unfold request. cbn [SF].
    rewrite (serves_head _ _ _ _ Hserves). unfold bind at 1. rewrite Hpending.
    cbn [files templates SF trace].
    inversion Hne as [|? ? Hrecords Hpages]; subst.
    destruct records as [|r records]; [congruence|].
    cbn [length Nat.eqb]. unfold bind at 1.
    match goal with
    | |- context [forEach ?l _ ?w0] =>
        destruct (forEach_reconciliations l w0) as (later & Hrun & Hlater)
    end.
    rewrite Hrun. cbn [files templates SF trace].
    rewrite (IH fuel (page + 1)%Z _ later _ Hlater).
    + cbn [files templates SF trace importTrace]. rewrite <- !app_assoc. reflexivity.
    + exact Hpages.
    + cbn [SF]. eapply serves_tail, Hserves.
    + simpl in Hfuel. lia.
Qed.

Lemma fetchAllSharedParts_run (pages : list (list Remote)) :
  forall (fuel : nat) (page : Z) (w : World) (pending : Pending) (left : list Event),
    (forall w', pending w' =
       (Returned tt, mkWorld (files w') (templates w') (SF w') (trace w' ++ left))) ->
    Forall (fun records => records <> []) pages ->
    serves (readSharedParts (SF w) type envId) page pages ->
    (forall r, r ∈ concat pages -> readSharedPartById (SF w) type envId (r_id r) = Some r) ->
    (length pages < fuel)%nat ->
    fetchAllSharedParts_while pending fuel type envId page w =
    (Returned (Some tt),
     mkWorld (files w) (templates w) (SF w)
       (trace w ++ importTrace sharedPart type envId
                     (sharedPartRequested type envId) (sharedPartImported type envId)
                     left page pages)).
Proof.
  induction pages as [|records pages IH];
    intros fuel page w pending left Hpending Hne Hserves Hread Hfuel;
    (destruct fuel as [|fuel]; [simpl in Hfuel; lia|]).
  - cbn [fetchAllSharedParts_while]. unfold bind at 1. unfold request. cbn [SF].
    rewrite (serves_end _ _ Hserves). unfold bind at 1. rewrite Hpending.
    cbn [files templates SF trace length Nat.eqb importTrace].
    destruct (page =? 1)%Z; unfold bind, consola, emit, ret; simpl;
      rewrite <- ?app_assoc, ?app_nil_r; reflexivity.
  - cbn [fetchAllSharedParts_while]. unfold bind at 1. unfold request. cbn [SF].
    rewrite (serves_head _ _ _ _ Hserves). unfold bind at 1. rewrite Hpending.
    cbn [files templates SF trace].
    inversion Hne as [|? ? Hrecords Hpages]; subst.
    destruct records as [|r records]; [congruence|].
    cbn [length Nat.eqb]. unfold bind at 1.
    match goal with
    | |- context [forEach ?l _ ?w0] =>
        destruct (forEach_sharedParts l w0) as (later & Hrun & Hlater)
    end.
    { cbn [SF]. intros x Hx. apply Hread. rewrite concat_cons, elem_of_app.
      left. exact Hx. }
    rewrite Hrun. cbn [files templates SF trace].
    rewrite (IH fuel (page + 1)%Z _ later _ Hlater).
    + cbn [files templates SF trace importTrace]. rewrite <- !app_assoc. reflexivity.
    + exact Hpages.
    + cbn [SF]. eapply serves_tail, Hserves.
    + cbn [SF]. intros x Hx. apply Hread. rewrite concat_cons, elem_of_app.
      right. exact Hx.
    + simpl in Hfuel. lia.
Qed.

End BulkImport.

(** *** Reading an import trace *)

Lemma omap_flat_map_nil {B} (g : Event -> option B) (perRecord : Remote -> list Event)
    (records : list Remote) :
  (forall r, omap g (perRecord r) = []) -> omap g (flat_map perRecord records) = [].
Proof.
  intros Hquiet. induction records as [|r l IH]; [reflexivity|].
  cbn [flat_map]. rewrite omap_app, Hquiet, IH. reflexivity.
Qed.

Lemma omap_flat_map_one {B} (g : Event -> option B) (perRecord : Remote -> list Event)
    (h : Remote -> B) (records : list Remote) :
  (forall r, omap g (perRecord r) = [h r]) ->
  omap g (flat_map perRecord records) = map h records.
Proof.
  intros Hone. induction records as [|r l IH]; [reflexivity|].
  cbn [flat_map map]. rewrite omap_app, Hone, IH. reflexivity.
Qed.

(** A reading of the trace that sees the page requests and one thing per
    record, in the first part of its callback, and neither the rests nor the
    "nothing found" line. *)
Lemma omap_importTrace {B} (g : Event -> option B) (request : Z -> B) (record : Remote -> B)
    templateType type envId started rest :
  (forall page, g (Network (ReadPage templateType type envId page)) = Some (request page)) ->
  g (Console error (NothingFound templateType)) = None ->
  (forall r, omap g (started r) = [record r]) ->
  (forall r, omap g (rest r) = []) ->
  forall pages page pending,
    omap g pending = [] ->
    omap g (importTrace templateType type envId started rest pending page pages) =
    pageByPage request record page pages.
Proof.
  intros Hrequest Hnone Hstarted Hrest.
  induction pages as [|records pages IH]; intros page pending Hpending.
  - cbn [importTrace pageByPage omap list_omap]. rewrite Hrequest, omap_app, Hpending.
    destruct (page =? 1)%Z; cbn [omap list_omap app]; rewrite ?Hnone; reflexivity.
  - cbn [importTrace pageByPage omap list_omap].
    rewrite Hrequest, !omap_app, Hpending, (omap_flat_map_one g started record) by exact Hstarted.
    rewrite IH by (apply omap_flat_map_nil; exact Hrest). reflexivity.
Qed.

Lemma pagesAndSaves_reconciliations type envId page pages :
  pagesAndSaves (importTrace reconciliationText type envId
                   (reconciliationSaved type envId) reconciliationImported [] page pages) =
  pageByPage inl inr page pages.
Proof.
  unfold pagesAndSaves. apply omap_importTrace; reflexivity.
Qed.

Lemma network_sharedParts type envId page pages :
  filter isNetwork
    (importTrace sharedPart type envId
       (sharedPartRequested type envId) (sharedPartImported type envId) [] page pages) =
  pageByPage (fun page => Network (ReadPage sharedPart type envId page))
             (fun r => Network (ReadById sharedPart type envId (r_id r))) page pages.
Proof.
  assert (Hquiet : forall records,
            filter isNetwork (flat_map (sharedPartImported type envId) records) = []).
  { induction records as [|r l IH]; [reflexivity|]. cbn. exact IH. }
  assert (Hrequests : forall records,
            filter isNetwork (flat_map (sharedPartRequested type envId) records) =
            map (fun r => Network (ReadById sharedPart type envId (r_id r))) records).
  { induction records as [|r l IH]; [reflexivity|]. cbn. f_equal. exact IH. }
  assert (Hgen : forall pages page pending,
            filter isNetwork pending = [] ->
            filter isNetwork
              (importTrace sharedPart type envId
                 (sharedPartRequested type envId) (sharedPartImported type envId)
                 pending page pages) =
            pageByPage (fun page => Network (ReadPage sharedPart type envId page))
                       (fun r => Network (ReadById sharedPart type envId (r_id r)))
                       page pages).
  { clear pages page. induction pages as [|records pages IH]; intros page pending Hpending.
    - cbn [importTrace pageByPage]. rewrite filter_cons_True by reflexivity.
      rewrite filter_app, Hpending. destruct (page =? 1)%Z; reflexivity.
    - cbn [importTrace pageByPage]. rewrite filter_cons_True by reflexivity.
      rewrite !filter_app, Hpending, Hrequests, IH by apply Hquiet. reflexivity. }
  apply Hgen. reflexivity.
Qed.

Lemma saved_importTrace templateType type envId started rest :
  (forall records,
     saved (flat_map started records) ++ saved (flat_map rest records) = records) ->
  forall pages page pending,
    saved (importTrace templateType type envId started rest pending page pages) =
    saved pending ++ concat pages.
Proof.
  intros Hrecords. unfold saved in *.
  induction pages as [|records pages IH]; intros page pending.
  - cbn [importTrace concat omap list_omap]. rewrite omap_app.
    destruct (page =? 1)%Z; reflexivity.
  - cbn [importTrace concat omap list_omap]. rewrite !omap_app, IH.
    rewrite <- (Hrecords records) at 3. rewrite <- !app_assoc. reflexivity.
Qed.

Lemma saved_reconciliations type envId page pages :
  saved (importTrace reconciliationText type envId
           (reconciliationSaved type envId) reconciliationImported [] page pages) =
  concat pages.
Proof.
  rewrite saved_importTrace; [reflexivity|].
  intros records. unfold saved.
  rewrite (omap_flat_map_one _ (reconciliationSaved type envId) (fun r => r))
    by reflexivity.
  rewrite (omap_flat_map_nil _ reconciliationImported) by reflexivity.
  rewrite map_id. apply app_nil_r.
Qed.

Lemma saved_sharedParts type envId page pages :
  saved (importTrace sharedPart type envId
           (sharedPartRequested type envId) (sharedPartImported type envId) [] page pages) =
  concat pages.
Proof.
  rewrite saved_importTrace; [reflexivity|].
  intros records. unfold saved.
  rewrite (omap_flat_map_nil _ (sharedPartRequested type envId)) by reflexivity.
  rewrite (omap_flat_map_one _ (sharedPartImported type envId) (fun r => r))
    by reflexivity.
  apply map_id.
Qed.

Lemma page_numbers_from (page : Z) (n : nat) :
  page :: ((fun i : nat => (page + 1 + Z.of_nat i)%Z) <$> seq 0 n) =
  (fun i : nat => (page + Z.of_nat i)%Z) <$> seq 0 (S n).
Proof.
  change (seq 0 (S n)) with (0%nat :: seq 1 n).
  rewrite <- fmap_S_seq, fmap_cons, <- list_fmap_compose, Z.add_0_r.
  f_equal. apply list_fmap_ext. intros _ i _. unfold compose. lia.
Qed.

Lemma pagesRequested_importTrace templateType type envId started rest :
  (forall r, pagesRequested (started r) = []) ->
  (forall r, pagesRequested (rest r) = []) ->
  forall pages page pending,
    pagesRequested pending = [] ->
    pagesRequested (importTrace templateType type envId started rest pending page pages) =
    (fun i : nat => (page + Z.of_nat i)%Z) <$> seq 0 (S (length pages)).
Proof.
  intros Hstarted Hrest. unfold pagesRequested in *.
  induction pages as [|records pages IH]; intros page pending Hpending.
  - cbn [importTrace omap list_omap]. rewrite omap_app, Hpending.
    destruct (page =? 1)%Z; simpl; rewrite Z.add_0_r; reflexivity.
  - cbn [importTrace length omap list_omap].
    rewrite !omap_app, Hpending, (omap_flat_map_nil _ started) by exact Hstarted.
    rewrite IH by (apply omap_flat_map_nil; exact Hrest).
    exact (page_numbers_from page (S (length pages))).
Qed.

Lemma nothingFound_importTrace templateType type envId started rest :
  (forall r, nothingFound (started r) = []) ->
  (forall r, nothingFound (rest r) = []) ->
  forall pages page pending,
    nothingFound pending = [] ->
    (1 <= page)%Z ->
    nothingFound (importTrace templateType type envId started rest pending page pages) =
    match pages with
    | [] => if (page =? 1)%Z then [templateType] else []
    | _ :: _ => []
    end.
Proof.
  intros Hstarted Hrest. unfold nothingFound in *.
  induction pages as [|records pages IH]; intros page pending Hpending Hpage.
  - cbn [importTrace omap list_omap]. rewrite omap_app, Hpending.
    destruct (page =? 1)%Z; reflexivity.
  - cbn [importTrace omap list_omap].
    rewrite !omap_app, Hpending, (omap_flat_map_nil _ started) by exact Hstarted.
    rewrite IH by (try (apply omap_flat_map_nil; exact Hrest); lia).
    destruct pages; [|reflexivity].
    destruct (page + 1 =? 1)%Z eqn:E; [lia|reflexivity].
Qed.




(** *** What a call can add to the trace *)

Section Emits.
Context (P : Event -> Prop).

Lemma emits_ret {A} (a : A) : emits P (ret a).
Proof. intros w. exists []. rewrite app_nil_r. split; [reflexivity|constructor]. Qed.

Lemma emits_throw {A} e : emits P (throw e : Async A).
Proof. intros w. exists []. rewrite app_nil_r. split; [reflexivity|constructor]. Qed.

Lemma emits_exit {A} n : emits P (exit n : Async A).
Proof. intros w. exists []. rewrite app_nil_r. split; [reflexivity|constructor]. Qed.

Lemma emits_emit e : P e -> emits P (emit e).
Proof. intros He w. exists [e]. split; [reflexivity|]. repeat constructor; exact He. Qed.

Lemma emits_consola l m : P (Console l m) -> emits P (consola l m).
Proof. apply emits_emit. Qed.

Lemma emits_errorHandler e : P (ErrorHandler e) -> emits P (errorHandler e).
Proof. apply emits_emit. Qed.

Lemma emits_request {A} r (answer : Gateway -> A) :
  P (Network r) -> emits P (request r answer).
Proof. intros He w. exists [Network r]. split; [reflexivity|]. repeat constructor; exact He. Qed.

Lemma emits_readConfig t h : P (ConfigRead t h) -> emits P (readConfig t h).
Proof. intros He w. exists [ConfigRead t h]. split; [reflexivity|]. repeat constructor; exact He. Qed.

Lemma emits_writeConfig t h c : P (ConfigWritten t h c) -> emits P (writeConfig t h c).
Proof.
  intros He w. exists [ConfigWritten t h c]. split; [reflexivity|].
  repeat constructor; exact He.
Qed.

Lemma emits_bind {A B} (c : Async A) (k : A -> Async B) :
  emits P c -> (forall a, emits P (k a)) -> emits P (bind c k).
Proof.
  intros Hc Hk w. unfold bind.
  destruct (Hc w) as (ev1 & Htr1 & HP1).
  destruct (c w) as [[a|e|n] w1]; simpl in *.
  - destruct (Hk a w1) as (ev2 & Htr2 & HP2).
    exists (ev1 ++ ev2). rewrite Htr2, Htr1, app_assoc. split; [reflexivity|].
    apply Forall_app; split; assumption.
  - exists ev1. split; assumption.
  - exists ev1. split; assumption.
Qed.

Lemma emits_try_catch {A} (c : Async A) (handler : JsError -> Async A) :
  emits P c -> (forall e, emits P (handler e)) -> emits P (try_catch c handler).
Proof.
  intros Hc Hh w. unfold try_catch.
  destruct (Hc w) as (ev1 & Htr1 & HP1).
  destruct (c w) as [[a|e|n] w1]; simpl in *.
  - exists ev1. split; assumption.
  - destruct (Hh e w1) as (ev2 & Htr2 & HP2).
    exists (ev1 ++ ev2). rewrite Htr2, Htr1, app_assoc. split; [reflexivity|].
    apply Forall_app; split; assumption.
  - exists ev1. split; assumption.
Qed.

End Emits.

(** Splits a computation along its binds and case distinctions, leaving the
    events themselves to be checked. *)
Ltac emits_step :=
  match goal with
  | |- forall _, _ => intro
  | |- emits _ (bind _ _) => apply emits_bind
  | |- emits _ (try_catch _ _) => apply emits_try_catch
  | |- emits _ (ret _) => apply emits_ret
  | |- emits _ (throw _) => apply emits_throw
  | |- emits _ (exit _) => apply emits_exit
  | |- emits _ (consola _ _) => apply emits_consola
  | |- emits _ (errorHandler _) => apply emits_errorHandler
  | |- emits _ (request _ _) => apply emits_request
  | |- emits _ (readConfig _ _) => apply emits_readConfig
  | |- emits _ (writeConfig _ _ _) => apply emits_writeConfig
  | |- emits _ (emit _) => apply emits_emit
  | |- emits _ (match ?x with _ => _ end) => destruct x
  | |- emits _ (if ?x then _ else _) => destruct x
  | |- emits _ (let (_, _) := ?x in _) => destruct x
  end.

(** The unsupported-combination warning is the only event the check below
    looks for. *)
Lemma getTemplateId_emits P type envId templateType handle :
  (forall e, e <> Console warn ExportFileOnPartnerUnsupported -> P e) ->
  emits P (getTemplateId type envId templateType handle).
Proof.
  intros HP. unfold getTemplateId. repeat emits_step; apply HP; discriminate.
Qed.

Lemma resolveMissing_emits P type envId templateType handle config :
  (forall e, e <> Console warn ExportFileOnPartnerUnsupported -> P e) ->
  emits P (resolveMissing type envId templateType handle config).
Proof.
  intros HP. unfold resolveMissing.
  repeat first [apply getTemplateId_emits; [exact HP] | emits_step]; apply HP; discriminate.
Qed.

Lemma storeUsage_emits P type envId templateHandle templateType templateConfig sharedPartConfig :
  (forall e, e <> Console warn ExportFileOnPartnerUnsupported -> P e) ->
  emits P (storeUsage type envId templateHandle templateType templateConfig sharedPartConfig).
Proof.
  intros HP. unfold storeUsage, idOf.
  repeat emits_step; apply HP; discriminate.
Qed.

(** C9. Attaching a shared part to an export file on the partner side is
    turned down at once: the call warns and returns [false], with no config
    read or written and no gateway call.  On the firm side the same call is
    not stopped by this guard: it goes on to read the two config files, and
    the warning is never printed. *)
Theorem addSharedPart_rejects_export_file_on_partner
    (w : World) (envId : EnvId) (sharedPartName templateHandle : string) :
  addSharedPart partner envId sharedPartName templateHandle exportFile w =
    (Returned None,
     mkWorld (files w) (templates w) (SF w)
       (trace w ++ [Console warn ExportFileOnPartnerUnsupported])) /\
  exists events,
    trace (addSharedPart firm envId sharedPartName templateHandle exportFile w).2 =
      trace w ++ ConfigRead exportFile templateHandle
              :: ConfigRead sharedPart sharedPartName :: events /\
    Forall (fun e => e <> Console warn ExportFileOnPartnerUnsupported) events.
Proof.
  split; [reflexivity|].
  pose (P := fun e => e <> Console warn ExportFileOnPartnerUnsupported).
  assert (HP : forall e, e <> Console warn ExportFileOnPartnerUnsupported -> P e)
    by (intros e He; exact He).
  assert (Hall : emits P (addSharedPart firm envId sharedPartName templateHandle exportFile)).
  { unfold addSharedPart. simpl.
    repeat first
      [ apply resolveMissing_emits; [exact HP]
      | apply storeUsage_emits; [exact HP]
      | emits_step ];
      apply HP; discriminate. }
  destruct (Hall w) as (events & Htrace & Hevents).
  assert (Hprefix : exists rest,
    events = ConfigRead exportFile templateHandle :: ConfigRead sharedPart sharedPartName :: rest).
  { revert Htrace. unfold addSharedPart. simpl. unfold try_catch.
    unfold bind at 1. unfold readConfig at 1. unfold bind at 1. unfold readConfig at 1.
    cbn [files templates SF trace].
    match goal with
    | |- context [bind ?c ?k ?w1] =>
        set (rest := bind c k); set (w1' := w1)
    end.
    assert (Hrest : emits P rest).
    { subst rest.
      repeat first
        [ apply resolveMissing_emits; [exact HP]
        | apply storeUsage_emits; [exact HP]
        | emits_step ];
        apply HP; discriminate. }
    destruct (Hrest w1') as (ev & Hev & _).
    destruct (rest w1') as [[a|e|n] w2] eqn:Hrun; simpl in *; intros Htrace.
    - exists ev. rewrite Hev in Htrace. subst w1'. simpl in Htrace.
      rewrite <- !app_assoc in Htrace. apply app_inv_head in Htrace. simpl in Htrace.
      congruence.
    - exists (ev ++ [ErrorHandler e]).
      unfold bind, errorHandler, emit, ret in Htrace. simpl in Htrace.
      rewrite Hev in Htrace. subst w1'. simpl in Htrace.
      rewrite <- !app_assoc in Htrace. apply app_inv_head in Htrace. simpl in Htrace.
      congruence.
    - exists ev. rewrite Hev in Htrace. subst w1'. simpl in Htrace.
      rewrite <- !app_assoc in Htrace. apply app_inv_head in Htrace. simpl in Htrace.
      congruence. }
  destruct Hprefix as (rest & ->).
  exists rest. split; [exact Htrace|].
  inversion Hevents as [|? ? _ Hrest']; subst. inversion Hrest'; subst. assumption.
Qed.

(** *** Attaching *)

Lemma configId_withDiscoveredId type envId id config :
  configId type envId (withDiscoveredId type envId id config) = Some id.
Proof. destruct type; simpl; apply lookup_insert_eq. Qed.

Lemma used_in_withDiscoveredId type envId id config :
  c_used_in (withDiscoveredId type envId id config) = c_used_in config.
Proof. destruct type; reflexivity. Qed.

Lemma resolveMissing_run (w : World) type envId templateType handle config :
  resolveMissing type envId templateType handle config w =
  match configId type envId config with
  | Some id => (Returned (Some (config, Some id)), w)
  | None =>
      match findByHandle templateType (SF w) type envId handle with
      | None =>
          (Returned None,
           mkWorld (files w) (templates w) (SF w)
             (trace w ++ [Console debug (GettingId handle);
                          Network (Find templateType type envId handle);
                          Console warn (TemplateNotFound handle type)]))
      | Some templateText =>
          let config :=
            withDiscoveredId type envId (r_id templateText)
              (default emptyConfig (files w !! (templateType, handle))) in
          (Returned (Some (config, Some (r_id templateText))),
           mkWorld (<[(templateType, handle) := config]> (files w)) (templates w) (SF w)
             (trace w ++ [Console debug (GettingId handle);
                          Network (Find templateType type envId handle);
                          ConfigRead templateType handle;
                          ConfigWritten templateType handle config;
                          Console success (IdUpdated handle type templateType);
                          ConfigRead templateType handle]))
      end
  end.
Proof.
  unfold resolveMissing.
  destruct (configId type envId config) as [id|]; [reflexivity|].
  unfold bind. rewrite getTemplateId_run.
  destruct (findByHandle templateType (SF w) type envId handle) as [t|]; [|reflexivity].
  cbv zeta. cbn [negb]. unfold readConfig, ret. cbn [files templates SF trace].
  rewrite lookup_insert_eq.
  match goal with |- context [default emptyConfig (Some ?c)] =>
    change (default emptyConfig (Some c)) with c end.
  rewrite configId_withDiscoveredId.
  rewrite <- app_assoc. reflexivity.
Qed.

(** What a successful [resolveMissing] hands on: the config it was given,
    when that has the id, and otherwise the config on disk with the id the
    platform found, which is then also the file on disk. *)
Lemma resolveMissing_Some (w w' : World) type envId templateType handle config config' id' :
  resolveMissing type envId templateType handle config w = (Returned (Some (config', id')), w') ->
  exists id,
    id' = Some id /\
    configId type envId config' = Some id /\
    SF w' = SF w /\
    ((config' = config /\ files w' = files w) \/
     (configId type envId config = None /\
      config' = withDiscoveredId type envId id
                  (default emptyConfig (files w !! (templateType, handle))) /\
      files w' = <[(templateType, handle) := config']> (files w))).
Proof.
  rewrite resolveMissing_run.
  destruct (configId type envId config) as [id|] eqn:Hid.
  - intros [= <- <- <-]. exists id. repeat split; auto.
  - destruct (findByHandle templateType (SF w) type envId handle) as [t|]; [|discriminate].
    cbv zeta. intros [= <- <- <-]. exists (r_id t). cbn [files SF].
    rewrite configId_withDiscoveredId. repeat split; auto.
Qed.

Lemma storeUsage_run (w : World) type envId templateHandle templateType
    templateConfig sharedPartConfig templateId :
  configId type envId templateConfig = Some templateId ->
  exists events,
    storeUsage type envId templateHandle templateType templateConfig sharedPartConfig w =
    (Returned (storedUsage type envId templateHandle templateType templateId templateConfig
                 (default [] (c_used_in sharedPartConfig))),
     mkWorld (files w) (templates w) (SF w) (trace w ++ events)).
Proof.
  intros Hid. unfold storeUsage, storedUsage.
  destruct (c_used_in sharedPartConfig) as [used_in|]; cbn [default from_option Datatypes.id].
  - unfold findIndex.
    destruct (list_find (sameHandle templateHandle) used_in) as [[i u]|].
    + unfold configId in Hid. unfold idOf.
      destruct type; cbn [scopeIds] in *;
        [destruct (c_id templateConfig) as [ids|]
        |destruct (c_partnerId templateConfig) as [ids|]];
        try discriminate; cbn in Hid;
        unfold bind, ret, consola, emit; cbn; rewrite Hid;
        eexists; rewrite <- ?app_assoc; try reflexivity.
      rewrite app_nil_r. destruct w; reflexivity.
    + exists []. rewrite app_nil_r. destruct w; reflexivity.
  - exists []. rewrite app_nil_r. destruct w; reflexivity.
Qed.

(** A call of [addSharedPart] that returns the shared part's config has gone
    all the way: both ids were there or were found, the gateway's answer was
    not turned down, and both configs were written. *)
Lemma addSharedPart_Some (w w' : World) type envId sharedPartName templateHandle
    templateType config :
  addSharedPart type envId sharedPartName templateHandle templateType w =
    (Returned (Some config), w') ->
  exists templateId templateConfig sharedPartConfig,
    templateType <> sharedPart /\
    configId type envId templateConfig = Some templateId /\
    is_Some (configId type envId sharedPartConfig) /\
    resolved type envId
      (default emptyConfig (files w !! (templateType, templateHandle))) templateConfig /\
    resolved type envId
      (default emptyConfig (files w !! (sharedPart, sharedPartName))) sharedPartConfig /\
    config =
      set_c_used_in
        (storedUsage type envId templateHandle templateType templateId templateConfig
           (default [] (c_used_in sharedPartConfig)))
        sharedPartConfig /\
    files w' !! (sharedPart, sharedPartName) = Some config /\
    files w' !! (templateType, templateHandle) = Some templateConfig.
Proof.
  unfold addSharedPart, try_catch.
  destruct (bool_decide (type = partner) && bool_decide (templateType = exportFile));
    [discriminate|].
  unfold bind at 1. unfold readConfig at 1.
  unfold bind at 1. unfold readConfig at 1. cbn [files templates SF trace].
  set (w1 := mkWorld _ _ _ _).
  unfold bind at 1.
  destruct (resolveMissing type envId templateType templateHandle _ w1)
    as [[[[templateConfig templateId']|]|e|n] w2] eqn:Htemplate;
    try discriminate.
  unfold bind at 1.
  destruct (resolveMissing type envId sharedPart sharedPartName _ w2)
    as [[[[sharedPartConfig sharedPartId']|]|e|n] w3] eqn:HsharedPart;
    try discriminate.
  apply resolveMissing_Some in Htemplate
    as (templateId & -> & HtemplateId & HtSF & Htemplate).
  apply resolveMissing_Some in HsharedPart
    as (sharedPartId & -> & HsharedPartId & HsSF & HsharedPart).
  destruct (addSharedPartOnPlatform templateType) as [addOnPlatform|] eqn:Hplatform;
    [|discriminate].
  assert (HtemplateType : templateType <> sharedPart)
    by (intros ->; discriminate Hplatform).
  unfold bind at 1. unfold request at 1.
  destruct (addRejected _); [discriminate|].
  unfold bind at 1.
  destruct (storeUsage_run (mkWorld (files w3) (templates w3) (SF w3)
              (trace w3 ++ [Network (Attach templateType type envId
                                       (Some sharedPartId) (Some templateId))]))
              type envId templateHandle templateType templateConfig sharedPartConfig
              templateId HtemplateId) as (events & ->).
  unfold bind, writeConfig, consola, emit, ret. cbn [files templates SF trace].
  intros [= <- <-]. cbn [files].
  exists templateId, templateConfig, sharedPartConfig.
  assert (Hother : (templateType, templateHandle) <> (sharedPart, sharedPartName))
    by congruence.
  assert (Hother' : (sharedPart, sharedPartName) <> (templateType, templateHandle))
    by congruence.
  subst w1. cbn [files] in *.
  split; [exact HtemplateType|]. split; [exact HtemplateId|].
  split; [eauto|].
  split; [|split; [|split; [reflexivity|split]]].
  - destruct Htemplate as [[-> _]|(Hnone & -> & _)]; [left; reflexivity|].
    right. split; [exact Hnone|]. eexists; reflexivity.
  - destruct HsharedPart as [[-> _]|(Hnone & -> & _)]; [left; reflexivity|].
    right. split; [exact Hnone|].
    destruct Htemplate as [[_ ->]|(_ & _ & ->)].
    + eexists; reflexivity.
    + rewrite lookup_insert_ne by exact Hother. eexists; reflexivity.
  - apply lookup_insert_eq.
  - rewrite lookup_insert_ne by exact Hother'. apply lookup_insert_eq.
Qed.

(** *** The [used_in] array after an attach *)

Lemma sameHandle_withUsageId templateHandle type envId id u :
  sameHandle templateHandle (withUsageId type envId id u) <-> sameHandle templateHandle u.
Proof. destruct type; reflexivity. Qed.

Lemma usageKey_withUsageId type envId id u :
  usageKey (withUsageId type envId id u) = usageKey u.
Proof. destruct type; reflexivity. Qed.

Lemma withUsageId_twice type envId id u :
  withUsageId type envId id (withUsageId type envId id u) = withUsageId type envId id u.
Proof.
  destruct type; unfold withUsageId, set_u_id, set_u_partnerId; simpl;
    rewrite insert_insert_eq; reflexivity.
Qed.

Lemma withUsageId_newUsage type envId id templateHandle templateType templateConfig :
  configId type envId templateConfig = Some id ->
  withUsageId type envId id (newUsage type templateHandle templateType templateConfig) =
  newUsage type templateHandle templateType templateConfig.
Proof.
  unfold configId, withUsageId, newUsage, set_u_id, set_u_partnerId.
  destruct type; simpl;
    [destruct (c_id templateConfig) as [ids|]
    |destruct (c_partnerId templateConfig) as [ids|]];
    simpl; try discriminate; intros Hid; rewrite insert_id by exact Hid; reflexivity.
Qed.

Lemma usageIds_withUsageId type envId id u :
  usageIds type (withUsageId type envId id u) !! envId = Some id.
Proof. destruct type; simpl; apply lookup_insert_eq. Qed.

Lemma usageIds_newUsage type envId id templateHandle templateType templateConfig :
  configId type envId templateConfig = Some id ->
  usageIds type (newUsage type templateHandle templateType templateConfig) !! envId = Some id.
Proof.
  unfold configId, newUsage.
  destruct type; simpl;
    [destruct (c_id templateConfig) as [ids|]
    |destruct (c_partnerId templateConfig) as [ids|]];
    simpl; try discriminate; auto.
Qed.

(** After the attach, the lookup by handle finds the entry that was written. *)
Lemma findIndex_storedUsage type envId templateHandle templateType id templateConfig used_in :
  exists templateIndex,
    findIndex templateHandle
      (storedUsage type envId templateHandle templateType id templateConfig used_in) =
      Some (templateIndex,
            match findIndex templateHandle used_in with
            | Some (_, u) => withUsageId type envId id u
            | None => newUsage type templateHandle templateType templateConfig
            end) /\
    match findIndex templateHandle used_in with
    | Some (i, _) => templateIndex = i
    | None => templateIndex = length used_in
    end.
Proof.
  unfold storedUsage, findIndex.
  destruct (list_find (sameHandle templateHandle) used_in) as [[i u]|] eqn:Hfind.
  - exists i. split; [|reflexivity].
    apply list_find_Some in Hfind as (Hi & Hu & Hbefore).
    apply list_find_Some. split; [|split].
    + apply list_lookup_insert_eq. eapply lookup_lt_Some, Hi.
    + apply sameHandle_withUsageId, Hu.
    + intros j y Hj Hlt. rewrite list_lookup_insert_ne in Hj by lia.
      eapply Hbefore; eassumption.
  - exists (length used_in). split; [|reflexivity].
    rewrite list_find_app_r by exact Hfind.
    simpl. rewrite decide_True by (left; reflexivity). reflexivity.
Qed.

(** Attaching again with the same template id changes nothing. *)
Lemma storedUsage_twice type envId templateHandle templateType id templateConfig used_in :
  configId type envId templateConfig = Some id ->
  storedUsage type envId templateHandle templateType id templateConfig
    (storedUsage type envId templateHandle templateType id templateConfig used_in) =
  storedUsage type envId templateHandle templateType id templateConfig used_in.
Proof.
  intros Hid.
  destruct (findIndex_storedUsage type envId templateHandle templateType id
              templateConfig used_in) as (k & Hfind & Hk).
  unfold storedUsage at 1. rewrite Hfind.
  unfold storedUsage.
  destruct (findIndex templateHandle used_in) as [[i u]|]; subst k.
  - rewrite list_insert_insert_eq, withUsageId_twice. reflexivity.
  - rewrite withUsageId_newUsage by exact Hid.
    replace (length used_in) with (length used_in + 0)%nat by lia.
    rewrite insert_app_r. reflexivity.
Qed.

(** At most one entry per (type, handle) pair stays at most one. *)
Lemma storedUsage_NoDup type envId templateHandle templateType id templateConfig used_in :
  NoDup (usageKey <$> used_in) ->
  NoDup (usageKey <$>
           storedUsage type envId templateHandle templateType id templateConfig used_in).
Proof.
  intros Hnodup. unfold storedUsage, findIndex.
  destruct (list_find (sameHandle templateHandle) used_in) as [[i u]|] eqn:Hfind.
  - apply list_find_Some in Hfind as (Hi & _ & _).
    rewrite list_fmap_insert, usageKey_withUsageId, list_insert_id; [exact Hnodup|].
    rewrite list_lookup_fmap, Hi. reflexivity.
  - rewrite fmap_app. apply NoDup_app. split; [exact Hnodup|]. split.
    + intros key Hkey Hnew. apply list_elem_of_singleton in Hnew. subst key.
      apply list_elem_of_fmap in Hkey as (u & Hkey & Hu).
      apply list_find_None in Hfind.
      rewrite Forall_forall in Hfind. apply (Hfind u Hu).
      left. unfold usageKey, newUsage in Hkey. simpl in Hkey. congruence.
    + apply NoDup_singleton.
Qed.

Lemma used_in_resolved type envId onDisk config :
  resolved type envId onDisk config -> c_used_in config = c_used_in onDisk.
Proof.
  intros [->|(_ & id & ->)]; [reflexivity|apply used_in_withDiscoveredId].
Qed.

Lemma resolved_with_id type envId onDisk config :
  is_Some (configId type envId onDisk) -> resolved type envId onDisk config ->
  config = onDisk.
Proof.
  intros [id Hid] [->|(Hnone & _)]; [reflexivity|congruence].
Qed.

(** C1, as the code has it. A call of [addSharedPart] that succeeds looks the
    template up in the shared part's [used_in] by its handle or name alone,
    whatever the type of the entries.  If an entry is found, the first such
    entry gets the template's id under [envId] in the id object of the scope
    (the other ids of the entry stay) and nothing is appended; if none is
    found, one entry with the template's type and handle is appended.  So a
    [used_in] with at most one entry per (type, handle) pair keeps that
    property, and a second successful attach of the same pair leaves the
    shared part's config exactly as the first one wrote it. *)
Theorem addSharedPart_keeps_one_entry_per_handle
    (w w' : World) (type : Scope) (envId : EnvId)
    (sharedPartName templateHandle : string) (templateType : TemplateType)
    (config : Config) :
  addSharedPart type envId sharedPartName templateHandle templateType w =
    (Returned (Some config), w') ->
  let before :=
    default [] (c_used_in (default emptyConfig (files w !! (sharedPart, sharedPartName)))) in
  exists after templateId,
    c_used_in config = Some after /\
    files w' !! (sharedPart, sharedPartName) = Some config /\
    (files w' !! (templateType, templateHandle)) ≫= configId type envId = Some templateId /\
    match findIndex templateHandle before with
    | Some (templateIndex, usedInTemplateConfig) =>
        after = <[templateIndex := withUsageId type envId templateId usedInTemplateConfig]>
                  before
    | None =>
        exists new,
          after = before ++ [new] /\
          usageKey new = (templateType, Some templateHandle) /\
          usageIds type new !! envId = Some templateId
    end /\
    (NoDup (usageKey <$> before) -> NoDup (usageKey <$> after)) /\
    (forall w2 w2' config2,
       files w2 = files w' ->
       addSharedPart type envId sharedPartName templateHandle templateType w2 =
         (Returned (Some config2), w2') ->
       config2 = config).
Proof.
  intros Hrun before.
  apply addSharedPart_Some in Hrun
    as (templateId & templateConfig & sharedPartConfig & HtemplateType & HtemplateId &
        HsharedPartId & Htemplate & HsharedPart & -> & Hfile & Htfile).
  apply used_in_resolved in HsharedPart as Hused.
  rewrite Hused in Hfile |- *. fold before in Hfile |- *.
  exists (storedUsage type envId templateHandle templateType templateId templateConfig before),
         templateId.
  split; [reflexivity|]. split; [exact Hfile|].
  split; [rewrite Htfile; exact HtemplateId|].
  split; [|split].
  - unfold storedUsage. destruct (findIndex templateHandle before) as [[i u]|];
      [reflexivity|].
    eexists. split; [reflexivity|]. split; [reflexivity|].
    apply usageIds_newUsage, HtemplateId.
  - apply storedUsage_NoDup.
  - intros w2 w2' config2 Hfiles Hrun2.
    apply addSharedPart_Some in Hrun2
      as (templateId2 & templateConfig2 & sharedPartConfig2 & _ & HtemplateId2 &
          _ & Htemplate2 & HsharedPart2 & -> & _ & _).
    rewrite Hfiles, Htfile in Htemplate2. rewrite Hfiles, Hfile in HsharedPart2.
    cbn [default from_option Datatypes.id] in Htemplate2, HsharedPart2.
    apply resolved_with_id in Htemplate2; [|rewrite HtemplateId; eauto].
    apply resolved_with_id in HsharedPart2; [|exact HsharedPartId].
    subst templateConfig2 sharedPartConfig2.
    assert (templateId2 = templateId) as -> by congruence.
    cbn [c_used_in set_c_used_in default from_option Datatypes.id].
    rewrite storedUsage_twice by exact HtemplateId.
    reflexivity.
Qed.

Lemma addSharedPart_keeps_one_entry_per_handle_witness :
  let w := Sample.beforeAttach in
  let run := addSharedPart firm 111 "sp_x" "recon_y" reconciliationText w in
  let attached :=
    mkConfig (Some {[111 := 7%positive]}) (Some ∅)
      (Some [mkUsage {[111 := 42%positive]} ∅ reconciliationText (Some "recon_y") None])
      None (Some "sp_x") None in
  run = (Returned (Some attached), run.2) /\
  exists after templateId,
    c_used_in attached = Some after /\
    files run.2 !! (sharedPart, "sp_x") = Some attached /\
    (files run.2 !! (reconciliationText, "recon_y")) ≫= configId firm 111 = Some templateId /\
    match findIndex "recon_y" [] with
    | Some (templateIndex, usedInTemplateConfig) =>
        after = <[templateIndex := withUsageId firm 111 templateId usedInTemplateConfig]> []
    | None =>
        exists new,
          after = [] ++ [new] /\
          usageKey new = (reconciliationText, Some "recon_y") /\
          usageIds firm new !! 111 = Some templateId
    end /\
    (NoDup (usageKey <$> []) -> NoDup (usageKey <$> after)) /\
    (forall w2 w2' config2,
       files w2 = files run.2 ->
       addSharedPart firm 111 "sp_x" "recon_y" reconciliationText w2 =
         (Returned (Some config2), w2') ->
       config2 = attached).
Proof.
  intros w run attached.
  assert (Hresult : run.1 = Returned (Some attached)) by (vm_compute; reflexivity).
  assert (Hrun : run = (Returned (Some attached), run.2))
    by (rewrite <- Hresult; apply surjective_pairing).
  split; [exact Hrun|].
  exact (addSharedPart_keeps_one_entry_per_handle w run.2 firm 111 "sp_x" "recon_y"
           reconciliationText attached Hrun).
Defined.

(** C1, as stated, fails. The shared part [sp_x] is attached to the
    reconciliation [vat]; attaching it to the export file [vat] finds that
    entry by its handle, although its type is another one, and stores the
    export file's id 55 in it: afterwards there is no entry for the pair
    (exportFile, vat), and the entry of (reconciliationText, vat) no longer
    holds the reconciliation's id 42. *)
Lemma addSharedPart_finds_entry_of_other_type :
  let w := Sample.sameHandleTwice in
  (addSharedPart firm 111 "sp_x" "vat" exportFile w).1 =
    Returned (Some
      (mkConfig (Some {[111 := 7%positive]}) (Some ∅)
         (Some [mkUsage {[111 := 55%positive]} ∅ reconciliationText (Some "vat") None])
         None (Some "sp_x") None)) /\
  ~ (forall config,
       (addSharedPart firm 111 "sp_x" "vat" exportFile w).1 = Returned (Some config) ->
       exists u, u ∈ default [] (c_used_in config) /\ usageKey u = (exportFile, Some "vat")).
Proof.
  intros w. split; [reflexivity|].
  intros H. destruct (H _ eq_refl) as (u & Hu & Hkey).
  cbn in Hu. apply list_elem_of_singleton in Hu. subst u. discriminate Hkey.
Qed.

Lemma addRejected_false response :
  addRejected response = false <->
  exists r n, response = Some r /\ status r = Some n /\ n <> 0%Z.
Proof.
  unfold addRejected, bool_strict_eq_number, truthy_number.
  destruct response as [[[n|] d]|]; simpl; split;
    try discriminate; try (intros (r & m & [=] & _); fail).
  - rewrite orb_false_r, negb_false_iff, negb_true_iff, Z.eqb_neq. eauto.
  - intros (r & m & [= <-] & [= <-] & Hm). simpl.
    rewrite orb_false_r, negb_false_iff, negb_true_iff, Z.eqb_neq. exact Hm.
  - intros (r & m & [= <-] & [=] & _).
Qed.

(** C3 does not hold for the code. Both ids are known and the platform
    answers the attach call with status 500.  The guard
    [!response || !response.status || !response.status === 201] lets the
    response through (its last disjunct compares a boolean with 201), so the
    call returns the shared part's config and writes both config files, with
    the new entry in [used_in]. *)
Theorem addSharedPart_stores_after_status_500 :
  let w := Sample.platformDown in
  let run := addSharedPart firm 111 "sp_x" "recon_y" reconciliationText w in
  let stored :=
    mkConfig (Some {[111 := 7%positive]}) (Some ∅)
      (Some [mkUsage {[111 := 42%positive]} ∅ reconciliationText (Some "recon_y") None])
      None (Some "sp_x") None in
  addSharedPartToReconciliation (SF w) firm 111 (Some 7%positive) (Some 42%positive) =
    Some (mkResponse (Some 500) None) /\
  run.1 = Returned (Some stored) /\
  files w !! (sharedPart, "sp_x") = Some Sample.sp_x /\
  files run.2 !! (sharedPart, "sp_x") = Some stored /\
  filter isConfigWrite (trace run.2) =
    [ConfigWritten reconciliationText "recon_y" Sample.recon_y;
     ConfigWritten sharedPart "sp_x" stored].
Proof.
  repeat split; reflexivity.
Qed.

(** *** Detaching *)

Lemma removeSharedPart_over_run (transport : Transport) (w : World) type envId
    sharedPartHandle templateHandle templateType :
  OverTransport.removeSharedPart transport type envId sharedPartHandle templateHandle
    templateType w =
  let templateConfig := default emptyConfig (files w !! (templateType, templateHandle)) in
  let sharedPartConfig := default emptyConfig (files w !! (sharedPart, sharedPartHandle)) in
  let ev := fun l => mkWorld (files w) (templates w) (SF w) (trace w ++ l) in
  let reads := [ConfigRead templateType templateHandle;
                ConfigRead sharedPart sharedPartHandle] in
  match configId type envId templateConfig with
  | None =>
      (Returned (Some false),
       ev (reads ++ [Console warn (TemplateIdMissing templateHandle templateType)]))
  | Some templateId =>
      match configId type envId sharedPartConfig with
      | None =>
          (Returned (Some false),
           ev (reads ++ [Console warn (SharedPartIdMissing templateHandle)]))
      | Some sharedPartId =>
          match removeOnPlatform templateType with
          | None => (Returned None, ev (reads ++ [ErrorHandler TypeError]))
          | Some remove =>
              match transport (Detach templateType type envId sharedPartId templateId) with
              | Some e =>
                  (Returned None,
                   ev (reads ++
                       [Network (Detach templateType type envId sharedPartId templateId);
                        ErrorHandler e]))
              | None =>
              let response := remove (SF w) type envId sharedPartId templateId in
              let called :=
                reads ++
                Network (Detach templateType type envId sharedPartId templateId)
                :: (if bool_decide (response ≫= status = Some 200%Z)
                    then [Console debug (RemovedOnPlatform sharedPartId templateId)]
                    else []) in
              match c_used_in sharedPartConfig with
              | None => (Returned None, ev (called ++ [ErrorHandler TypeError]))
              | Some used_in =>
                  match findIndex templateHandle used_in with
                  | None =>
                      (Returned None,
                       ev (called ++
                           [Console debug (NotInSharedPartConfig templateType templateId);
                            Console success
                              (Removed sharedPartHandle templateHandle templateType)]))
                  | Some (templateIndex, usedInTemplateConfig) =>
                      let config :=
                        set_c_used_in
                          (pruneUsage type envId templateId templateIndex
                             usedInTemplateConfig used_in)
                          sharedPartConfig in
                      (Returned None,
                       mkWorld (<[(sharedPart, sharedPartHandle) := config]> (files w))
                         (templates w) (SF w)
                         (trace w ++ called ++
                          [ConfigWritten sharedPart sharedPartHandle config;
                           Console success
                             (Removed sharedPartHandle templateHandle templateType)]))
                  end
              end
              end
          end
      end
  end.
Proof.
  unfold OverTransport.removeSharedPart, try_catch.
  unfold bind at 1. unfold readConfig at 1.
  unfold bind at 1. unfold readConfig at 1. cbn [files templates SF trace].
  destruct (configId type envId (default emptyConfig (files w !! (templateType, templateHandle))))
    as [templateId|]; cbv zeta.
  2: { unfold bind, consola, emit, ret. cbn. rewrite <- !app_assoc. reflexivity. }
  destruct (configId type envId (default emptyConfig (files w !! (sharedPart, sharedPartHandle))))
    as [sharedPartId|].
  2: { unfold bind, consola, emit, ret. cbn. rewrite <- !app_assoc. reflexivity. }
  destruct (removeOnPlatform templateType) as [remove|].
  2: { unfold throw, bind, errorHandler, emit, ret. cbn. rewrite <- !app_assoc. reflexivity. }
  unfold await.
  destruct (transport (Detach templateType type envId sharedPartId templateId)) as [e|].
  { unfold throw, bind, errorHandler, emit, ret. cbn. rewrite <- !app_assoc. reflexivity. }
  unfold bind at 1. unfold request at 1. cbn [files templates SF trace].
  unfold bind at 1.
  destruct (bool_decide (remove (SF w) type envId sharedPartId templateId ≫= status = Some 200%Z));
    unfold consola at 1, emit at 1, ret at 1; cbn [files templates SF trace];
    (destruct (c_used_in (default emptyConfig (files w !! (sharedPart, sharedPartHandle))))
       as [used_in|];
     [destruct (findIndex templateHandle used_in) as [[i u]|]|]);
    unfold throw, bind, writeConfig, errorHandler, consola, emit, ret; cbn;
    rewrite <- !app_assoc; reflexivity.
Qed.

Lemma removeSharedPart_run (w : World) type envId sharedPartHandle templateHandle
    templateType :
  removeSharedPart type envId sharedPartHandle templateHandle templateType w =
  let templateConfig := default emptyConfig (files w !! (templateType, templateHandle)) in
  let sharedPartConfig := default emptyConfig (files w !! (sharedPart, sharedPartHandle)) in
  let ev := fun l => mkWorld (files w) (templates w) (SF w) (trace w ++ l) in
  let reads := [ConfigRead templateType templateHandle;
                ConfigRead sharedPart sharedPartHandle] in
  match configId type envId templateConfig with
  | None =>
      (Returned (Some false),
       ev (reads ++ [Console warn (TemplateIdMissing templateHandle templateType)]))
  | Some templateId =>
      match configId type envId sharedPartConfig with
      | None =>
          (Returned (Some false),
           ev (reads ++ [Console warn (SharedPartIdMissing templateHandle)]))
      | Some sharedPartId =>
          match removeOnPlatform templateType with
          | None => (Returned None, ev (reads ++ [ErrorHandler TypeError]))
          | Some remove =>
              let response := remove (SF w) type envId sharedPartId templateId in
              let called :=
                reads ++
                Network (Detach templateType type envId sharedPartId templateId)
                :: (if bool_decide (response ≫= status = Some 200%Z)
                    then [Console debug (RemovedOnPlatform sharedPartId templateId)]
                    else []) in
              match c_used_in sharedPartConfig with
              | None => (Returned None, ev (called ++ [ErrorHandler TypeError]))
              | Some used_in =>
                  match findIndex templateHandle used_in with
                  | None =>
                      (Returned None,
                       ev (called ++
                           [Console debug (NotInSharedPartConfig templateType templateId);
                            Console success
                              (Removed sharedPartHandle templateHandle templateType)]))
                  | Some (templateIndex, usedInTemplateConfig) =>
                      let config :=
                        set_c_used_in
                          (pruneUsage type envId templateId templateIndex
                             usedInTemplateConfig used_in)
                          sharedPartConfig in
                      (Returned None,
                       mkWorld (<[(sharedPart, sharedPartHandle) := config]> (files w))
                         (templates w) (SF w)
                         (trace w ++ called ++
                          [ConfigWritten sharedPart sharedPartHandle config;
                           Console success
                             (Removed sharedPartHandle templateHandle templateType)]))
                  end
              end
          end
      end
  end.
Proof.
  unfold removeSharedPart. rewrite removeSharedPart_over_run. reflexivity.
Qed.

Lemma deleteId_absent type envId u :
  usageIds type u !! envId = None -> deleteId type envId u = u.
Proof.
  destruct u as [ids partnerIds t h n].
  destruct type; unfold deleteId, set_u_id, set_u_partnerId; simpl; intros Hnone;
    rewrite delete_id by exact Hnone; reflexivity.
Qed.

Lemma pruneUsage_prunedUsage type envId templateId templateIndex usedInTemplateConfig used_in :
  used_in !! templateIndex = Some usedInTemplateConfig ->
  pruneUsage type envId templateId templateIndex usedInTemplateConfig used_in =
  prunedUsage type envId templateId templateIndex usedInTemplateConfig used_in.
Proof.
  intros Hlookup. unfold pruneUsage, prunedUsage.
  destruct (usageIds type usedInTemplateConfig !! envId) as [targetId|] eqn:Htarget.
  - destruct (Nat.leb_spec (totalIds usedInTemplateConfig) 1) as [Hle|Hgt]; simpl.
    + destruct (bool_decide_reflect (templateId = targetId)) as [->|Hne].
      * rewrite decide_True by auto. reflexivity.
      * rewrite decide_False by (intros [_ [= ->]]; auto). reflexivity.
    + rewrite decide_False by (intros [? _]; lia). reflexivity.
  - rewrite decide_False by (intros [_ [=]]).
    rewrite deleteId_absent by exact Htarget.
    rewrite list_insert_id by exact Hlookup. reflexivity.
Qed.

Lemma deleteId_keeps type envId u :
  usageIds type (deleteId type envId u) = delete envId (usageIds type u) /\
  usageIds (otherScope type) (deleteId type envId u) = usageIds (otherScope type) u /\
  usageKey (deleteId type envId u) = usageKey u /\
  u_name (deleteId type envId u) = u_name u.
Proof. destruct type; repeat split. Qed.

(** C2, as the code has it.  A detach whose call to the platform returns
    (both ids are in the local configs, the transport does not reject the
    call) deals with the first entry of [used_in] that has the template's
    handle or name, whatever the type of that entry.  If the entry holds at
    most one id in its [id] and [partnerId] objects together, and the id it
    holds under [envId] in the object of the scope is the template's id, the
    entry is removed; otherwise only the key [envId] is deleted from the
    object of the scope, and the entry, with its other object, stays where it
    is.  The shared part's config is written with that [used_in] and no other
    file changes.  Whatever the state of the ids and of the transport, if no
    entry has the template's handle or name, no file changes. *)
Theorem removeSharedPart_prunes_usage
    (transport : Transport) (w : World) (type : Scope) (envId : EnvId)
    (sharedPartHandle templateHandle : string) (templateType : TemplateType) :
  let run :=
    OverTransport.removeSharedPart transport type envId sharedPartHandle templateHandle
      templateType w in
  let templateConfig := default emptyConfig (files w !! (templateType, templateHandle)) in
  let sharedPartConfig := default emptyConfig (files w !! (sharedPart, sharedPartHandle)) in
  (c_used_in sharedPartConfig ≫= findIndex templateHandle = None -> files run.2 = files w) /\
  (forall templateId sharedPartId used_in templateIndex usedInTemplateConfig,
     templateType <> sharedPart ->
     configId type envId templateConfig = Some templateId ->
     configId type envId sharedPartConfig = Some sharedPartId ->
     transport (Detach templateType type envId sharedPartId templateId) = None ->
     c_used_in sharedPartConfig = Some used_in ->
     findIndex templateHandle used_in = Some (templateIndex, usedInTemplateConfig) ->
     (used_in !! templateIndex = Some usedInTemplateConfig /\
      sameHandle templateHandle usedInTemplateConfig /\
      forall j u, (j < templateIndex)%nat -> used_in !! j = Some u ->
                  ~ sameHandle templateHandle u) /\
     files run.2 =
       <[(sharedPart, sharedPartHandle) :=
           set_c_used_in
             (prunedUsage type envId templateId templateIndex usedInTemplateConfig used_in)
             sharedPartConfig]> (files w) /\
     usageIds type (deleteId type envId usedInTemplateConfig) =
       delete envId (usageIds type usedInTemplateConfig) /\
     usageIds (otherScope type) (deleteId type envId usedInTemplateConfig) =
       usageIds (otherScope type) usedInTemplateConfig /\
     usageKey (deleteId type envId usedInTemplateConfig) = usageKey usedInTemplateConfig).
Proof.
  intros run templateConfig sharedPartConfig. subst run.
  rewrite removeSharedPart_over_run. cbv zeta. fold templateConfig sharedPartConfig.
  split.
  - intros Hnone.
    destruct (configId type envId templateConfig) as [templateId|]; [|reflexivity].
    destruct (configId type envId sharedPartConfig) as [sharedPartId|]; [|reflexivity].
    destruct (removeOnPlatform templateType); [|reflexivity].
    destruct (transport (Detach templateType type envId sharedPartId templateId));
      [reflexivity|].
    destruct (c_used_in sharedPartConfig) as [used_in|]; [|reflexivity].
    simpl in Hnone. rewrite Hnone. reflexivity.
  - intros templateId sharedPartId used_in i u HtemplateType HtemplateId HsharedPartId
      Hreturns Hused Hfind.
    rewrite HtemplateId, HsharedPartId, Hused, Hfind.
    assert (Hfirst : used_in !! i = Some u /\ sameHandle templateHandle u /\
                     forall j y, (j < i)%nat -> used_in !! j = Some y ->
                                 ~ sameHandle templateHandle y).
    { unfold findIndex in Hfind. apply list_find_Some in Hfind as (Hi & Hu & Hbefore).
      repeat split; [exact Hi|exact Hu|].
      intros j y Hj Hy. exact (Hbefore j y Hy Hj). }
    split; [exact Hfirst|].
    destruct templateType; try congruence; cbn [removeOnPlatform];
      rewrite Hreturns; cbn [files];
      (rewrite pruneUsage_prunedUsage by (apply Hfirst));
      (split; [reflexivity|]);
      destruct (deleteId_keeps type envId u) as (H1 & H2 & H3 & _); auto.
Qed.

Lemma removeSharedPart_prunes_usage_witness :
  let entry := mkUsage {[111 := 42%positive]} ∅ reconciliationText (Some "recon_y") None in
  let both :=
    mkUsage {[111 := 42%positive; 222 := 43%positive]} ∅
            reconciliationText (Some "recon_y") None in
  let other := mkUsage {[111 := 50%positive]} ∅ reconciliationText (Some "recon_z") None in
  let sp_x_elsewhere := set_c_used_in [other] Sample.sp_x in
  (* one id, and it is the template's: the entry goes *)
  files (OverTransport.removeSharedPart reliable firm 111 "sp_x" "recon_y" reconciliationText
           (Sample.attached Sample.sp_x_attached (Sample.detaches 200))).2 =
    <[(sharedPart, "sp_x") := set_c_used_in [] Sample.sp_x_attached]>
      (files (Sample.attached Sample.sp_x_attached (Sample.detaches 200))) /\
  (* two ids: only the key 111 goes *)
  files (OverTransport.removeSharedPart reliable firm 111 "sp_x" "recon_y" reconciliationText
           (Sample.attached Sample.sp_x_attached_twice (Sample.detaches 200))).2 =
    <[(sharedPart, "sp_x") :=
        set_c_used_in
          [mkUsage {[222 := 43%positive]} ∅ reconciliationText (Some "recon_y") None]
          Sample.sp_x_attached_twice]>
      (files (Sample.attached Sample.sp_x_attached_twice (Sample.detaches 200))) /\
  (* [used_in] lists another template only: nothing changes *)
  findIndex "recon_y" [other] = None /\
  files (OverTransport.removeSharedPart reliable firm 111 "sp_x" "recon_y" reconciliationText
           (Sample.attached sp_x_elsewhere (Sample.detaches 200))).2 =
    files (Sample.attached sp_x_elsewhere (Sample.detaches 200)).
Proof.
  intros entry both other sp_x_elsewhere.
  pose proof (removeSharedPart_prunes_usage reliable
                (Sample.attached Sample.sp_x_attached (Sample.detaches 200))
                firm 111 "sp_x" "recon_y" reconciliationText) as [_ Hone].
  pose proof (removeSharedPart_prunes_usage reliable
                (Sample.attached Sample.sp_x_attached_twice (Sample.detaches 200))
                firm 111 "sp_x" "recon_y" reconciliationText) as [_ Htwo].
  pose proof (removeSharedPart_prunes_usage reliable
                (Sample.attached sp_x_elsewhere (Sample.detaches 200))
                firm 111 "sp_x" "recon_y" reconciliationText) as [Hnone _].
  split; [|split; [|split]].
  - destruct (Hone 42%positive 7%positive [entry] 0%nat entry) as (_ & Hfiles & _);
      [discriminate|reflexivity..|].
    exact Hfiles.
  - destruct (Htwo 42%positive 7%positive [both] 0%nat both) as (_ & Hfiles & _);
      [discriminate|reflexivity..|].
    exact Hfiles.
  - reflexivity.
  - apply Hnone. reflexivity.
Defined.

(** C2, as stated, fails on two counts.  The entry is located by the handle
    alone: detaching the export file [vat] finds the entry of the
    reconciliation [vat], there being no entry of type export file, and takes
    the id 42 of the reconciliation out of it.  And the id that is compared
    with the template's is the one under [envId] in the object of the scope:
    an entry whose one id, 42, the template's id, is stored for firm 222 is
    not removed by a detach for firm 111. *)
Lemma removeSharedPart_prunes_entry_of_other_type :
  (let w := Sample.sameHandleTwice in
   let run := removeSharedPart firm 111 "sp_x" "vat" exportFile w in
   c_used_in Sample.sp_x_in_vat =
     Some [mkUsage {[111 := 42%positive]} ∅ reconciliationText (Some "vat") None] /\
   configId firm 111 Sample.vat_export = Some 55%positive /\
   files w !! (sharedPart, "sp_x") = Some Sample.sp_x_in_vat /\
   files run.2 !! (sharedPart, "sp_x") =
     Some (set_c_used_in [mkUsage ∅ ∅ reconciliationText (Some "vat") None]
                         Sample.sp_x_in_vat) /\
   files run.2 <> files w) /\
  (let elsewhere := mkUsage {[222 := 42%positive]} ∅ reconciliationText (Some "recon_y") None in
   let w := Sample.attached (set_c_used_in [elsewhere] Sample.sp_x) (Sample.detaches 200) in
   let run := removeSharedPart firm 111 "sp_x" "recon_y" reconciliationText w in
   totalIds elsewhere = 1%nat /\
   configId firm 111 Sample.recon_y = Some 42%positive /\
   files run.2 !! (sharedPart, "sp_x") = Some (set_c_used_in [elsewhere] Sample.sp_x)).
Proof.
  split.
  - intros w run. repeat split.
    intros Heq.
    assert (H : files run.2 !! (sharedPart, "sp_x") = files w !! (sharedPart, "sp_x"))
      by (rewrite Heq; reflexivity).
    discriminate H.
  - intros elsewhere w run. repeat split.
Qed.

(** C5, as the code has it.  A detach call that reaches the gateway does its
    local bookkeeping whenever the call returns, whatever the response is:
    the first entry of [used_in] with the template's handle or name is pruned
    and the shared part's config is written (or, without such an entry,
    nothing is written), the closing line is printed and nothing is returned;
    the files left behind do not depend on the response, whose status only
    decides whether the debug line "removed on the platform" is printed
    (status 200).  The bookkeeping is skipped only when the call is rejected:
    the error then goes to the error handler and no file changes. *)
Theorem removeSharedPart_prunes_unless_rejected
    (transport : Transport) (w : World) (type : Scope) (envId : EnvId)
    (sharedPartHandle templateHandle : string) (templateType : TemplateType)
    (templateId sharedPartId : RemoteId)
    (remove : Gateway -> Scope -> EnvId -> RemoteId -> RemoteId -> option Response)
    (used_in : list UsageEntry) :
  let templateConfig := default emptyConfig (files w !! (templateType, templateHandle)) in
  let sharedPartConfig := default emptyConfig (files w !! (sharedPart, sharedPartHandle)) in
  configId type envId templateConfig = Some templateId ->
  configId type envId sharedPartConfig = Some sharedPartId ->
  removeOnPlatform templateType = Some remove ->
  c_used_in sharedPartConfig = Some used_in ->
  let run :=
    OverTransport.removeSharedPart transport type envId sharedPartHandle templateHandle
      templateType w in
  let call := Detach templateType type envId sharedPartId templateId in
  let response := remove (SF w) type envId sharedPartId templateId in
  match transport call with
  | Some e =>
      run =
        (Returned None,
         mkWorld (files w) (templates w) (SF w)
           (trace w ++ [ConfigRead templateType templateHandle;
                        ConfigRead sharedPart sharedPartHandle;
                        Network call;
                        ErrorHandler e]))
  | None =>
      run.1 = Returned None /\
      files run.2 =
        match findIndex templateHandle used_in with
        | None => files w
        | Some (templateIndex, usedInTemplateConfig) =>
            <[(sharedPart, sharedPartHandle) :=
                set_c_used_in
                  (prunedUsage type envId templateId templateIndex usedInTemplateConfig
                     used_in)
                  sharedPartConfig]> (files w)
        end /\
      exists events,
        trace run.2 = trace w ++ events /\
        filter isNetwork events = [Network call] /\
        (Console debug (RemovedOnPlatform sharedPartId templateId) ∈ events <->
         response ≫= status = Some 200%Z) /\
        last events =
          Some (Console success (Removed sharedPartHandle templateHandle templateType))
  end.
Proof.
  intros templateConfig sharedPartConfig HtemplateId HsharedPartId Hremove Hused
    run call response.
  subst run. rewrite removeSharedPart_over_run. cbv zeta.
  fold templateConfig sharedPartConfig.
  rewrite HtemplateId, HsharedPartId, Hremove. fold call.
  destruct (transport call) as [e|]; [reflexivity|].
  rewrite Hused. fold response.
  destruct (findIndex templateHandle used_in) as [[templateIndex usedInTemplateConfig]|]
    eqn:Hfind; cbn [fst snd files trace].
  - split; [reflexivity|]. split.
    { rewrite pruneUsage_prunedUsage
        by (unfold findIndex in Hfind; apply list_find_Some in Hfind as [Hi _]; exact Hi).
      reflexivity. }
    eexists. split; [reflexivity|].
    destruct (bool_decide_reflect (response ≫= status = Some 200%Z)) as [Hok|Hno]; cbn.
    + split; [reflexivity|]. split; [|reflexivity].
      split; [intros _; exact Hok|]. intros _.
      do 3 apply list_elem_of_further. apply list_elem_of_here.
    + split; [reflexivity|]. split; [|reflexivity].
      split; [|intros Hok; contradiction]. intros Hin.
      repeat (apply elem_of_cons in Hin as [Hin|Hin]; [discriminate Hin|]).
      inversion Hin.
  - split; [reflexivity|]. split; [reflexivity|].
    eexists. split; [reflexivity|].
    destruct (bool_decide_reflect (response ≫= status = Some 200%Z)) as [Hok|Hno]; cbn.
    + split; [reflexivity|]. split; [|reflexivity].
      split; [intros _; exact Hok|]. intros _.
      do 3 apply list_elem_of_further. apply list_elem_of_here.
    + split; [reflexivity|]. split; [|reflexivity].
      split; [|intros Hok; contradiction]. intros Hin.
      repeat (apply elem_of_cons in Hin as [Hin|Hin]; [discriminate Hin|]).
      inversion Hin.
Qed.

Lemma removeSharedPart_prunes_unless_rejected_witness :
  let w := Sample.attached Sample.sp_x_attached (Sample.detaches 500) in
  let call := Detach reconciliationText firm 111 7%positive 42%positive in
  let unreachable : Transport := fun _ => Some TransportError in
  (* the call returns status 500: the entry is pruned all the same *)
  (let run :=
     OverTransport.removeSharedPart reliable firm 111 "sp_x" "recon_y" reconciliationText w in
   run.1 = Returned None /\
   files run.2 =
     <[(sharedPart, "sp_x") := set_c_used_in [] Sample.sp_x_attached]> (files w) /\
   exists events,
     trace run.2 = trace w ++ events /\
     filter isNetwork events = [Network call] /\
     (Console debug (RemovedOnPlatform 7%positive 42%positive) ∈ events <->
      Some 500%Z = Some 200%Z) /\
     last events = Some (Console success (Removed "sp_x" "recon_y" reconciliationText))) /\
  (* the call is rejected: nothing is pruned *)
  OverTransport.removeSharedPart unreachable firm 111 "sp_x" "recon_y" reconciliationText w =
    (Returned None,
     mkWorld (files w) (templates w) (SF w)
       (trace w ++ [ConfigRead reconciliationText "recon_y";
                    ConfigRead sharedPart "sp_x";
                    Network call;
                    ErrorHandler TransportError])).
Proof.
  intros w call unreachable. split.
  - exact (removeSharedPart_prunes_unless_rejected reliable w firm 111 "sp_x" "recon_y"
             reconciliationText 42%positive 7%positive removeSharedPartFromReconciliation
             [mkUsage {[111 := 42%positive]} ∅ reconciliationText (Some "recon_y") None]
             eq_refl eq_refl eq_refl eq_refl).
  - exact (removeSharedPart_prunes_unless_rejected unreachable w firm 111 "sp_x" "recon_y"
             reconciliationText 42%positive 7%positive removeSharedPartFromReconciliation
             [mkUsage {[111 := 42%positive]} ∅ reconciliationText (Some "recon_y") None]
             eq_refl eq_refl eq_refl eq_refl).
Defined.

(** C5, as stated, fails. The platform answers the detach call with status
    500, which is neither a success nor an "already detached" answer; the
    usage entry is removed from the shared part's config all the same. *)
Lemma removeSharedPart_prunes_after_status_500 :
  let w := Sample.attached Sample.sp_x_attached (Sample.detaches 500) in
  let run := removeSharedPart firm 111 "sp_x" "recon_y" reconciliationText w in
  removeSharedPartFromReconciliation (SF w) firm 111 7%positive 42%positive =
    Some (mkResponse (Some 500) None) /\
  files w !! (sharedPart, "sp_x") = Some Sample.sp_x_attached /\
  files run.2 !! (sharedPart, "sp_x") = Some (set_c_used_in [] Sample.sp_x_attached) /\
  files run.2 <> files w.
Proof.
  intros w run. repeat split.
  intros Heq.
  assert (H : files run.2 !! (sharedPart, "sp_x") = files w !! (sharedPart, "sp_x"))
    by (rewrite Heq; reflexivity).
  discriminate H.
Qed.

(** *** The first [index.js] *)

(** The earlier [getTemplateId] behaves as the current one does on the firm
    side: a lookup that returns nothing gives [false] without a config
    read or write; a found record gives [true] and one write, with the id
    under [firmId]. *)
Lemma legacy_getTemplateId_writes_only_on_discovery
    (w : Legacy.World) (firmId : EnvId) (type : TemplateType) (handle : string) :
  let run := Legacy.getTemplateId firmId type handle w in
  let found :=
    match type with
    | reconciliationText => Legacy.findReconciliationTextByHandle (Legacy.SF w) firmId handle
    | sharedPart => Legacy.findSharedPartByName (Legacy.SF w) firmId handle
    | _ => None
    end in
  exists events,
    Legacy.trace run.2 = Legacy.trace w ++ events /\
    match found with
    | None =>
        run.1 = Returned false /\
        Legacy.files run.2 = Legacy.files w /\
        filter Legacy.touchesConfig events = []
    | Some templateText =>
        run.1 = Returned true /\
        exists config,
          Legacy.files run.2 = <[(type, handle) := config]> (Legacy.files w) /\
          filter Legacy.touchesConfig events =
            [Legacy.ConfigRead type handle; Legacy.ConfigWritten type handle config] /\
          (Legacy.c_id config ≫= lookup firmId) = Some (r_id templateText)
    end.
Proof.
  intros run found. subst run found.
  unfold Legacy.getTemplateId, bind, Legacy.request, Legacy.console, Legacy.emit,
    Legacy.readConfig, Legacy.writeConfig, ret.
  destruct type; cbn [Legacy.files Legacy.SF Legacy.trace];
    try (eexists; split; [reflexivity|]; repeat split; reflexivity);
    match goal with
    | |- context [Legacy.findReconciliationTextByHandle ?sf ?f ?h] =>
        destruct (Legacy.findReconciliationTextByHandle sf f h) as [t|]
    | |- context [Legacy.findSharedPartByName ?sf ?f ?h] =>
        destruct (Legacy.findSharedPartByName sf f h) as [t|]
    end;
    cbn [fst snd Legacy.files Legacy.SF Legacy.trace];
    rewrite <- ?app_assoc;
    (eexists; split; [reflexivity|]);
    try (repeat split; reflexivity);
    (split; [reflexivity|]); eexists; (split; [reflexivity|]); (split; [reflexivity|]);
    destruct (Legacy.c_id (default Legacy.emptyConfig (Legacy.files w !! _)));
    simpl; apply lookup_insert_eq.
Qed.

(** The earlier [addSharedPartToReconciliation] has the same status guard as
    the current [addSharedPart]: with both ids known and the attach call
    answered with status 500, it returns [true] and writes both configs. *)
Lemma legacy_addSharedPart_stores_after_status_500 :
  let w := Legacy.platformDown in
  let run := Legacy.addSharedPartToReconciliation 111 "sp_x" "recon_y" w in
  run.1 = Returned true /\
  Legacy.files run.2 !! (sharedPart, "sp_x") =
    Some (Legacy.set_c_used_in
            [Legacy.mkUsage {[111 := 42%positive]} "reconciliation" (Some "recon_y")]
            Legacy.sp_x) /\
  Legacy.files w !! (sharedPart, "sp_x") = Some Legacy.sp_x.
Proof.
  repeat split; vm_compute; reflexivity.
Qed.

Lemma assign_Some (envId : EnvId) (value : RemoteId) (obj : IdMap) :
  assign envId (Some value) obj = <[envId := value]> obj.
Proof. reflexivity. Qed.

(** The earlier bookkeeping keeps at most one entry per (type, handle) pair
    as well: the entry is looked up by its handle, and a new one is
    appended only when no entry has the handle. *)
Lemma legacy_storedUsage_NoDup firmId reconciliationHandle reconciliationId used_in :
  NoDup (Legacy.usageKey <$> default [] used_in) ->
  NoDup (Legacy.usageKey <$>
           Legacy.storedUsage firmId reconciliationHandle reconciliationId used_in).
Proof.
  intros Hnodup. unfold Legacy.storedUsage.
  destruct used_in as [used_in|]; cbn [default from_option Datatypes.id] in *.
  - destruct (list_find _ used_in) as [[i u]|] eqn:Hfind.
    + apply list_find_Some in Hfind as (Hi & _ & _).
      rewrite list_fmap_insert.
      change (Legacy.usageKey (Legacy.set_u_id _ u)) with (Legacy.usageKey u).
      rewrite list_insert_id; [exact Hnodup|].
      rewrite list_lookup_fmap, Hi. reflexivity.
    + rewrite fmap_app. apply NoDup_app. split; [exact Hnodup|]. split.
      * intros key Hkey Hnew. apply list_elem_of_singleton in Hnew. subst key.
        apply list_elem_of_fmap in Hkey as (u & Hkey & Hu).
        apply list_find_None in Hfind. rewrite Forall_forall in Hfind.
        apply (Hfind u Hu). unfold Legacy.usageKey in Hkey. simpl in Hkey. congruence.
      * apply NoDup_singleton.
  - apply NoDup_singleton.
Qed.

Lemma legacy_storedUsage_twice firmId reconciliationHandle reconciliationId used_in :
  Legacy.storedUsage firmId reconciliationHandle (Some reconciliationId)
    (Some (Legacy.storedUsage firmId reconciliationHandle (Some reconciliationId) used_in)) =
  Legacy.storedUsage firmId reconciliationHandle (Some reconciliationId) used_in.
Proof.
  set (P := fun entry => Legacy.u_handle entry = Some reconciliationHandle).
  assert (Hsingle : forall l : list Legacy.Usage,
    list_find P l = None ->
    Legacy.storedUsage firmId reconciliationHandle (Some reconciliationId)
      (Some (l ++ [Legacy.mkUsage (assign firmId (Some reconciliationId) ∅)
                     "reconciliation" (Some reconciliationHandle)])) =
    l ++ [Legacy.mkUsage (assign firmId (Some reconciliationId) ∅)
            "reconciliation" (Some reconciliationHandle)]).
  { intros l Hnone. unfold Legacy.storedUsage. fold P.
    rewrite list_find_app_r by exact Hnone.
    simpl. rewrite decide_True by reflexivity. simpl.
    replace (length l) with (length l + 0)%nat at 1 by lia.
    rewrite insert_app_r. simpl. do 2 f_equal.
    unfold Legacy.set_u_id. simpl. f_equal.
    rewrite !assign_Some. apply insert_insert_eq. }
  unfold Legacy.storedUsage at 2 3. fold P.
  destruct used_in as [used_in|]; cbn [default from_option Datatypes.id].
  - destruct (list_find P used_in) as [[i u]|] eqn:Hfind.
    + apply list_find_Some in Hfind as (Hi & Hu & Hbefore).
      unfold Legacy.storedUsage. fold P.
      assert (Hfind' : list_find P
                (<[i := Legacy.set_u_id (assign firmId (Some reconciliationId)
                                           (Legacy.u_id u)) u]> used_in) =
              Some (i, Legacy.set_u_id (assign firmId (Some reconciliationId)
                                           (Legacy.u_id u)) u)).
      { apply list_find_Some. split; [|split].
        - apply list_lookup_insert_eq. eapply lookup_lt_Some, Hi.
        - exact Hu.
        - intros j y Hj Hlt. rewrite list_lookup_insert_ne in Hj by lia.
          eapply Hbefore; eassumption. }
      rewrite Hfind'. cbn [default from_option Datatypes.id].
      rewrite list_insert_insert_eq.
      unfold Legacy.set_u_id. simpl.
      rewrite !assign_Some, insert_insert_eq. reflexivity.
    + apply Hsingle, Hfind.
  - apply (Hsingle [] eq_refl).
Qed.

(** With both ids in the local configs and an answer that passes the guard,
    the earlier attach writes the shared part's config with [storedUsage]. *)
Lemma legacy_addSharedPartToReconciliation_stores
    (w : Legacy.World) (firmId : EnvId) (sharedPartHandle reconciliationHandle : string)
    (configReconciliation configSharedPart : Legacy.Config)
    (reconciliationIds sharedPartIds : IdMap) (reconciliationId sharedPartId : RemoteId) :
  Legacy.files w !! (reconciliationText, reconciliationHandle) = Some configReconciliation ->
  Legacy.files w !! (sharedPart, sharedPartHandle) = Some configSharedPart ->
  Legacy.c_id configReconciliation = Some reconciliationIds ->
  reconciliationIds !! firmId = Some reconciliationId ->
  Legacy.c_id configSharedPart = Some sharedPartIds ->
  sharedPartIds !! firmId = Some sharedPartId ->
  addRejected (Legacy.addSharedPartToReconciliationOnPlatform (Legacy.SF w) firmId
                 (Some sharedPartId) (Some reconciliationId)) = false ->
  let run := Legacy.addSharedPartToReconciliation firmId sharedPartHandle
               reconciliationHandle w in
  run.1 = Returned true /\
  Legacy.files run.2 =
    <[(reconciliationText, reconciliationHandle) := configReconciliation]>
      (<[(sharedPart, sharedPartHandle) :=
           Legacy.set_c_used_in
             (Legacy.storedUsage firmId reconciliationHandle (Some reconciliationId)
                (Legacy.c_used_in configSharedPart))
             configSharedPart]> (Legacy.files w)).
Proof.
  intros Hr Hs Hrids Hrid Hsids Hsid Haccepted run. subst run.
  unfold Legacy.addSharedPartToReconciliation, try_catch, Legacy.resolveMissing,
    Legacy.idOf, bind, Legacy.readConfig, Legacy.request, Legacy.writeConfig,
    Legacy.console, Legacy.emit, ret.
  cbn [Legacy.files Legacy.SF Legacy.trace].
  rewrite Hr, Hs. cbn [default from_option Datatypes.id].
  repeat first
    [ rewrite Hrids | rewrite Hsids | rewrite Hrid | rewrite Hsid | rewrite Haccepted
    | progress cbn [Legacy.files Legacy.SF Legacy.trace] ].
  cbn [fst snd Legacy.files]. split; reflexivity.
Qed.

(** * Further properties *)

(** *** Identity resolution *)

Lemma withDiscoveredId_twice type envId id config :
  withDiscoveredId type envId id (withDiscoveredId type envId id config) =
  withDiscoveredId type envId id config.
Proof.
  destruct type; unfold withDiscoveredId; simpl; rewrite insert_insert_eq; reflexivity.
Qed.

Lemma configId_withDiscoveredId_other type envId id config type' envId' :
  (type', envId') <> (type, envId) ->
  configId type' envId' (withDiscoveredId type envId id config) =
  configId type' envId' config.
Proof.
  intros Hne. unfold configId, withDiscoveredId.
  destruct type, type'; simpl;
    try (destruct (c_id config); reflexivity);
    try (destruct (c_partnerId config); reflexivity).
  - assert (envId <> envId') by congruence.
    rewrite lookup_insert_ne by assumption.
    destruct (c_id config); simpl; [reflexivity|apply lookup_empty].
  - assert (envId <> envId') by congruence.
    rewrite lookup_insert_ne by assumption.
    destruct (c_partnerId config); simpl; [reflexivity|apply lookup_empty].
Qed.

(** X1. [getTemplateId] changes nothing but the two id objects of the config
    of the template it was called for.  When the platform finds the template,
    the id object of the scope gets the found id under [envId], and a missing
    id object of the other scope becomes an empty one; every other id of that
    config (the other scope, the other environments), its [used_in] list and
    its names read as before, and no other config file changes.  When the
    platform does not find the template, no file changes. *)
Theorem getTemplateId_frame
    (w : World) (type : Scope) (envId : EnvId)
    (templateType : TemplateType) (handle : string) :
  let w' := (getTemplateId type envId templateType handle w).2 in
  let before := default emptyConfig (files w !! (templateType, handle)) in
  let after := default emptyConfig (files w' !! (templateType, handle)) in
  match findByHandle templateType (SF w) type envId handle with
  | Some found =>
      scopeIds type after =
        Some (<[envId := r_id found]> (default ∅ (scopeIds type before))) /\
      scopeIds (otherScope type) after =
        Some (default ∅ (scopeIds (otherScope type) before))
  | None => files w' = files w
  end /\
  (forall type' envId', (type', envId') <> (type, envId) ->
     configId type' envId' after = configId type' envId' before) /\
  c_used_in after = c_used_in before /\
  (c_handle after, c_name after, c_name_nl after) =
    (c_handle before, c_name before, c_name_nl before) /\
  (forall key, key <> (templateType, handle) -> files w' !! key = files w !! key) /\
  SF w' = SF w /\ templates w' = templates w.
Proof.
  intros w' before after. subst w' after.
  rewrite getTemplateId_run.
  destruct (findByHandle templateType (SF w) type envId handle) as [t|]; cbn [snd files SF templates].
  - rewrite lookup_insert_eq. cbn [default from_option Datatypes.id]. fold before.
    split; [destruct type; split; reflexivity|].
    split; [intros; apply configId_withDiscoveredId_other; assumption|].
    split; [apply used_in_withDiscoveredId|].
    split; [destruct type; reflexivity|].
    split; [|split; reflexivity].
    intros key Hkey. apply lookup_insert_ne. congruence.
  - repeat split; reflexivity.
Qed.

(** X2. Looking the same template up a second time changes nothing: the files
    after two calls of [getTemplateId] in a row are the files after the
    first.  (The platform is asked both times; the call itself does not look
    at the id it already has.) *)
Theorem getTemplateId_twice
    (w : World) (type : Scope) (envId : EnvId)
    (templateType : TemplateType) (handle : string) :
  let once := getTemplateId type envId templateType handle w in
  let twice := getTemplateId type envId templateType handle once.2 in
  files twice.2 = files once.2 /\
  twice.1 = once.1 /\
  filter isNetwork (trace twice.2) =
    filter isNetwork (trace once.2) ++ [Network (Find templateType type envId handle)].
Proof.
  intros once twice. subst twice once.
  rewrite (getTemplateId_run w).
  destruct (findByHandle templateType (SF w) type envId handle) as [t|] eqn:Hfind;
    cbv zeta; cbn [snd fst]; rewrite getTemplateId_run; cbn [SF files trace];
    rewrite Hfind; cbn [snd fst files trace].
  - rewrite lookup_insert_eq. cbn [default from_option Datatypes.id].
    rewrite withDiscoveredId_twice, insert_insert_eq.
    split; [reflexivity|]. split; [reflexivity|].
    rewrite !filter_app. reflexivity.
  - split; [reflexivity|]. split; [reflexivity|].
    rewrite !filter_app. reflexivity.
Qed.

(** *** Attaching *)

Lemma storeUsage_run_console (w : World) type envId templateHandle templateType
    templateConfig sharedPartConfig templateId :
  configId type envId templateConfig = Some templateId ->
  exists events,
    filter isNetwork events = [] /\ filter isConfigWrite events = [] /\
    storeUsage type envId templateHandle templateType templateConfig sharedPartConfig w =
    (Returned (storedUsage type envId templateHandle templateType templateId templateConfig
                 (default [] (c_used_in sharedPartConfig))),
     mkWorld (files w) (templates w) (SF w) (trace w ++ events)).
Proof.
  intros Hid. unfold storeUsage, storedUsage.
  destruct (c_used_in sharedPartConfig) as [used_in|]; cbn [default from_option Datatypes.id].
  - unfold findIndex.
    destruct (list_find (sameHandle templateHandle) used_in) as [[i u]|].
    + unfold configId in Hid. unfold idOf.
      destruct type; cbn [scopeIds] in *;
        [destruct (c_id templateConfig) as [ids|]
        |destruct (c_partnerId templateConfig) as [ids|]];
        try discriminate; cbn in Hid;
        unfold bind, ret, consola, emit; cbn; rewrite Hid.
      * eexists. split; [|split; [|rewrite <- ?app_assoc; reflexivity]]; reflexivity.
      * exists []. rewrite app_nil_r. repeat split. destruct w; reflexivity.
    + exists []. rewrite app_nil_r. repeat split. destruct w; reflexivity.
  - exists []. rewrite app_nil_r. repeat split. destruct w; reflexivity.
Qed.

Lemma addSharedPart_known_ids_run
    (w : World) (type : Scope) (envId : EnvId)
    (sharedPartName templateHandle : string) (templateType : TemplateType)
    (templateId sharedPartId : RemoteId)
    (addOnPlatform : Gateway -> Scope -> EnvId -> option RemoteId -> option RemoteId ->
                     option Response) :
  let templateConfig := default emptyConfig (files w !! (templateType, templateHandle)) in
  let sharedPartConfig := default emptyConfig (files w !! (sharedPart, sharedPartName)) in
  ~ (type = partner /\ templateType = exportFile) ->
  addSharedPartOnPlatform templateType = Some addOnPlatform ->
  configId type envId templateConfig = Some templateId ->
  configId type envId sharedPartConfig = Some sharedPartId ->
  let response := addOnPlatform (SF w) type envId (Some sharedPartId) (Some templateId) in
  let stored :=
    set_c_used_in
      (storedUsage type envId templateHandle templateType templateId templateConfig
         (default [] (c_used_in sharedPartConfig)))
      sharedPartConfig in
  exists events,
    filter isNetwork events =
      [Network (Attach templateType type envId (Some sharedPartId) (Some templateId))] /\
    addSharedPart type envId sharedPartName templateHandle templateType w =
      if addRejected response
      then (Returned None, mkWorld (files w) (templates w) (SF w) (trace w ++ events))
      else (Returned (Some stored),
            mkWorld (<[(sharedPart, sharedPartName) := stored]>
                       (<[(templateType, templateHandle) := templateConfig]> (files w)))
                    (templates w) (SF w) (trace w ++ events)).
Proof.
  intros templateConfig sharedPartConfig Hguard Hplatform HtemplateId HsharedPartId
    response stored.
  unfold addSharedPart, try_catch.
  assert (Hg : bool_decide (type = partner) && bool_decide (templateType = exportFile) = false).
  { apply andb_false_iff.
    destruct (decide (type = partner)) as [Ht|Ht];
      [|left; apply bool_decide_eq_false; exact Ht].
    right. apply bool_decide_eq_false. intros He. apply Hguard. split; assumption. }
  rewrite Hg.
  unfold bind at 1. unfold readConfig at 1.
  unfold bind at 1. unfold readConfig at 1. cbn [files templates SF trace].
  fold templateConfig sharedPartConfig.
  unfold bind at 1. rewrite resolveMissing_run, HtemplateId.
  unfold bind at 1. rewrite resolveMissing_run, HsharedPartId.
  rewrite Hplatform.
  unfold bind at 1. unfold request at 1. cbn [files templates SF trace]. fold response.
  destruct (addRejected response).
  - unfold bind, consola, emit, ret. cbn [fst snd files templates SF trace].
    eexists. split; [|rewrite <- !app_assoc; reflexivity]. reflexivity.
  - unfold bind at 1.
    match goal with
    | |- context [storeUsage ?a ?b ?c ?d ?e ?f ?w0] =>
        destruct (storeUsage_run_console w0 a b c d e f templateId HtemplateId)
          as (events & Hquiet & _ & ->)
    end.
    unfold bind, writeConfig, consola, emit, ret. cbn [fst snd files templates SF trace].
    eexists. split; [|rewrite <- !app_assoc; reflexivity].
    rewrite !filter_app, Hquiet. reflexivity.
Qed.

(** X3. When both configs already hold an id for the scope and environment,
    [addSharedPart] makes no lookup: its only network call is the attach call
    with those two ids.  A response that the guard turns down leaves the
    files as they were; otherwise the template's config is written back
    unchanged and the shared part's config is written with the new
    [used_in]. *)
Theorem addSharedPart_known_ids
    (w : World) (type : Scope) (envId : EnvId)
    (sharedPartName templateHandle : string) (templateType : TemplateType)
    (templateId sharedPartId : RemoteId)
    (addOnPlatform : Gateway -> Scope -> EnvId -> option RemoteId -> option RemoteId ->
                     option Response) :
  let templateConfig := default emptyConfig (files w !! (templateType, templateHandle)) in
  let sharedPartConfig := default emptyConfig (files w !! (sharedPart, sharedPartName)) in
  ~ (type = partner /\ templateType = exportFile) ->
  addSharedPartOnPlatform templateType = Some addOnPlatform ->
  configId type envId templateConfig = Some templateId ->
  configId type envId sharedPartConfig = Some sharedPartId ->
  let run := addSharedPart type envId sharedPartName templateHandle templateType w in
  let response := addOnPlatform (SF w) type envId (Some sharedPartId) (Some templateId) in
  let stored :=
    set_c_used_in
      (storedUsage type envId templateHandle templateType templateId templateConfig
         (default [] (c_used_in sharedPartConfig)))
      sharedPartConfig in
  (exists events,
     trace run.2 = trace w ++ events /\
     filter isNetwork events =
       [Network (Attach templateType type envId (Some sharedPartId) (Some templateId))]) /\
  if addRejected response
  then run.1 = Returned None /\ files run.2 = files w
  else run.1 = Returned (Some stored) /\
       files run.2 =
         <[(sharedPart, sharedPartName) := stored]>
           (<[(templateType, templateHandle) := templateConfig]> (files w)).
Proof.
  intros templateConfig sharedPartConfig Hguard Hplatform HtemplateId HsharedPartId
    run response stored. subst run.
  destruct (addSharedPart_known_ids_run w type envId sharedPartName templateHandle
              templateType templateId sharedPartId addOnPlatform
              Hguard Hplatform HtemplateId HsharedPartId) as (events & Hnet & ->).
  fold templateConfig sharedPartConfig response stored.
  destruct (addRejected response); cbn [fst snd files trace];
    (split; [exists events; split; [reflexivity|exact Hnet]|split; reflexivity]).
Qed.

Lemma addSharedPart_known_ids_witness :
  let w := Sample.platformDown in
  let run := addSharedPart firm 111 "sp_x" "recon_y" reconciliationText w in
  (exists events,
     trace run.2 = trace w ++ events /\
     filter isNetwork events =
       [Network (Attach reconciliationText firm 111 (Some 7%positive) (Some 42%positive))]) /\
  run.1 = Returned (Some Sample.sp_x_attached) /\
  files run.2 =
    <[(sharedPart, "sp_x") := Sample.sp_x_attached]>
      (<[(reconciliationText, "recon_y") := Sample.recon_y]> (files w)).
Proof.
  intros w run.
  assert (Hguard : ~ (firm = partner /\ reconciliationText = exportFile))
    by (intros [Hscope _]; discriminate Hscope).
  pose proof (addSharedPart_known_ids w firm 111 "sp_x" "recon_y" reconciliationText
                42%positive 7%positive addSharedPartToReconciliation
                Hguard eq_refl eq_refl eq_refl) as [Hnetwork Hcase].
  split; [exact Hnetwork|].
  assert (Hrejected :
            addRejected (addSharedPartToReconciliation (SF w) firm 111
                           (Some 7%positive) (Some 42%positive)) = false)
    by reflexivity.
  rewrite Hrejected in Hcase.
  assert (Hstored :
            set_c_used_in
              (storedUsage firm 111 "recon_y" reconciliationText 42
                 (default emptyConfig (files w !! (reconciliationText, "recon_y")))
                 (default []
                    (c_used_in (default emptyConfig (files w !! (sharedPart, "sp_x"))))))
              (default emptyConfig (files w !! (sharedPart, "sp_x")))
            = Sample.sp_x_attached)
    by (vm_compute; reflexivity).
  rewrite Hstored in Hcase.
  assert (Htemplate :
            default emptyConfig (files w !! (reconciliationText, "recon_y")) = Sample.recon_y)
    by (vm_compute; reflexivity).
  rewrite Htemplate in Hcase. exact Hcase.
Defined.

Lemma resolveMissing_keeps_used_in (w : World) type envId templateType handle config :
  forall key,
    c_used_in (default emptyConfig
                 (files (resolveMissing type envId templateType handle config w).2 !! key)) =
    c_used_in (default emptyConfig (files w !! key)).
Proof.
  intros key. rewrite resolveMissing_run.
  destruct (configId type envId config); [reflexivity|].
  destruct (findByHandle templateType (SF w) type envId handle) as [t|]; [|reflexivity].
  cbn [snd files].
  destruct (decide (key = (templateType, handle))) as [->|Hne].
  - rewrite lookup_insert_eq. cbn [default from_option Datatypes.id].
    apply used_in_withDiscoveredId.
  - rewrite lookup_insert_ne by congruence. reflexivity.
Qed.

Lemma storeUsage_keeps_files (w : World) type envId templateHandle templateType
    templateConfig sharedPartConfig :
  files (storeUsage type envId templateHandle templateType templateConfig
           sharedPartConfig w).2 = files w.
Proof.
  unfold storeUsage, idOf.
  destruct (c_used_in sharedPartConfig) as [used_in|]; [|reflexivity].
  destruct (findIndex templateHandle used_in) as [[i u]|]; [|reflexivity].
  destruct type; cbn [scopeIds];
    [destruct (c_id templateConfig)|destruct (c_partnerId templateConfig)];
    reflexivity.
Qed.

(** X4. An attach that fails adds and changes no usage entry: when
    [addSharedPart] returns [false], the [used_in] list of every config on
    disk reads as before.  (Ids that were looked up on the way may have been
    written.) *)
Theorem addSharedPart_failure_keeps_used_in
    (w : World) (type : Scope) (envId : EnvId)
    (sharedPartName templateHandle : string) (templateType : TemplateType) :
  let run := addSharedPart type envId sharedPartName templateHandle templateType w in
  run.1 = Returned None ->
  forall key,
    c_used_in (default emptyConfig (files run.2 !! key)) =
    c_used_in (default emptyConfig (files w !! key)).
Proof.
  intros run Hfail key. subst run.
  destruct (addSharedPart type envId sharedPartName templateHandle templateType w)
    as [r w'] eqn:Hrun.
  cbn [fst snd] in *. subst r. revert Hrun.
  unfold addSharedPart, try_catch.
  destruct (bool_decide (type = partner) && bool_decide (templateType = exportFile));
    [unfold bind, consola, emit, ret; cbn [fst snd]; intros [= <-]; reflexivity|].
  unfold bind at 1. unfold readConfig at 1.
  unfold bind at 1. unfold readConfig at 1. cbn [files templates SF trace].
  set (w1 := mkWorld _ _ _ _).
  assert (H1 : files w1 = files w) by reflexivity.
  unfold bind at 1.
  pose proof (resolveMissing_keeps_used_in w1 type envId templateType templateHandle
                (default emptyConfig (files w !! (templateType, templateHandle))) key) as Ht.
  rewrite H1 in Ht.
  destruct (resolveMissing type envId templateType templateHandle _ w1)
    as [[[[templateConfig templateId]|]|e|n] w2];
    cbn [fst snd] in *; unfold errorHandler, emit, ret;
    try (unfold bind; cbn [fst snd files]; intros [= <-]; exact Ht);
    try (intros [=]; fail).
  unfold bind at 1.
  pose proof (resolveMissing_keeps_used_in w2 type envId sharedPart sharedPartName
                (default emptyConfig (files w !! (sharedPart, sharedPartName))) key) as Hs.
  rewrite Ht in Hs.
  destruct (resolveMissing type envId sharedPart sharedPartName _ w2)
    as [[[[sharedPartConfig sharedPartId]|]|e|n] w3];
    cbn [fst snd files] in *;
    try (unfold bind; cbn [fst snd files]; intros [= <-]; exact Hs);
    try (intros [=]; fail).
  destruct (addSharedPartOnPlatform templateType) as [addOnPlatform|];
    [|unfold throw, bind; cbn [fst snd files]; intros [= <-]; exact Hs].
  unfold bind at 1. unfold request. cbn [files templates SF trace].
  destruct (addRejected _);
    [unfold bind, consola, emit; cbn [fst snd files]; intros [= <-]; exact Hs|].
  unfold bind at 1.
  match goal with
  | |- context [storeUsage ?x1 ?x2 ?x3 ?x4 ?x5 ?x6 ?w0] =>
      pose proof (storeUsage_keeps_files w0 x1 x2 x3 x4 x5 x6) as Hk;
      destruct (storeUsage x1 x2 x3 x4 x5 x6 w0) as [[used_in|err|code] w4]
  end; cbn [fst snd files] in *.
  - unfold bind, writeConfig, consola, emit. cbn [fst snd files]. discriminate.
  - unfold bind. cbn [fst snd files]. intros [= <-]. cbn [files]. rewrite Hk. exact Hs.
  - discriminate.
Qed.

Lemma addSharedPart_failure_keeps_used_in_witness :
  let w := Sample.repository Sample.silent in
  let run := addSharedPart firm 111 "sp_x" "recon_y" reconciliationText w in
  run.1 = Returned None /\
  forall key,
    c_used_in (default emptyConfig (files run.2 !! key)) =
    c_used_in (default emptyConfig (files w !! key)).
Proof.
  intros w run.
  assert (Hfail : run.1 = Returned None) by (vm_compute; reflexivity).
  split; [exact Hfail|].
  exact (addSharedPart_failure_keeps_used_in w firm 111 "sp_x" "recon_y"
           reconciliationText Hfail).
Defined.

Lemma otherHandles_insert templateHandle used_in i u u' :
  used_in !! i = Some u ->
  sameHandle templateHandle u -> sameHandle templateHandle u' ->
  otherHandles templateHandle (<[i := u']> used_in) = otherHandles templateHandle used_in.
Proof.
  intros Hi Hu Hu'. unfold otherHandles.
  rewrite insert_take_drop by (eapply lookup_lt_Some, Hi).
  rewrite <- (take_drop_middle used_in i u Hi) at 3.
  rewrite !filter_app, !filter_cons.
  rewrite !decide_False by (intros Hn; contradiction).
  reflexivity.
Qed.

Lemma otherHandles_delete templateHandle used_in i u :
  used_in !! i = Some u ->
  sameHandle templateHandle u ->
  otherHandles templateHandle (delete i used_in) = otherHandles templateHandle used_in.
Proof.
  intros Hi Hu. unfold otherHandles.
  rewrite delete_take_drop.
  rewrite <- (take_drop_middle used_in i u Hi) at 3.
  rewrite !filter_app, !filter_cons.
  rewrite decide_False by (intros Hn; contradiction).
  reflexivity.
Qed.

Lemma otherHandles_storedUsage type envId templateHandle templateType id templateConfig used_in :
  otherHandles templateHandle
    (storedUsage type envId templateHandle templateType id templateConfig used_in) =
  otherHandles templateHandle used_in.
Proof.
  unfold storedUsage, findIndex.
  destruct (list_find (sameHandle templateHandle) used_in) as [[i u]|] eqn:Hfind.
  - apply list_find_Some in Hfind as (Hi & Hu & _).
    eapply otherHandles_insert; [exact Hi|exact Hu|].
    apply sameHandle_withUsageId, Hu.
  - unfold otherHandles. rewrite filter_app, filter_cons.
    rewrite decide_False by (intros Hn; apply Hn; left; reflexivity).
    rewrite filter_nil, app_nil_r. reflexivity.
Qed.

(** X5. A successful attach leaves every usage entry of another template as it
    is, in the same order: the entries whose handle and name differ from the
    template's are the same list before and after, and the list grows by at
    most one entry. *)
Theorem addSharedPart_keeps_other_entries
    (w w' : World) (type : Scope) (envId : EnvId)
    (sharedPartName templateHandle : string) (templateType : TemplateType)
    (config : Config) :
  addSharedPart type envId sharedPartName templateHandle templateType w =
    (Returned (Some config), w') ->
  otherHandles templateHandle (usedInOnDisk w' sharedPartName) =
    otherHandles templateHandle (usedInOnDisk w sharedPartName) /\
  (length (usedInOnDisk w sharedPartName) <= length (usedInOnDisk w' sharedPartName)
     <= S (length (usedInOnDisk w sharedPartName)))%nat.
Proof.
  intros Hrun.
  apply addSharedPart_Some in Hrun
    as (templateId & templateConfig & sharedPartConfig & _ & _ & _ & _ & HsharedPart &
        -> & Hfile & _).
  apply used_in_resolved in HsharedPart as Hused.
  unfold usedInOnDisk. rewrite Hfile. cbn [default from_option Datatypes.id c_used_in set_c_used_in].
  rewrite Hused.
  split; [apply otherHandles_storedUsage|].
  unfold storedUsage.
  destruct (findIndex templateHandle _) as [[i u]|].
  - rewrite length_insert. lia.
  - rewrite length_app. simpl. lia.
Qed.

(** The run of the scenario of an attach, for the witnesses below. *)
Lemma sample_attach_run :
  let run := addSharedPart firm 111 "sp_x" "recon_y" reconciliationText
               Sample.beforeAttach in
  run = (Returned (Some Sample.sp_x_attached), run.2).
Proof.
  intros run.
  assert (Hresult : run.1 = Returned (Some Sample.sp_x_attached))
    by (vm_compute; reflexivity).
  rewrite <- Hresult. apply surjective_pairing.
Qed.

Lemma addSharedPart_keeps_other_entries_witness :
  let w := Sample.beforeAttach in
  let run := addSharedPart firm 111 "sp_x" "recon_y" reconciliationText w in
  run = (Returned (Some Sample.sp_x_attached), run.2) /\
  otherHandles "recon_y" (usedInOnDisk run.2 "sp_x") =
    otherHandles "recon_y" (usedInOnDisk w "sp_x") /\
  (length (usedInOnDisk w "sp_x") <= length (usedInOnDisk run.2 "sp_x")
     <= S (length (usedInOnDisk w "sp_x")))%nat.
Proof.
  intros w run. split; [exact sample_attach_run|].
  exact (addSharedPart_keeps_other_entries w run.2 firm 111 "sp_x" "recon_y"
           reconciliationText Sample.sp_x_attached sample_attach_run).
Defined.

(** X6. When the template was not listed in [used_in] yet, the entry that a
    successful attach appends takes over the whole id object of the
    template's config for the scope: it holds every environment id that
    config has, also those of environments the attach call was not made
    for; its id object of the other scope is empty. *)
Theorem addSharedPart_new_entry_holds_all_ids
    (w w' : World) (type : Scope) (envId : EnvId)
    (sharedPartName templateHandle : string) (templateType : TemplateType)
    (config : Config) :
  addSharedPart type envId sharedPartName templateHandle templateType w =
    (Returned (Some config), w') ->
  findIndex templateHandle (usedInOnDisk w sharedPartName) = None ->
  exists new templateConfig,
    usedInOnDisk w' sharedPartName = usedInOnDisk w sharedPartName ++ [new] /\
    files w' !! (templateType, templateHandle) = Some templateConfig /\
    (forall environment,
       usageIds type new !! environment = configId type environment templateConfig) /\
    usageIds (otherScope type) new = ∅.
Proof.
  intros Hrun Hnew.
  apply addSharedPart_Some in Hrun
    as (templateId & templateConfig & sharedPartConfig & _ & HtemplateId & _ & _ &
        HsharedPart & -> & Hfile & Htfile).
  apply used_in_resolved in HsharedPart as Hused.
  unfold usedInOnDisk in *. rewrite Hfile.
  cbn [default from_option Datatypes.id c_used_in set_c_used_in].
  rewrite Hused. unfold storedUsage. rewrite Hnew.
  exists (newUsage type templateHandle templateType templateConfig), templateConfig.
  split; [reflexivity|]. split; [exact Htfile|].
  unfold configId in *. unfold newUsage.
  destruct type; cbn [usageIds otherScope scopeIds u_id u_partnerId] in *;
    [destruct (c_id templateConfig)|destruct (c_partnerId templateConfig)];
    try discriminate; split; reflexivity.
Qed.

Lemma addSharedPart_new_entry_holds_all_ids_witness :
  let w := Sample.beforeAttach in
  let run := addSharedPart firm 111 "sp_x" "recon_y" reconciliationText w in
  run = (Returned (Some Sample.sp_x_attached), run.2) /\
  findIndex "recon_y" (usedInOnDisk w "sp_x") = None /\
  exists new templateConfig,
    usedInOnDisk run.2 "sp_x" = usedInOnDisk w "sp_x" ++ [new] /\
    files run.2 !! (reconciliationText, "recon_y") = Some templateConfig /\
    (forall environment,
       usageIds firm new !! environment = configId firm environment templateConfig) /\
    usageIds (otherScope firm) new = ∅.
Proof.
  intros w run. split; [exact sample_attach_run|].
  assert (Hnew : findIndex "recon_y" (usedInOnDisk w "sp_x") = None) by reflexivity.
  split; [exact Hnew|].
  exact (addSharedPart_new_entry_holds_all_ids w run.2 firm 111 "sp_x" "recon_y"
           reconciliationText Sample.sp_x_attached sample_attach_run Hnew).
Defined.

(** *** Attach and detach together *)

Lemma delete_last {A} (l : list A) (x : A) : delete (length l) (l ++ [x]) = l.
Proof. induction l as [|y l IH]; simpl; [reflexivity|]. f_equal. exact IH. Qed.

Lemma totalIds_newUsage type templateHandle templateType templateConfig :
  totalIds (newUsage type templateHandle templateType templateConfig) =
  size (default ∅ (scopeIds type templateConfig)).
Proof.
  unfold totalIds, newUsage. destruct type; cbn [u_id u_partnerId scopeIds];
    rewrite map_size_empty; lia.
Qed.

Lemma only_id_size (ids : IdMap) (envId : EnvId) (id : RemoteId) :
  ids !! envId = Some id ->
  (forall environment, is_Some (ids !! environment) -> environment = envId) ->
  size ids = 1%nat.
Proof.
  intros Hid Honly.
  assert (ids = {[envId := id]}) as ->.
  { apply map_eq. intros k. destruct (decide (k = envId)) as [->|Hne].
    - rewrite lookup_singleton_eq. exact Hid.
    - rewrite lookup_singleton_ne by congruence.
      destruct (ids !! k) eqn:Hk; [|reflexivity].
      exfalso. apply Hne, Honly. rewrite Hk. eauto. }
  apply map_size_singleton.
Qed.

(** X7. Attach and detach undo each other when the template is new to the
    shared part and has an id in no other environment of the scope: after a
    successful [addSharedPart] that appended an entry, a [removeSharedPart]
    for the same scope, environment and template whose call to the platform
    returns leaves the shared part's config with a [used_in] list of exactly
    the entries it had before the attach.  (A config that had no [used_in]
    list before the attach has the empty list afterwards.) *)
Theorem attach_then_detach_restores_used_in
    (w w1 w2 : World) (type : Scope) (envId : EnvId)
    (sharedPartName templateHandle : string) (templateType : TemplateType)
    (config : Config) :
  addSharedPart type envId sharedPartName templateHandle templateType w =
    (Returned (Some config), w1) ->
  findIndex templateHandle (usedInOnDisk w sharedPartName) = None ->
  (forall environment,
     is_Some ((files w1 !! (templateType, templateHandle)) ≫= configId type environment) ->
     environment = envId) ->
  files w2 = files w1 ->
  (files (removeSharedPart type envId sharedPartName templateHandle templateType w2).2
     !! (sharedPart, sharedPartName)) ≫= c_used_in =
  Some (usedInOnDisk w sharedPartName).
Proof.
  intros Hrun Hnew Honly Hfiles.
  apply addSharedPart_Some in Hrun
    as (templateId & templateConfig & sharedPartConfig & HtemplateType & HtemplateId &
        [sharedPartId HsharedPartId] & _ & HsharedPart & -> & Hfile & Htfile).
  apply used_in_resolved in HsharedPart as Hused.
  assert (Hbefore : default [] (c_used_in sharedPartConfig) = usedInOnDisk w sharedPartName)
    by (unfold usedInOnDisk; rewrite Hused; reflexivity).
  rewrite Hbefore in Hfile.
  set (before := usedInOnDisk w sharedPartName) in *.
  set (new := newUsage type templateHandle templateType templateConfig).
  assert (Hstored : storedUsage type envId templateHandle templateType templateId
                      templateConfig before = before ++ [new])
    by (unfold storedUsage; rewrite Hnew; reflexivity).
  rewrite Hstored in Hfile.
  assert (Hfind : findIndex templateHandle (before ++ [new]) = Some (length before, new)).
  { destruct (findIndex_storedUsage type envId templateHandle templateType templateId
                templateConfig before) as (k & Hk & Hlen).
    rewrite Hnew in Hk, Hlen. subst k. rewrite Hstored in Hk. exact Hk. }
  assert (Htotal : totalIds new = 1%nat).
  { subst new. rewrite totalIds_newUsage.
    rewrite Htfile in Honly. cbn in Honly. unfold configId in *.
    destruct (scopeIds type templateConfig) as [ids|]; [|discriminate].
    cbn in *. eapply only_id_size; [exact HtemplateId|exact Honly]. }
  assert (Htarget : usageIds type new !! envId = Some templateId)
    by (apply usageIds_newUsage, HtemplateId).
  rewrite removeSharedPart_run. cbv zeta. rewrite Hfiles, Hfile, Htfile.
  cbn [default from_option Datatypes.id].
  rewrite HtemplateId.
  replace (configId type envId (set_c_used_in (before ++ [new]) sharedPartConfig))
    with (Some sharedPartId)
    by (rewrite <- HsharedPartId; destruct type; reflexivity).
  destruct templateType; try congruence; cbn [removeOnPlatform c_used_in set_c_used_in];
    rewrite Hfind; cbn [snd files];
    rewrite lookup_insert_eq; cbn [mbind option_bind c_used_in set_c_used_in];
    unfold pruneUsage; rewrite Htarget, Htotal; cbn [Nat.leb andb];
    rewrite bool_decide_eq_true_2 by reflexivity; f_equal; apply delete_last.
Qed.

Lemma attach_then_detach_restores_used_in_witness :
  let w := Sample.beforeAttach in
  let run := addSharedPart firm 111 "sp_x" "recon_y" reconciliationText w in
  let w2 := mkWorld (files run.2) ∅ (Sample.detaches 200) [] in
  run = (Returned (Some Sample.sp_x_attached), run.2) /\
  (files (removeSharedPart firm 111 "sp_x" "recon_y" reconciliationText w2).2
     !! (sharedPart, "sp_x")) ≫= c_used_in =
  Some (usedInOnDisk w "sp_x").
Proof.
  intros w run w2. split; [exact sample_attach_run|].
  assert (Hnew : findIndex "recon_y" (usedInOnDisk w "sp_x") = None) by reflexivity.
  assert (Htemplate : files run.2 !! (reconciliationText, "recon_y") = Some Sample.recon_y)
    by (vm_compute; reflexivity).
  assert (Honly : forall environment,
            is_Some ((files run.2 !! (reconciliationText, "recon_y"))
                       ≫= configId firm environment) ->
            environment = 111%Z).
  { intros environment. rewrite Htemplate. cbn.
    destruct (decide (environment = 111%Z)) as [->|Hne]; [reflexivity|].
    unfold configId, Sample.recon_y. cbn.
    rewrite lookup_singleton_ne by congruence. intros [x Hx]. discriminate Hx. }
  exact (attach_then_detach_restores_used_in w run.2 w2 firm 111 "sp_x" "recon_y"
           reconciliationText Sample.sp_x_attached sample_attach_run Hnew Honly eq_refl).
Defined.

(** *** Detaching *)

(** X8. [removeSharedPart] works from the local ids only: when the template's
    config or the shared part's config has no id for the scope and
    environment, it warns and returns [false]; it makes no network call (no
    lookup either) and leaves the files as they were. *)
Theorem removeSharedPart_needs_local_ids
    (w : World) (type : Scope) (envId : EnvId)
    (sharedPartHandle templateHandle : string) (templateType : TemplateType) :
  configId type envId (default emptyConfig (files w !! (templateType, templateHandle))) = None
  \/ configId type envId (default emptyConfig (files w !! (sharedPart, sharedPartHandle))) = None ->
  exists events,
    removeSharedPart type envId sharedPartHandle templateHandle templateType w =
      (Returned (Some false), mkWorld (files w) (templates w) (SF w) (trace w ++ events)) /\
    filter isNetwork events = [] /\
    filter isConfigWrite events = [].
Proof.
  intros Hmissing. rewrite removeSharedPart_run. cbv zeta.
  destruct (configId type envId
              (default emptyConfig (files w !! (templateType, templateHandle))));
    [|eexists; repeat split].
  destruct (configId type envId
              (default emptyConfig (files w !! (sharedPart, sharedPartHandle))));
    [|eexists; repeat split].
  destruct Hmissing; discriminate.
Qed.

Lemma removeSharedPart_needs_local_ids_witness :
  let w := Sample.repository (Sample.detaches 200) in
  (configId firm 111 (default emptyConfig (files w !! (reconciliationText, "recon_y"))) = None
   \/ configId firm 111 (default emptyConfig (files w !! (sharedPart, "sp_x"))) = None) /\
  exists events,
    removeSharedPart firm 111 "sp_x" "recon_y" reconciliationText w =
      (Returned (Some false), mkWorld (files w) (templates w) (SF w) (trace w ++ events)) /\
    filter isNetwork events = [] /\
    filter isConfigWrite events = [].
Proof.
  intros w.
  assert (Hmissing :
    configId firm 111 (default emptyConfig (files w !! (reconciliationText, "recon_y"))) = None
    \/ configId firm 111 (default emptyConfig (files w !! (sharedPart, "sp_x"))) = None)
    by (right; reflexivity).
  split; [exact Hmissing|].
  exact (removeSharedPart_needs_local_ids w firm 111 "sp_x" "recon_y" reconciliationText
           Hmissing).
Defined.

Lemma pruneUsage_cases type envId templateId i u used_in :
  pruneUsage type envId templateId i u used_in = used_in \/
  pruneUsage type envId templateId i u used_in = delete i used_in \/
  pruneUsage type envId templateId i u used_in = <[i := deleteId type envId u]> used_in.
Proof.
  unfold pruneUsage.
  destruct (usageIds type u !! envId); [|left; reflexivity].
  destruct (_ && _); [right; left|right; right]; reflexivity.
Qed.

Lemma sameHandle_deleteId templateHandle type envId u :
  sameHandle templateHandle (deleteId type envId u) <-> sameHandle templateHandle u.
Proof. destruct type; reflexivity. Qed.

Lemma NoDup_delete_index {A} (l : list A) (i : nat) : NoDup l -> NoDup (delete i l).
Proof.
  intros Hl. rewrite delete_take_drop.
  rewrite <- (take_drop i l) in Hl.
  apply NoDup_app in Hl as (Ht & Hdisj & Hd).
  apply NoDup_app. split; [exact Ht|]. split.
  - intros x Hx Hx'. apply (Hdisj x Hx).
    rewrite <- (take_drop 1 (drop i l)). rewrite drop_drop.
    apply elem_of_app. right. replace (i + 1)%nat with (S i) by lia. exact Hx'.
  - rewrite <- (take_drop 1 (drop i l)) in Hd. rewrite drop_drop in Hd.
    apply NoDup_app in Hd as (_ & _ & Hd).
    replace (i + 1)%nat with (S i) in Hd by lia. exact Hd.
Qed.

Lemma pruneUsage_frame templateHandle type envId templateId i u used_in :
  used_in !! i = Some u ->
  sameHandle templateHandle u ->
  otherHandles templateHandle (pruneUsage type envId templateId i u used_in) =
    otherHandles templateHandle used_in /\
  (NoDup (usageKey <$> used_in) ->
   NoDup (usageKey <$> pruneUsage type envId templateId i u used_in)) /\
  (length (pruneUsage type envId templateId i u used_in) <= length used_in)%nat.
Proof.
  intros Hi Hu.
  destruct (pruneUsage_cases type envId templateId i u used_in) as [->|[->| ->]].
  - auto.
  - split; [eapply otherHandles_delete; eassumption|]. split.
    + intros Hnodup. rewrite list_fmap_delete. apply NoDup_delete_index, Hnodup.
    + rewrite length_delete by (rewrite Hi; eauto). lia.
  - split; [eapply otherHandles_insert;
            [exact Hi|exact Hu|apply sameHandle_deleteId, Hu]|]. split.
    + intros Hnodup. rewrite list_fmap_insert.
      destruct (deleteId_keeps type envId u) as (_ & _ & -> & _).
      rewrite list_insert_id; [exact Hnodup|].
      rewrite list_lookup_fmap, Hi. reflexivity.
    + rewrite length_insert. lia.
Qed.

(** X9. A detach, however it ends (also when the call to the platform is
    rejected), stays within the entries that have the template's handle or
    name: the usage entries whose handle and name both differ from the
    template's are the same list before and after, no entry is added, a
    [used_in] with at most one entry per (type, handle) pair keeps that
    property, the ids of the shared part's own config stay, and no other
    config file changes. *)
Theorem removeSharedPart_frame
    (transport : Transport) (w : World) (type : Scope) (envId : EnvId)
    (sharedPartHandle templateHandle : string) (templateType : TemplateType) :
  let w' :=
    (OverTransport.removeSharedPart transport type envId sharedPartHandle templateHandle
       templateType w).2 in
  let before := default emptyConfig (files w !! (sharedPart, sharedPartHandle)) in
  let after := default emptyConfig (files w' !! (sharedPart, sharedPartHandle)) in
  otherHandles templateHandle (usedInOnDisk w' sharedPartHandle) =
    otherHandles templateHandle (usedInOnDisk w sharedPartHandle) /\
  (length (usedInOnDisk w' sharedPartHandle) <= length (usedInOnDisk w sharedPartHandle))%nat /\
  (NoDup (usageKey <$> usedInOnDisk w sharedPartHandle) ->
   NoDup (usageKey <$> usedInOnDisk w' sharedPartHandle)) /\
  (c_id after, c_partnerId after) = (c_id before, c_partnerId before) /\
  (forall key, key <> (sharedPart, sharedPartHandle) -> files w' !! key = files w !! key).
Proof.
  intros w' before after. subst w' after. unfold usedInOnDisk.
  rewrite removeSharedPart_over_run. cbv zeta. fold before.
  destruct (configId type envId _) as [templateId|];
    [|cbn [snd files]; fold before; repeat split; auto].
  destruct (configId type envId before) as [sharedPartId|];
    [|cbn [snd files]; fold before; repeat split; auto].
  destruct (removeOnPlatform templateType);
    [|cbn [snd files]; fold before; repeat split; auto].
  destruct (transport (Detach templateType type envId sharedPartId templateId));
    [cbn [snd files]; fold before; repeat split; auto|].
  destruct (c_used_in before) as [used_in|] eqn:Hused;
    [|cbn [snd files]; fold before; rewrite Hused; repeat split; auto].
  destruct (findIndex templateHandle used_in) as [[i u]|] eqn:Hfind;
    [|cbn [snd files]; fold before; rewrite Hused; repeat split; auto].
  cbn [snd files]. rewrite lookup_insert_eq.
  cbn [default from_option Datatypes.id c_used_in set_c_used_in c_id c_partnerId].
  apply list_find_Some in Hfind as (Hi & Hu & _).
  destruct (pruneUsage_frame templateHandle type envId templateId i u used_in Hi Hu)
    as (Hother & Hnodup & Hlen).
  split; [exact Hother|]. split; [exact Hlen|]. split; [exact Hnodup|].
  split; [reflexivity|].
  intros key Hkey. apply lookup_insert_ne. congruence.
Qed.



(** The entries of [used_in] with the template's handle or name are at most
    one. *)
Lemma findIndex_unique_delete templateHandle used_in i u :
  (forall j k x y, used_in !! j = Some x -> used_in !! k = Some y ->
                   sameHandle templateHandle x -> sameHandle templateHandle y -> j = k) ->
  used_in !! i = Some u ->
  sameHandle templateHandle u ->
  findIndex templateHandle (delete i used_in) = None.
Proof.
  intros Hunique Hi Hu. apply list_find_None, Forall_forall.
  intros x Hx Hsame. apply list_elem_of_lookup in Hx as [j Hj].
  destruct (decide (j < i)%nat) as [Hlt|Hge].
  - rewrite list_lookup_delete_lt in Hj by exact Hlt.
    pose proof (Hunique j i x u Hj Hi Hsame Hu). lia.
  - rewrite list_lookup_delete_ge in Hj by lia.
    pose proof (Hunique (S j) i x u Hj Hi Hsame Hu). lia.
Qed.

Lemma usageIds_deleteId type envId u :
  usageIds type (deleteId type envId u) !! envId = None.
Proof. destruct type; simpl; apply lookup_delete_eq. Qed.

Lemma pruneUsage_again templateHandle type envId templateId i u used_in :
  oneEntryFor templateHandle used_in ->
  findIndex templateHandle used_in = Some (i, u) ->
  match findIndex templateHandle (pruneUsage type envId templateId i u used_in) with
  | None => True
  | Some (j, v) =>
      pruneUsage type envId templateId j v (pruneUsage type envId templateId i u used_in) =
      pruneUsage type envId templateId i u used_in
  end.
Proof.
  intros Hunique Hfind.
  pose proof Hfind as Hfound. apply list_find_Some in Hfound as (Hi & Hu & Hfirst).
  unfold pruneUsage at 1 3 4.
  destruct (usageIds type u !! envId) as [targetId|] eqn:Htarget.
  - destruct (_ && _).
    + rewrite (findIndex_unique_delete templateHandle used_in i u Hunique Hi Hu). exact I.
    + assert (Hfind' : findIndex templateHandle (<[i := deleteId type envId u]> used_in) =
                       Some (i, deleteId type envId u)).
      { apply list_find_Some. split; [|split].
        - apply list_lookup_insert_eq. eapply lookup_lt_Some, Hi.
        - apply sameHandle_deleteId, Hu.
        - intros j y Hj Hlt. rewrite list_lookup_insert_ne in Hj by lia.
          eapply Hfirst; eassumption. }
      rewrite Hfind'. unfold pruneUsage. rewrite usageIds_deleteId. reflexivity.
  - rewrite Hfind. unfold pruneUsage. rewrite Htarget. reflexivity.
Qed.



(** ** Publishing every template of a kind *)

Lemma forOf_cons {A} (x : A) (l : list A) (body : A -> Async unit) :
  forOf (x :: l) body = bind (body x) (fun _ => forOf l body).
Proof. reflexivity. Qed.

Lemma publishTemplate_step (w : World) templateType type envId handle message :
  truthy_string (Some handle) = true ->
  exists result events,
    publishTemplate templateType type envId handle message w =
      (Returned result, mkWorld (files w) (templates w) (SF w) (trace w ++ events)) /\
    filter isNetwork events =
      match publishable w templateType type envId handle with
      | Some templateId => [Network (Update templateType type envId templateId)]
      | None => []
      end.
Proof.
  intros Hhandle. rewrite publishTemplate_run. unfold publishable. rewrite Hhandle.
  cbn [negb].
  destruct (files w !! (templateType, handle)) as [templateConfig|];
    [|eexists _, _; split; reflexivity].
  destruct (configId type envId templateConfig) as [templateId|];
    [|destruct (templates w !! (templateType, handle));
      eexists _, _; split; reflexivity].
  destruct (templates w !! (templateType, handle)) as [template|];
    [|eexists _, _; split; reflexivity].
  cbv zeta.
  destruct (echoed templateType _); eexists _, _; split; reflexivity.
Qed.

(** X12. Publishing all templates of a kind goes through the whole listing
    whatever happens to single templates: the call returns, changes no config
    file and no template, and its network calls are the update calls of the
    publishable handles of the listing, one each, in the order of the
    listing. *)
Theorem publishAllTemplates_updates_publishable
    (getAllTemplatesOfAType : TemplateType -> list string)
    (w : World) (templateType : TemplateType) (type : Scope) (envId : EnvId)
    (message : string) :
  let run := publishAllTemplates getAllTemplatesOfAType templateType type envId message w in
  run.1 = Returned tt /\
  files run.2 = files w /\
  templates run.2 = templates w /\
  exists events,
    trace run.2 = trace w ++ events /\
    filter isNetwork events =
      map (fun templateId => Network (Update templateType type envId templateId))
          (omap (publishable w templateType type envId)
                (getAllTemplatesOfAType templateType)).
Proof.
  unfold publishAllTemplates. cbv zeta.
  generalize (getAllTemplatesOfAType templateType) as listing.
  intros listing. revert w.
  induction listing as [|handle listing IH]; intros w.
  - simpl. repeat split. exists []. rewrite app_nil_r. split; reflexivity.
  - rewrite forOf_cons. cbn beta. cbn [omap list_omap].
    destruct (truthy_string (Some handle)) eqn:Hhandle; cbn [negb].
    + destruct (publishTemplate_step w templateType type envId handle message Hhandle)
        as (result & events & Hrun & Hnetwork).
      set (w1 := mkWorld (files w) (templates w) (SF w) (trace w ++ events)) in *.
      rewrite (bind_Returned _ _ w w1 tt)
        by (rewrite (bind_Returned _ _ w w1 result Hrun); reflexivity).
      destruct (IH w1) as (Hresult & Hfiles & Htemplates & later & Htrace & Hlater).
      split; [exact Hresult|]. split; [exact Hfiles|]. split; [exact Htemplates|].
      exists (events ++ later). split.
      * rewrite Htrace. subst w1. simpl. rewrite app_assoc. reflexivity.
      * rewrite filter_app, Hnetwork, Hlater.
        change (omap (publishable w1 templateType type envId) listing)
          with (omap (publishable w templateType type envId) listing).
        destruct (publishable w templateType type envId handle); reflexivity.
    + rewrite (bind_Returned _ _ w w tt) by reflexivity.
      destruct (IH w) as (Hresult & Hfiles & Htemplates & later & Htrace & Hlater).
      split; [exact Hresult|]. split; [exact Hfiles|]. split; [exact Htemplates|].
      exists later. split; [exact Htrace|].
      rewrite Hlater. unfold publishable at 2. rewrite Hhandle. reflexivity.
Qed.

(** ** Looking up the ids of every template of a kind *)

Section Sweep.
Context (type : Scope) (envId : EnvId) (templateType : TemplateType).

(** The files after the loop body has run for [templateName]. *)
Lemma getAllTemplatesId_each_run (w : World) (templateName : string) :
  exists w1,
    getAllTemplatesId_each type envId templateType templateName w = (Returned tt, w1) /\
    SF w1 = SF w /\
    templates w1 = templates w /\
    files w1 =
      match handleOnDisk w templateType templateName with
      | Some handle =>
          if truthy_string (Some handle) then
            match findByHandle templateType (SF w) type envId handle with
            | Some found =>
                <[(templateType, handle) :=
                    withDiscoveredId type envId (r_id found)
                      (configOnDisk w templateType handle)]> (files w)
            | None => files w
            end
          else files w
      | None => files w
      end.
Proof.
  unfold getAllTemplatesId_each, handleOnDisk, configOnDisk.
  unfold bind at 1. unfold readConfig at 1. cbv zeta.
  set (handle := firstTruthy _ _ _).
  destruct handle as [handle|]; [|eexists; repeat split; reflexivity].
  destruct (truthy_string (Some handle)); cbn [negb];
    [|eexists; repeat split; reflexivity].
  unfold bind at 1. rewrite getTemplateId_run. cbn [SF files templates trace].
  destruct (findByHandle templateType (SF w) type envId handle) as [found|];
    eexists; repeat split; reflexivity.
Qed.

Lemma handleOnDisk_withDiscoveredId (w w1 : World) (handle : string) (id : RemoteId) :
  files w1 =
    <[(templateType, handle) :=
        withDiscoveredId type envId id (configOnDisk w templateType handle)]> (files w) ->
  forall name, handleOnDisk w1 templateType name = handleOnDisk w templateType name.
Proof.
  intros Hfiles name. unfold handleOnDisk, configOnDisk. rewrite Hfiles.
  destruct (decide (name = handle)) as [->|Hne].
  - rewrite lookup_insert_eq. cbn [default from_option Datatypes.id].
    destruct type; reflexivity.
  - rewrite lookup_insert_ne by congruence. reflexivity.
Qed.

Lemma getAllTemplatesId_loop (l : list string) (w : World) :
  exists w',
    forOf l (getAllTemplatesId_each type envId templateType) w = (Returned tt, w') /\
    SF w' = SF w /\
    templates w' = templates w /\
    (forall name, handleOnDisk w' templateType name = handleOnDisk w templateType name) /\
    (forall handle found,
       findByHandle templateType (SF w) type envId handle = Some found ->
       configId type envId (configOnDisk w templateType handle) = Some (r_id found) ->
       configId type envId (configOnDisk w' templateType handle) = Some (r_id found)) /\
    (forall templateName handle found,
       templateName ∈ l ->
       handleOnDisk w templateType templateName = Some handle ->
       handle <> "" ->
       findByHandle templateType (SF w) type envId handle = Some found ->
       configId type envId (configOnDisk w' templateType handle) = Some (r_id found)).
Proof.
  revert w. induction l as [|templateName l IH]; intros w.
  - exists w. repeat split; try reflexivity; try (intros; assumption).
    intros ? ? ? Hin. inversion Hin.
  - destruct (getAllTemplatesId_each_run w templateName)
      as (w1 & Hrun & HSF1 & Htemplates1 & Hfiles1).
    destruct (IH w1) as (w' & Hloop & HSF & Htemplates & Hhandles & Hstable & Hfound).
    exists w'. rewrite forOf_cons, (bind_Returned _ _ w w1 tt Hrun).
    split; [exact Hloop|]. split; [congruence|]. split; [congruence|].
    assert (Hhandles1 :
              forall name, handleOnDisk w1 templateType name =
                           handleOnDisk w templateType name).
    { destruct (handleOnDisk w templateType templateName) as [handle|];
        [|intros name; unfold handleOnDisk, configOnDisk; rewrite Hfiles1; reflexivity].
      destruct (truthy_string (Some handle));
        [|intros name; unfold handleOnDisk, configOnDisk; rewrite Hfiles1; reflexivity].
      destruct (findByHandle templateType (SF w) type envId handle) as [found|];
        [|intros name; unfold handleOnDisk, configOnDisk; rewrite Hfiles1; reflexivity].
      exact (handleOnDisk_withDiscoveredId w w1 handle (r_id found) Hfiles1). }
    assert (Hstable1 :
              forall handle found,
                findByHandle templateType (SF w) type envId handle = Some found ->
                configId type envId (configOnDisk w templateType handle) =
                  Some (r_id found) ->
                configId type envId (configOnDisk w1 templateType handle) =
                  Some (r_id found)).
    { intros handle found Hfind Hid. unfold configOnDisk in *. rewrite Hfiles1.
      destruct (handleOnDisk w templateType templateName) as [written|]; [|exact Hid].
      destruct (truthy_string (Some written)); [|exact Hid].
      destruct (findByHandle templateType (SF w) type envId written) as [found'|] eqn:Hfind';
        [|exact Hid].
      destruct (decide (handle = written)) as [->|Hne].
      - rewrite lookup_insert_eq. cbn [default from_option Datatypes.id].
        rewrite configId_withDiscoveredId. congruence.
      - rewrite lookup_insert_ne by congruence. exact Hid. }
    split; [intros name; rewrite Hhandles; apply Hhandles1|].
    split.
    + intros handle found Hfind Hid. apply Hstable; [rewrite HSF1; exact Hfind|].
      apply Hstable1; assumption.
    + intros name handle found Hin Hhandle Hnonempty Hfind.
      apply elem_of_cons in Hin as [->|Hin].
      * apply Hstable; [rewrite HSF1; exact Hfind|].
        unfold configOnDisk. rewrite Hfiles1, Hhandle.
        assert (Htruthy : truthy_string (Some handle) = true).
        { simpl. destruct (String.eqb_spec handle ""); [contradiction|reflexivity]. }
        rewrite Htruthy, Hfind, lookup_insert_eq. cbn [default from_option Datatypes.id].
        apply configId_withDiscoveredId.
      * apply (Hfound name handle found Hin);
          [rewrite Hhandles1; exact Hhandle|exact Hnonempty|rewrite HSF1; exact Hfind].
Qed.

End Sweep.



(** ** Creating a template *)

Lemma newTemplate_run (w : World) templateType existsLevel comment create firmId handle :
  newTemplate templateType existsLevel comment create firmId handle w =
  let ev := fun l => mkWorld (files w) (templates w) (SF w) (trace w ++ l) in
  match findByHandle templateType (SF w) firm firmId handle with
  | Some _ =>
      (Returned tt,
       ev [Network (Find templateType firm firmId handle);
           Console existsLevel (AlreadyExists templateType handle)])
  | None =>
      match templates w !! (templateType, handle) with
      | None =>
          (Returned tt,
           ev [Network (Find templateType firm firmId handle);
               TemplateRead templateType handle])
      | Some template =>
          match create firmId (commented comment template) with
          | None =>
              (Returned tt,
               ev [Network (Find templateType firm firmId handle);
                   TemplateRead templateType handle;
                   Network (Create templateType firmId)])
          | Some response =>
              if bool_decide (status response = Some 201%Z) then
                match data response with
                | None =>
                    (Returned tt,
                     ev [Network (Find templateType firm firmId handle);
                         TemplateRead templateType handle;
                         Network (Create templateType firmId);
                         ErrorHandler TypeError])
                | Some d =>
                    (Returned tt,
                     ev [Network (Find templateType firm firmId handle);
                         TemplateRead templateType handle;
                         Network (Create templateType firmId);
                         TemplateIdUpdated templateType firmId (Some handle) (d_id d);
                         Console success (Created templateType handle)])
                end
              else
                (Returned tt,
                 ev [Network (Find templateType firm firmId handle);
                     TemplateRead templateType handle;
                     Network (Create templateType firmId)])
          end
      end
  end.
Proof.
  unfold newTemplate, try_catch, bind, request, readTemplate, consola, updateTemplateId,
    errorHandler, emit, data_id, ret, throw.
  simpl.
  destruct (findByHandle templateType (SF w) firm firmId handle); simpl;
    [rewrite <- !app_assoc; reflexivity|].
  destruct (templates w !! (templateType, handle)) as [template|]; simpl;
    [|rewrite <- !app_assoc; reflexivity].
  destruct (create firmId (commented comment template)) as [response|]; simpl;
    [|rewrite <- !app_assoc; reflexivity].
  destruct (bool_decide (status response = Some 201%Z)); simpl;
    [|rewrite <- !app_assoc; reflexivity].
  destruct (data response); simpl; rewrite <- !app_assoc; reflexivity.
Qed.

(** X14. Creating a reconciliation, an export file or a shared part records
    an id exactly when the template was created: the id is handed to the
    template class, under the handle of the call, if and only if the platform
    did not know the handle, the template could be read, and the create call
    was answered with status 201 and a [data] object; the id recorded is the
    one of that object.  The call returns in every case and leaves the config
    files as they are. *)
Theorem newTemplate_records_id_iff_created
    (w : World) (templateType : TemplateType) (existsLevel : Level) (comment : string)
    (create : EnvId -> Template -> option Response) (firmId : EnvId) (handle : string) :
  let run := newTemplate templateType existsLevel comment create firmId handle w in
  run.1 = Returned tt /\
  files run.2 = files w /\
  exists events,
    trace run.2 = trace w ++ events /\
    forall recordedType recordedFirm recordedHandle id,
      TemplateIdUpdated recordedType recordedFirm recordedHandle id ∈ events <->
      (recordedType = templateType /\ recordedFirm = firmId /\
       recordedHandle = Some handle /\
       findByHandle templateType (SF w) firm firmId handle = None /\
       exists template response d,
         templates w !! (templateType, handle) = Some template /\
         create firmId (commented comment template) = Some response /\
         status response = Some 201%Z /\
         data response = Some d /\
         id = d_id d).
Proof.
  cbv zeta. rewrite newTemplate_run. cbv zeta.
  destruct (findByHandle templateType (SF w) firm firmId handle) as [existing|] eqn:Hfind.
  { repeat split. eexists. split; [reflexivity|]. intros ????. split.
    - intros Hin. repeat (apply elem_of_cons in Hin as [Hin|Hin]; [discriminate Hin|]).
      inversion Hin.
    - intros (_ & _ & _ & Hnone & _). discriminate Hnone. }
  destruct (templates w !! (templateType, handle)) as [template|] eqn:Htemplate.
  2:{ repeat split. eexists. split; [reflexivity|]. intros ????. split.
      - intros Hin. repeat (apply elem_of_cons in Hin as [Hin|Hin]; [discriminate Hin|]).
        inversion Hin.
      - intros (_ & _ & _ & _ & ? & ? & ? & Hsome & _). discriminate Hsome. }
  destruct (create firmId (commented comment template)) as [response|] eqn:Hcreate.
  2:{ repeat split. eexists. split; [reflexivity|]. intros ????. split.
      - intros Hin. repeat (apply elem_of_cons in Hin as [Hin|Hin]; [discriminate Hin|]).
        inversion Hin.
      - intros (_ & _ & _ & _ & ? & ? & ? & Hsome & Hresponse & _).
        injection Hsome as <-. rewrite Hcreate in Hresponse. discriminate Hresponse. }
  destruct (bool_decide (status response = Some 201%Z)) eqn:Hstatus.
  2:{ apply bool_decide_eq_false in Hstatus.
      repeat split. eexists. split; [reflexivity|]. intros ????. split.
      - intros Hin. repeat (apply elem_of_cons in Hin as [Hin|Hin]; [discriminate Hin|]).
        inversion Hin.
      - intros (_ & _ & _ & _ & ? & ? & ? & Hsome & Hresponse & Hcreated & _).
        injection Hsome as <-. rewrite Hcreate in Hresponse. injection Hresponse as <-.
        contradiction. }
  apply bool_decide_eq_true in Hstatus.
  destruct (data response) as [d|] eqn:Hdata.
  2:{ repeat split. eexists. split; [reflexivity|]. intros ????. split.
      - intros Hin. repeat (apply elem_of_cons in Hin as [Hin|Hin]; [discriminate Hin|]).
        inversion Hin.
      - intros (_ & _ & _ & _ & ? & ? & ? & Hsome & Hresponse & _ & Hsomedata & _).
        injection Hsome as <-. rewrite Hcreate in Hresponse. injection Hresponse as <-.
        rewrite Hdata in Hsomedata. discriminate Hsomedata. }
  repeat split. eexists. split; [reflexivity|]. intros ????. split.
  - intros Hin. repeat (apply elem_of_cons in Hin as [Hin|Hin]; [try discriminate Hin|]).
    + injection Hin as -> -> -> ->. repeat split. exists template, response, d.
      repeat split; assumption.
    + inversion Hin.
  - intros (-> & -> & -> & _ & ? & ? & ? & Hsome & Hresponse & _ & Hsomedata & ->).
    injection Hsome as <-. rewrite Hcreate in Hresponse. injection Hresponse as <-.
    rewrite Hdata in Hsomedata. injection Hsomedata as <-.
    do 3 apply list_elem_of_further. apply list_elem_of_here.
Qed.

(** X15. Creation is attempted exactly when the platform answers the lookup
    with nothing and the template can be read: the lookup is the first
    network call of every run, and one create call follows it in that case
    and in no other. *)
Theorem newTemplate_creates_only_unknown
    (w : World) (templateType : TemplateType) (existsLevel : Level) (comment : string)
    (create : EnvId -> Template -> option Response) (firmId : EnvId) (handle : string) :
  let run := newTemplate templateType existsLevel comment create firmId handle w in
  exists events,
    trace run.2 = trace w ++ events /\
    filter isNetwork events =
      Network (Find templateType firm firmId handle) ::
      match findByHandle templateType (SF w) firm firmId handle,
            templates w !! (templateType, handle) with
      | None, Some _ => [Network (Create templateType firmId)]
      | _, _ => []
      end.
Proof.
  cbv zeta. rewrite newTemplate_run. cbv zeta.
  destruct (findByHandle templateType (SF w) firm firmId handle) as [existing|];
    [eexists; split; reflexivity|].
  destruct (templates w !! (templateType, handle)) as [template|];
    [|eexists; split; reflexivity].
  destruct (create firmId (commented comment template)) as [response|];
    [|eexists; split; reflexivity].
  destruct (bool_decide (status response = Some 201%Z));
    [|eexists; split; reflexivity].
  destruct (data response); eexists; split; reflexivity.
Qed.

(** ** Importing one template *)

Section ImportOne.
Context (more : FurtherCalls).

Lemma fetchReconciliationById_answered_run (w : World) type envId id template :
  fetchReconciliationById_answered type envId id template w =
  let ev := fun l => mkWorld (files w) (templates w) (SF w) (trace w ++ l) in
  match template with
  | Some (Some data) =>
      (Returned tt,
       ev [TemplateSaved reconciliationText type envId data;
           Console success (Imported reconciliationText (r_label data))])
  | _ =>
      (Exited 1, ev [Console error (NotFoundById reconciliationText id)])
  end.
Proof.
  unfold fetchReconciliationById_answered, try_catch, bind, saveTemplate, consola, emit,
    exit, ret.
  destruct template as [[data|]|]; simpl; rewrite <- ?app_assoc; reflexivity.
Qed.

Lemma fetchSharedPartById_run (w : World) type envId sharedPartId :
  fetchSharedPartById type envId sharedPartId w =
  let ev := fun l => mkWorld (files w) (templates w) (SF w) (trace w ++ l) in
  match readSharedPartById (SF w) type envId sharedPartId with
  | Some data =>
      (Returned data,
       ev [Network (ReadById sharedPart type envId sharedPartId);
           TemplateSaved sharedPart type envId data;
           Console success (Imported sharedPart (r_label data))])
  | None =>
      (Exited 1,
       ev [Network (ReadById sharedPart type envId sharedPartId);
           Console error (NotFoundById sharedPart sharedPartId)])
  end.
Proof.
  unfold fetchSharedPartById, fetchSharedPartById_started, fetchSharedPartById_answered,
    try_catch, bind, request, saveTemplate, consola, emit, exit, ret.
  simpl.
  destruct (readSharedPartById (SF w) type envId sharedPartId) as [data|]; simpl;
    rewrite <- ?app_assoc; reflexivity.
Qed.

End ImportOne.


(** X17. [fetchSharedPartByName] returns the shared part that the platform
    holds under the id found by name, after handing it to the save routine
    once.  When the name is not found, or nothing is read under the id,
    nothing is saved and the process ends with code 1; a name that is not
    found costs no second call. *)
Theorem fetchSharedPartByName_outcome
    (w : World) (type : Scope) (envId : EnvId) (name : string) :
  let run := fetchSharedPartByName type envId name w in
  let found := findSharedPartByName (SF w) type envId name in
  exists events,
    trace run.2 = trace w ++ events /\
    match found ≫= fun byName => readSharedPartById (SF w) type envId (r_id byName) with
    | Some data => run.1 = Returned data /\ saved events = [data]
    | None => run.1 = Exited 1 /\ saved events = []
    end /\
    filter isNetwork events =
      Network (Find sharedPart type envId name) ::
      match found with
      | Some byName => [Network (ReadById sharedPart type envId (r_id byName))]
      | None => []
      end.
Proof.
  cbv zeta.
  destruct (fetchSharedPartByName type envId name w) as [outcome w'] eqn:Hrun.
  revert Hrun. unfold fetchSharedPartByName.
  unfold bind at 1. unfold request at 1.
  destruct (findSharedPartByName (SF w) type envId name) as [byName|].
  - rewrite fetchSharedPartById_run. cbn [SF files templates trace option_bind mbind].
    destruct (readSharedPartById (SF w) type envId (r_id byName)) as [data|];
      intros [= <- <-]; cbn [fst snd files trace];
      eexists; (split; [rewrite <- ?app_assoc; reflexivity|]);
      (split; [split; reflexivity|reflexivity]).
  - unfold bind, consola, emit, exit. cbn. intros [= <- <-].
    cbn [fst snd files trace].
    eexists. split; [rewrite <- ?app_assoc; reflexivity|].
    split; [split; reflexivity|reflexivity].
Qed.

(** ** Creating an account template *)

(** X20. [newAccountTemplate] files the new id under the Dutch name that the
    create call answers with, not under the name it was called with: the id
    is handed to the template class if and only if the platform did not know
    the name, the template could be read, and the create call was answered
    with status 201 and a [data] object, and then under the [name_nl] of that
    object, which may be missing or differ from the name of the call. *)
Theorem newAccountTemplate_records_id_under_echoed_name
    (w : World) (firmId : EnvId) (name : string) :
  let run := newAccountTemplate firmId name w in
  run.1 = Returned tt /\
  files run.2 = files w /\
  exists events,
    trace run.2 = trace w ++ events /\
    forall recordedType recordedFirm recordedHandle id,
      TemplateIdUpdated recordedType recordedFirm recordedHandle id ∈ events <->
      (recordedType = accountTemplate /\ recordedFirm = firmId /\
       findAccountTemplateByName (SF w) firm firmId name = None /\
       exists template response d,
         templates w !! (accountTemplate, name) = Some template /\
         createAccountTemplate (SF w) firmId
           (commented "Created through the Silverfin CLI" template) = Some response /\
         status response = Some 201%Z /\
         data response = Some d /\
         recordedHandle = d_name_nl d /\
         id = d_id d).
Proof.
  cbv zeta. unfold newAccountTemplate, try_catch.
  rewrite newAccountTemplate_try_run. cbv zeta.
  destruct (findAccountTemplateByName (SF w) firm firmId name) as [existing|] eqn:Hfind.
  { repeat split. eexists. split; [reflexivity|]. intros ????. split.
    - intros Hin. repeat (apply elem_of_cons in Hin as [Hin|Hin]; [discriminate Hin|]).
      inversion Hin.
    - intros (_ & _ & Hnone & _). discriminate Hnone. }
  destruct (templates w !! (accountTemplate, name)) as [template|] eqn:Htemplate.
  2:{ repeat split. eexists. split; [reflexivity|]. intros ????. split.
      - intros Hin. repeat (apply elem_of_cons in Hin as [Hin|Hin]; [discriminate Hin|]).
        inversion Hin.
      - intros (_ & _ & _ & ? & ? & ? & Hsome & _). discriminate Hsome. }
  destruct (createAccountTemplate (SF w) firmId _) as [response|] eqn:Hcreate.
  2:{ unfold errorHandler, emit. cbn [fst snd files trace].
      repeat split. eexists. split; [rewrite <- app_assoc; reflexivity|].
      intros ????. split.
      - intros Hin. repeat (apply elem_of_cons in Hin as [Hin|Hin]; [discriminate Hin|]).
        inversion Hin.
      - intros (_ & _ & _ & ? & ? & ? & Hsome & Hresponse & _).
        injection Hsome as <-. rewrite Hcreate in Hresponse. discriminate Hresponse. }
  destruct (data response) as [d|] eqn:Hdata.
  2:{ unfold errorHandler, emit. cbn [fst snd files trace].
      repeat split. eexists. split; [rewrite <- app_assoc; reflexivity|].
      intros ????. split.
      - intros Hin. repeat (apply elem_of_cons in Hin as [Hin|Hin]; [discriminate Hin|]).
        inversion Hin.
      - intros (_ & _ & _ & ? & ? & ? & Hsome & Hresponse & _ & Hsomedata & _).
        injection Hsome as <-. rewrite Hcreate in Hresponse. injection Hresponse as <-.
        rewrite Hdata in Hsomedata. discriminate Hsomedata. }
  destruct (bool_decide (status response = Some 201%Z)) eqn:Hstatus.
  2:{ apply bool_decide_eq_false in Hstatus.
      repeat split. eexists. split; [reflexivity|]. intros ????. split.
      - intros Hin. repeat (apply elem_of_cons in Hin as [Hin|Hin]; [discriminate Hin|]).
        inversion Hin.
      - intros (_ & _ & _ & ? & ? & ? & Hsome & Hresponse & Hcreated & _).
        injection Hsome as <-. rewrite Hcreate in Hresponse. injection Hresponse as <-.
        contradiction. }
  apply bool_decide_eq_true in Hstatus.
  repeat split. eexists. split; [reflexivity|]. intros ????. split.
  - intros Hin. cbn [app] in Hin.
    repeat (apply elem_of_cons in Hin as [Hin|Hin]; [try discriminate Hin|]).
    + injection Hin as -> -> -> ->. repeat split. exists template, response, d.
      repeat split; assumption.
    + inversion Hin.
  - intros (-> & -> & _ & ? & ? & ? & Hsome & Hresponse & _ & Hsomedata & -> & ->).
    injection Hsome as <-. rewrite Hcreate in Hresponse. injection Hresponse as <-.
    rewrite Hdata in Hsomedata. injection Hsomedata as <-.
    cbn [app]. do 3 apply list_elem_of_further. apply list_elem_of_here.
Qed.

(** ** The flag names of the command line *)

Lemma all_ascii (character : Ascii.ascii) :
  character ∈ map Ascii.ascii_of_nat (seq 0 256).
Proof.
  apply list_elem_of_fmap. exists (Ascii.nat_of_ascii character). split.
  - symmetry. apply Ascii.ascii_nat_embedding.
  - apply elem_of_seq. pose proof (Ascii.nat_ascii_bounded character). lia.
Qed.

Lemma for_all_ascii (P : Ascii.ascii -> bool) :
  forallb P (map Ascii.ascii_of_nat (seq 0 256)) = true -> forall character, P character = true.
Proof.
  intros Hall character. rewrite forallb_forall in Hall. apply Hall.
  apply list_elem_of_In, all_ascii.
Qed.

Lemma formatOption_cons (character : Ascii.ascii) (inputString : string) :
  Cli.formatOption (String character inputString) =
  (if Ascii.eqb character (Cli.toUpperCase character)
   then String "-"%char
               (String (Cli.toLowerCase character) (Cli.formatOption inputString))
   else String character (Cli.formatOption inputString)).
Proof.
  unfold Cli.formatOption. cbn [list_ascii_of_string map].
  set (formatted := map _ (list_ascii_of_string inputString)).
  destruct formatted as [|next formatted]; cbn [String.concat];
    destruct (Ascii.eqb character (Cli.toUpperCase character)); reflexivity.
Qed.

Lemma dash_is_formatted :
  forall character,
    Ascii.eqb character (Cli.toUpperCase character) = false ->
    character <> "-"%char.
Proof.
  intros character Hlower ->. vm_compute in Hlower. discriminate Hlower.
Qed.

Lemma toLowerCase_injective :
  forall c1 c2,
    Ascii.eqb c1 (Cli.toUpperCase c1) = true ->
    Ascii.eqb c2 (Cli.toUpperCase c2) = true ->
    Cli.toLowerCase c1 = Cli.toLowerCase c2 ->
    c1 = c2.
Proof.
  assert (Hall :
            forall c1 c2,
              (negb (Ascii.eqb c1 (Cli.toUpperCase c1))
               || negb (Ascii.eqb c2 (Cli.toUpperCase c2))
               || negb (Ascii.eqb (Cli.toLowerCase c1) (Cli.toLowerCase c2))
               || Ascii.eqb c1 c2) = true).
  { intros c1. apply for_all_ascii. revert c1.
    apply (for_all_ascii
             (fun c1 =>
                forallb (fun c2 =>
                           negb (Ascii.eqb c1 (Cli.toUpperCase c1))
                           || negb (Ascii.eqb c2 (Cli.toUpperCase c2))
                           || negb (Ascii.eqb (Cli.toLowerCase c1) (Cli.toLowerCase c2))
                           || Ascii.eqb c1 c2)
                        (map Ascii.ascii_of_nat (seq 0 256)))).
    vm_compute. reflexivity. }
  intros c1 c2 H1 H2 Hlow. specialize (Hall c1 c2).
  rewrite H1, H2, Hlow, Ascii.eqb_refl in Hall. cbn in Hall.
  apply Ascii.eqb_eq. exact Hall.
Qed.

(** X21. [formatOption] names every option unambiguously: two option names
    that are shown as the same flag are the same name. *)
Theorem formatOption_injective (option1 option2 : string) :
  Cli.isAscii option1 -> Cli.isAscii option2 ->
  Cli.formatOption option1 = Cli.formatOption option2 ->
  option1 = option2.
Proof.
  intros _ _. revert option2.
  induction option1 as [|c1 option1 IH]; intros [|c2 option2];
    rewrite ?formatOption_cons.
  - reflexivity.
  - destruct (Ascii.eqb c2 (Cli.toUpperCase c2)); discriminate.
  - destruct (Ascii.eqb c1 (Cli.toUpperCase c1)); discriminate.
  - destruct (Ascii.eqb c1 (Cli.toUpperCase c1)) eqn:H1,
             (Ascii.eqb c2 (Cli.toUpperCase c2)) eqn:H2.
    + intros [= Hlow Hrest]. f_equal; [|apply IH; exact Hrest].
      apply toLowerCase_injective; assumption.
    + intros [= Hdash _]. symmetry in Hdash.
      destruct (dash_is_formatted c2 H2 Hdash).
    + intros [= Hdash _]. destruct (dash_is_formatted c1 H1 Hdash).
    + intros [= -> Hrest]. f_equal. apply IH. exact Hrest.
Qed.

Lemma formatOption_injective_witness :
  Cli.isAscii "listAll" /\
  Cli.formatOption "listAll" = "list-all" /\
  "listAll" = "listAll".
Proof.
  assert (Hascii : Cli.isAscii "listAll")
    by (unfold Cli.isAscii; repeat constructor).
  split; [exact Hascii|]. split; [reflexivity|].
  exact (formatOption_injective "listAll" "listAll" Hascii Hascii eq_refl).
Defined.

(** X22. A flag name as [formatOption] shows it has no capital letter, and
    it is longer than the option name by the number of characters of the
    name that are not small letters: each of those gets a dash in front. *)
Theorem formatOption_lower_case (option : string) :
  Cli.isAscii option ->
  Forall (fun character => Cli.isUpperCase character = false)
         (list_ascii_of_string (Cli.formatOption option)) /\
  String.length (Cli.formatOption option) =
    (String.length option +
     length (filter (fun character => Cli.isLowerCase character = false)
                    (list_ascii_of_string option)))%nat.
Proof.
  intros _.
  assert (Hchar :
            forall character,
              (if Ascii.eqb character (Cli.toUpperCase character)
               then negb (Cli.isLowerCase character)
                    && negb (Cli.isUpperCase (Cli.toLowerCase character))
               else Cli.isLowerCase character && negb (Cli.isUpperCase character)) = true).
  { apply (for_all_ascii
             (fun character =>
                if Ascii.eqb character (Cli.toUpperCase character)
                then negb (Cli.isLowerCase character)
                     && negb (Cli.isUpperCase (Cli.toLowerCase character))
                else Cli.isLowerCase character && negb (Cli.isUpperCase character))).
    vm_compute. reflexivity. }
  induction option as [|character option [IHcase IHlength]].
  - split; [constructor|reflexivity].
  - rewrite formatOption_cons. specialize (Hchar character).
    destruct (Ascii.eqb character (Cli.toUpperCase character));
      apply andb_true_iff in Hchar as [Hlower Hupper];
      apply negb_true_iff in Hupper.
    + apply negb_true_iff in Hlower. split.
      * cbn [list_ascii_of_string]. constructor; [reflexivity|].
        constructor; [exact Hupper|exact IHcase].
      * cbn [String.length list_ascii_of_string]. rewrite filter_cons_True by exact Hlower.
        cbn [length]. rewrite IHlength. lia.
    + split.
      * cbn [list_ascii_of_string]. constructor; [exact Hupper|exact IHcase].
      * cbn [String.length list_ascii_of_string].
        rewrite filter_cons_False by (rewrite Hlower; discriminate).
        rewrite IHlength. lia.
Qed.

Lemma formatOption_lower_case_witness :
  Cli.isAscii "listAll" /\
  Forall (fun character => Cli.isUpperCase character = false)
         (list_ascii_of_string (Cli.formatOption "listAll")) /\
  String.length (Cli.formatOption "listAll") =
    (String.length "listAll" +
     length (filter (fun character => Cli.isLowerCase character = false)
                    (list_ascii_of_string "listAll")))%nat.
Proof.
  assert (Hascii : Cli.isAscii "listAll")
    by (unfold Cli.isAscii; repeat constructor).
  split; [exact Hascii|].
  exact (formatOption_lower_case "listAll" Hascii).
Defined.

(** ** Creating every template of a kind *)

Lemma newTemplate_step (w : World) templateType existsLevel comment create firmId handle :
  exists events,
    newTemplate templateType existsLevel comment create firmId handle w =
      (Returned tt, mkWorld (files w) (templates w) (SF w) (trace w ++ events)) /\
    filter isNetwork events = creationCalls w templateType firmId handle.
Proof.
  rewrite newTemplate_run. cbv zeta. unfold creationCalls.
  destruct (findByHandle templateType (SF w) firm firmId handle);
    [eexists; split; reflexivity|].
  destruct (templates w !! (templateType, handle)) as [template|];
    [|eexists; split; reflexivity].
  destruct (create firmId (commented comment template)) as [response|];
    [|eexists; split; reflexivity].
  destruct (bool_decide (status response = Some 201%Z));
    [|eexists; split; reflexivity].
  destruct (data response); eexists; split; reflexivity.
Qed.

(** X23. Creating all templates of a kind goes through the whole listing,
    whatever the platform answers: the call returns, every listed handle is
    looked up, in the order of the listing, and a create call follows the
    lookup exactly for the handles for which the lookup is answered with
    nothing and whose template can be read. *)
Theorem newAllTemplates_creates_unknown
    (getAllTemplatesOfAType : TemplateType -> list string)
    (w : World) (templateType : TemplateType) (existsLevel : Level) (comment : string)
    (create : EnvId -> Template -> option Response) (firmId : EnvId) :
  let run :=
    newAllTemplates getAllTemplatesOfAType templateType existsLevel comment create
                    firmId w in
  run.1 = Returned tt /\
  exists events,
    trace run.2 = trace w ++ events /\
    filter isNetwork events =
      flat_map (creationCalls w templateType firmId) (getAllTemplatesOfAType templateType).
Proof.
  unfold newAllTemplates. cbv zeta.
  generalize (getAllTemplatesOfAType templateType) as listing.
  intros listing.
  assert (Hloop :
            forall w0, templates w0 = templates w -> SF w0 = SF w ->
              let run :=
                forOf listing
                  (fun handle =>
                     newTemplate templateType existsLevel comment create firmId handle) w0 in
              run.1 = Returned tt /\
              exists events,
                trace run.2 = trace w0 ++ events /\
                filter isNetwork events =
                  flat_map (creationCalls w templateType firmId) listing).
  { induction listing as [|handle listing IH]; intros w0 Htemplates HSF; cbv zeta.
    - simpl. split; [reflexivity|].
      exists []. rewrite app_nil_r. split; reflexivity.
    - destruct (newTemplate_step w0 templateType existsLevel comment create firmId handle)
        as (events & Hrun & Hnetwork).
      set (w1 := mkWorld (files w0) (templates w0) (SF w0) (trace w0 ++ events)) in *.
      rewrite forOf_cons, (bind_Returned _ _ w0 w1 tt Hrun).
      destruct (IH w1 Htemplates HSF) as (Hresult & later & Htrace & Hlater).
      split; [exact Hresult|].
      exists (events ++ later). split.
      + rewrite Htrace. subst w1. simpl. rewrite app_assoc. reflexivity.
      + rewrite filter_app, Hnetwork, Hlater. cbn [flat_map]. f_equal.
        unfold creationCalls. rewrite HSF, Htemplates. reflexivity. }
  exact (Hloop w eq_refl eq_refl).
Qed.

(** ** The first [index.js]: attaching without an id object *)

(** X24. In the first [index.js], a config without an [id] object stops an
    attach before anything is done: [addSharedPartToReconciliation] reads
    [config.id[firmId]] unguarded, so when the reconciliation's config has no
    [id] object, or it has the firm's id and the shared part's config has no
    [id] object, the call ends in the error handler with a [TypeError]; no
    lookup and no attach call is made and no file is written. *)
Theorem legacy_addSharedPartToReconciliation_needs_id_object
    (w : Legacy.World) (firmId : EnvId) (sharedPartHandle reconciliationHandle : string) :
  let configReconciliation :=
    default Legacy.emptyConfig (Legacy.files w !! (reconciliationText, reconciliationHandle)) in
  let configSharedPart :=
    default Legacy.emptyConfig (Legacy.files w !! (sharedPart, sharedPartHandle)) in
  Legacy.c_id configReconciliation = None \/
  (is_Some (Legacy.c_id configReconciliation ≫= fun ids => ids !! firmId) /\
   Legacy.c_id configSharedPart = None) ->
  Legacy.addSharedPartToReconciliation firmId sharedPartHandle reconciliationHandle w =
    (Returned false,
     Legacy.mkWorld (Legacy.files w) (Legacy.SF w)
       (Legacy.trace w ++
        [Legacy.ConfigRead reconciliationText reconciliationHandle;
         Legacy.ConfigRead sharedPart sharedPartHandle;
         Legacy.ErrorHandler TypeError])).
Proof.
  cbv zeta. intros Hmissing.
  unfold Legacy.addSharedPartToReconciliation, try_catch, bind, Legacy.readConfig,
    Legacy.resolveMissing, Legacy.idOf, Legacy.errorHandler, Legacy.emit, throw, ret.
  cbn [Legacy.files Legacy.SF Legacy.trace].
  destruct (Legacy.c_id (default Legacy.emptyConfig
                           (Legacy.files w !! (reconciliationText, reconciliationHandle))))
    as [ids|].
  - destruct Hmissing as [Hnone|[[id Hid] Hnone]]; [discriminate Hnone|].
    cbn in Hid. unfold bind. rewrite Hid, Hnone. cbn.
    rewrite <- !app_assoc. reflexivity.
  - cbn. rewrite <- !app_assoc. reflexivity.
Qed.

Lemma legacy_addSharedPartToReconciliation_needs_id_object_witness :
  let w := Legacy.mkWorld ∅ (Legacy.SF Legacy.platformDown) [] in
  Legacy.addSharedPartToReconciliation 111 "sp_x" "recon_y" w =
    (Returned false,
     Legacy.mkWorld ∅ (Legacy.SF w)
       [Legacy.ConfigRead reconciliationText "recon_y";
        Legacy.ConfigRead sharedPart "sp_x";
        Legacy.ErrorHandler TypeError]).
Proof.
  intros w.
  exact (legacy_addSharedPartToReconciliation_needs_id_object w 111 "sp_x" "recon_y"
           (or_introl eq_refl)).
Defined.

(** ** Looking an id up and publishing *)

(** X25. A template whose id was just looked up can be published: after a
    [getTemplateId] that found the template on the platform, publishing the
    same handle for the same scope and environment does not stop at a missing
    id; when the template can be read it makes exactly one network call, the
    update call with the id that was found, and it leaves the config files
    as the lookup wrote them. *)
Theorem publish_after_lookup_updates_found_id
    (w : World) (type : Scope) (envId : EnvId) (templateType : TemplateType)
    (handle message : string) (found : Remote) (template : Template) :
  findByHandle templateType (SF w) type envId handle = Some found ->
  templates w !! (templateType, handle) = Some template ->
  let w1 := (getTemplateId type envId templateType handle w).2 in
  let run := publishTemplate templateType type envId handle message w1 in
  files run.2 = files w1 /\
  exists events,
    trace run.2 = trace w1 ++ events /\
    filter isNetwork events = [Network (Update templateType type envId (r_id found))] /\
    MissingId templateType handle ∉
      omap (fun e => match e with Console _ m => Some m | _ => None end) events.
Proof.
  intros Hfound Htemplate. cbv zeta.
  rewrite getTemplateId_run, Hfound. cbv zeta. cbn [snd].
  rewrite publishTemplate_run. cbn [files templates SF trace].
  rewrite lookup_insert_eq, configId_withDiscoveredId, Htemplate. cbv zeta.
  destruct (echoed templateType _); cbn [fst snd files trace];
    (split; [reflexivity|]); eexists; (split; [reflexivity|]);
    (split; [reflexivity|]); cbn;
    intros Hin;
    repeat (apply elem_of_cons in Hin as [Hin|Hin]; [discriminate Hin|]);
    inversion Hin.
Qed.

Lemma publish_after_lookup_updates_found_id_witness :
  let w :=
    Sample.repository
      (Sample.platform (fun _ _ => Some (mkRemote 42 "recon_y")) (fun _ _ => [])
         (fun _ => None) None None None None) in
  let w1 := (getTemplateId firm 222 reconciliationText "recon_y" w).2 in
  let run := publishTemplate reconciliationText firm 222 "recon_y" "message" w1 in
  files run.2 = files w1 /\
  exists events,
    trace run.2 = trace w1 ++ events /\
    filter isNetwork events = [Network (Update reconciliationText firm 222 42%positive)] /\
    MissingId reconciliationText "recon_y" ∉
      omap (fun e => match e with Console _ m => Some m | _ => None end) events.
Proof.
  intros w.
  exact (publish_after_lookup_updates_found_id w firm 222 reconciliationText "recon_y"
           "message" (mkRemote 42 "recon_y") Sample.body eq_refl eq_refl).
Defined.
